(** * ONNX to CoreML per-node conversion ([onnx_coreml/_operators_nd.py])

    A shallow embedding of the per-operator converters and of the
    dispatcher.  The two mutable objects every converter receives, the
    builder (an append-only log of layer-adding calls) and the graph (its
    [constants_loaded] set), are threaded as explicit state; a Python
    exception ends the computation and keeps the state reached so far,
    as the mutated objects do in the source. *)

From Stdlib Require Import ZArith QArith.
From stdpp Require Import gmap strings list pretty.

Local Open Scope string_scope.
Local Open Scope list_scope.
Local Open Scope Z_scope.

(** The sentinel the source calls [INT_MAX]. *)
Definition INT_MAX : Z := 2 ^ 30.

(** Elements of numpy arrays.  The converters add them ([b_Wi + b_Ri]) and
    compare them with integer literals ([i == 0]); [scalar_int x] is the
    integer [x] is equal to, if there is one. *)
Class Scalar (scalar : Type) := {
  scalar_add : scalar -> scalar -> scalar;
  scalar_int : scalar -> option Z
}.

Section Conversion.

Context `{Scalar scalar}.

(** ** Data model *)

(** A numpy array: its shape and its elements in row-major order. *)
Record ndarray := NDArray { shape : list nat; data : list scalar }.

(** A node attribute, typed as ONNX types attributes (INT, FLOAT, STRING,
    TENSOR, INTS, FLOATS, STRINGS).  A float is kept as the rational it
    denotes. *)
Inductive attr :=
| AInt (z : Z)
| AFloat (q : Q)
| ABytes (s : string)
| ATensor (a : ndarray)
| AInts (l : list Z)
| AFloats (l : list Q)
| AStrings (l : list string).

(** Python values passed to the builder.  [VList] stands for lists and
    tuples alike. *)
#[warnings="-register-all"]
Inductive value :=
| VNone
| VBool (b : bool)
| VInt (z : Z)
| VFloat (q : Q)
| VStr (s : string)
| VBytes (s : string)
| VScalar (x : scalar)
| VArray (a : ndarray)
| VList (l : list value).

(** One call [builder.<method>(k1=v1, ...)]. *)
Record layer := Layer { method : string; kwargs : list (string * value) }.

Record Node := {
  name : string;
  op_type : string;
  inputs : list string;
  outputs : list string;
  attrs : gmap string attr;
  input_tensors : gmap string ndarray
}.

Record Graph := {
  shape_dict : gmap string (list Z);
  constants_loaded : gset string
}.

(** The state of a conversion pass: the calls made on the builder, oldest
    first, and the graph. *)
Record world := World { builder : list layer; graph : Graph }.

Inductive exn :=
| UnsupportedOp (op : string)
| UnsupportedOpConfiguration (msg : string)
| MissingInitializer (msg : string)
| PyTypeError
| PyAttributeError
| PyIndexError
| PyKeyError
| PyValueError
| PyZeroDivisionError
| PyUnboundLocalError.

Inductive outcome (A : Type) :=
| Ok (a : A) (w : world)
| Raise (e : exn) (w : world).
Global Arguments Ok {A} a w.
Global Arguments Raise {A} e w.

Definition final {A} (o : outcome A) : world :=
  match o with Ok _ w => w | Raise _ w => w end.

Definition M (A : Type) : Type := world -> outcome A.

Definition ret {A} (a : A) : M A := fun w => Ok a w.
Definition raise {A} (e : exn) : M A := fun w => Raise e w.
Definition bind {A B} (m : M A) (f : A -> M B) : M B :=
  fun w => match m w with
           | Ok a w' => f a w'
           | Raise e w' => Raise e w'
           end.

Notation "'let*' x ':=' m 'in' k" := (bind m (fun x => k))
  (at level 10, x name, m at level 100, k at level 200).
Notation "m ';;' k" := (bind m (fun _ => k))
  (at level 100, k at level 200, right associativity, only parsing).

(** [f(m)] for a computation [m]. *)
Definition fmapM {A B} (f : A -> B) (m : M A) : M B :=
  let* a := m in ret (f a).

(** ** Python and numpy operations the converters use *)

Definition len {A} (l : list A) : Z := Z.of_nat (length l).

(** [range(lo, hi)] *)
Definition range (lo hi : Z) : list Z := seqZ lo (hi - lo).

(** [str(i)] *)
Definition str (i : Z) : string := pretty i.

(** [l[i]], with Python's negative indices. *)
Definition getitem {A} (l : list A) (i : Z) : M A :=
  let j := if i <? 0 then i + len l else i in
  if j <? 0 then raise PyIndexError
  else match l !! Z.to_nat j with
       | Some x => ret x
       | None => raise PyIndexError
       end.

(** [l[i] = x] *)
Definition setitem {A} (l : list A) (i : Z) (x : A) : M (list A) :=
  let j := if i <? 0 then i + len l else i in
  if (j <? 0) || (len l <=? j) then raise PyIndexError
  else ret (<[Z.to_nat j := x]> l).

(** [for x in l: s = body(x, s)] *)
Fixpoint for_each {A S} (l : list A) (body : A -> S -> M S) (s : S) : M S :=
  match l with
  | [] => ret s
  | x :: l' => let* s' := body x s in for_each l' body s'
  end.

Definition value_of_attr (a : attr) : value :=
  match a with
  | AInt z => VInt z
  | AFloat q => VFloat q
  | ABytes s => VBytes s
  | ATensor t => VArray t
  | AInts l => VList (VInt <$> l)
  | AFloats l => VList (VFloat <$> l)
  | AStrings l => VList (VStr <$> l)
  end.

(** [node.attrs.get(k)] and [node.attrs.get(k, d)], as builder arguments. *)
Definition attrs_get (node : Node) (k : string) (d : value) : value :=
  match attrs node !! k with
  | Some a => value_of_attr a
  | None => d
  end.

(** [node.attrs[k]] *)
Definition attrs_item (node : Node) (k : string) : M attr :=
  match attrs node !! k with
  | Some a => ret a
  | None => raise PyKeyError
  end.

Definition is_None (v : value) : bool :=
  match v with VNone => true | _ => false end.

Definition names (l : list string) : value := VList (VStr <$> l).
Definition ints (l : list Z) : value := VList (VInt <$> l).
Definition bools (l : list bool) : value := VList (VBool <$> l).
Definition arrays (l : list ndarray) : value := VList (VArray <$> l).

(** [a.shape], as a builder argument. *)
Definition shape_value (a : ndarray) : value := ints (Z.of_nat <$> shape a).

(** [[1] if value.shape == () else value.shape] *)
Definition load_constant_shape (v : ndarray) : value :=
  match shape v with
  | [] => ints [1]
  | _ => shape_value v
  end.

(** Number of elements of an array of the given shape. *)
Definition size_of (shp : list nat) : nat := foldr Nat.mul 1%nat shp.

(** [len(a)] and [a[i]] for an attribute. *)
Definition attr_len (a : attr) : M Z :=
  match a with
  | AInts l => ret (len l)
  | AFloats l => ret (len l)
  | AStrings l => ret (len l)
  | ABytes s => ret (Z.of_nat (String.length s))
  | ATensor t =>
      match shape t with
      | [] => raise PyTypeError
      | n :: _ => ret (Z.of_nat n)
      end
  | AInt _ | AFloat _ => raise PyTypeError
  end.

Definition attr_getitem (a : attr) (i : Z) : M value :=
  match a with
  | AInts l => fmapM VInt (getitem l i)
  | AFloats l => fmapM VFloat (getitem l i)
  | AStrings l => fmapM VStr (getitem l i)
  | ABytes s =>
      fmapM (fun c => VInt (Z.of_nat (Ascii.nat_of_ascii c)))
        (getitem (String.list_ascii_of_string s) i)
  | ATensor t =>
      match shape t with
      | [] => raise PyIndexError
      | [_] => fmapM VScalar (getitem (data t) i)
      | n :: rest =>
          let j := if i <? 0 then i + Z.of_nat n else i in
          if (j <? 0) || (Z.of_nat n <=? j) then raise PyIndexError
          else ret (VArray (NDArray rest
                 (take (size_of rest) (drop (Z.to_nat j * size_of rest) (data t)))))
      end
  | AInt _ | AFloat _ => raise PyTypeError
  end.

(** [a.decode('utf-8')]: only a byte string has the method. *)
Definition decode (a : attr) : M string :=
  match a with
  | ABytes s => ret s
  | _ => raise PyAttributeError
  end.

(** Reading a local variable that may not have been assigned. *)
Definition local {A} (x : option A) : M A :=
  match x with
  | Some v => ret v
  | None => raise PyUnboundLocalError
  end.

Definition opt_name (x : option string) : value :=
  match x with Some s => VStr s | None => VNone end.
Definition opt_arrays (x : option (list ndarray)) : value :=
  match x with Some l => arrays l | None => VNone end.

(** [value[0]] where [value] is an attribute or the default [[0.0]]. *)
Definition attr_first (a : option attr) : M value :=
  match a with
  | Some a => attr_getitem a 0
  | None => ret (VFloat 0)
  end.

(** The builder only records the call: its methods append one layer and
    do nothing else. *)
Definition add_layer (m : string) (kw : list (string * value)) : M unit :=
  fun w => Ok tt (World (builder w ++ [Layer m kw]) (graph w)).

(** [x in graph.constants_loaded] *)
Definition in_constants_loaded (x : string) : M bool :=
  fun w => Ok (bool_decide (x ∈ constants_loaded (graph w))) w.

(** [graph.constants_loaded.add(x)] *)
Definition constants_loaded_add (x : string) : M unit :=
  fun w => Ok tt (World (builder w)
                    {| shape_dict := shape_dict (graph w);
                       constants_loaded := {[x]} ∪ constants_loaded (graph w) |}).

(** [graph.constants_loaded(x)]: the attribute is a set, and a set is not
    callable. *)
Definition constants_loaded_call (x : string) : M unit := raise PyTypeError.

(** [graph.shape_dict[x]] and [x in graph.shape_dict] *)
Definition shape_dict_item (x : string) : M (list Z) :=
  fun w => match shape_dict (graph w) !! x with
           | Some s => Ok s w
           | None => Raise PyKeyError w
           end.
Definition in_shape_dict (x : string) : M bool :=
  fun w => Ok (bool_decide (is_Some (shape_dict (graph w) !! x))) w.

(** Modelled from the spec: the error collaborator ([_error_utils.py] is
    not part of the sources at hand).  [unsupported_op],
    [unsupported_op_configuration] and [missing_initializer] are fatal and
    abort the pass; [unsupported_feature_warning] is advisory and the
    conversion goes on. *)
Definition unsupported_op {A} (node : Node) : M A :=
  raise (UnsupportedOp (op_type node)).
Definition unsupported_op_configuration (node : Node) (msg : string) : M unit :=
  raise (UnsupportedOpConfiguration msg).
Definition missing_initializer (node : Node) (msg : string) : M unit :=
  raise (MissingInitializer msg).
Definition unsupported_feature_warning (node : Node) (msg : string) : M unit :=
  ret tt.

(** ** The converters *)

(** The constant-loading call shared by several converters. *)
Definition add_load_constant_nd (name output_name : string)
    (constant_value shape : value) : M unit :=
  add_layer "add_load_constant_nd"
    [("name", VStr name); ("output_name", VStr output_name);
     ("constant_value", constant_value); ("shape", shape)].

Definition _convert_concat (node : Node) : M unit :=
  let axis := attrs_get node "axis" VNone in
  for_each (range 0 (len (inputs node))) (fun i (_ : unit) =>
    let* input_i := getitem (inputs node) i in
    let* loaded := in_constants_loaded input_i in
    match input_tensors node !! input_i with
    | Some val =>
        if loaded then ret tt
        else
          add_load_constant_nd (name node +:+ "_load_constant_" +:+ str i)
            input_i (VArray val) (load_constant_shape val);;
          constants_loaded_add input_i
    | None => ret tt
    end) tt;;
  let* output_0 := getitem (outputs node) 0 in
  add_layer "add_concat_nd"
    [("name", VStr (name node)); ("input_names", names (inputs node));
     ("output_name", VStr output_0); ("axis", axis)].

(** [value.shape] of an attribute: only a tensor has one. *)
Definition attr_tensor (a : attr) : M ndarray :=
  match a with
  | ATensor t => ret t
  | _ => raise PyAttributeError
  end.

Definition _convert_constant (node : Node) : M unit :=
  let* val := attrs_item node "value" in
  let* output_0 := getitem (outputs node) 0 in
  let* t := attr_tensor val in
  add_load_constant_nd (name node) output_0 (VArray t) (load_constant_shape t);;
  constants_loaded_call output_0.

Definition _convert_constant_of_shape (node : Node) : M unit :=
  let val := attrs node !! "value" in
  let* input_0 := getitem (inputs node) 0 in
  match input_tensors node !! input_0 with
  | Some output_shape =>
      let output_shape :=
        match shape output_shape with
        | [n] => NDArray [n; 1%nat] (data output_shape)
        | _ => output_shape
        end in
      let* output_0 := getitem (outputs node) 0 in
      let* value_0 := attr_first val in
      add_layer "add_fill_static"
        [("name", VStr (name node)); ("output_name", VStr output_0);
         ("output_shape", VArray output_shape); ("value", value_0)]
  | None =>
      let* output_0 := getitem (outputs node) 0 in
      let* value_0 := attr_first val in
      add_layer "add_fill_dynamic"
        [("name", VStr (name node)); ("input_name", VStr input_0);
         ("output_name", VStr output_0); ("value", value_0)]
  end.

Definition _convert_gather (node : Node) : M unit :=
  let axis := attrs_get node "axis" (VInt 0) in
  (if len (inputs node) =? 2 then ret tt
   else unsupported_op_configuration node
          "Error in ONNX model: Gather expects two inputs");;
  let* input_0 := getitem (inputs node) 0 in
  let* loaded := in_constants_loaded input_0 in
  match input_tensors node !! input_0 with
  | Some val =>
      if loaded then ret tt
      else
        add_load_constant_nd (name node +:+ "_load_data") input_0
          (VArray val) (load_constant_shape val);;
        constants_loaded_add input_0
  | None => ret tt
  end;;
  let* input_1 := getitem (inputs node) 1 in
  let* loaded := in_constants_loaded input_1 in
  match input_tensors node !! input_1 with
  | Some val =>
      if loaded then ret tt
      else
        add_load_constant_nd (name node +:+ "_load_indices") input_1
          (VArray val) (load_constant_shape val);;
        constants_loaded_add input_1
  | None => ret tt
  end;;
  let* output_0 := getitem (outputs node) 0 in
  add_layer "add_gather"
    [("name", VStr (name node)); ("input_names", names [input_0; input_1]);
     ("output_name", VStr output_0); ("axis", axis)].

Definition _convert_matmul (node : Node) : M unit :=
  let* weight_name := getitem (inputs node) 1 in
  let W := input_tensors node !! weight_name in
  let* weight_as_layer_parameter :=
    match W with
    | Some W =>
        if len (shape W) =? 2 then ret true
        else
          add_load_constant_nd (name node +:+ "_const_weight_input")
            weight_name (VArray W) (shape_value W);;
          ret false
    | None => ret false
    end in
  let* input_0 := getitem (inputs node) 0 in
  let* output_0 := getitem (outputs node) 0 in
  match W with
  | Some W =>
      if weight_as_layer_parameter then
        let* rows := getitem (shape W) 0 in
        let* columns := getitem (shape W) 1 in
        add_layer "add_batched_mat_mul"
          [("name", VStr (name node)); ("input_names", names [input_0]);
           ("output_name", VStr output_0);
           ("weight_matrix_rows", VInt (Z.of_nat rows));
           ("weight_matrix_columns", VInt (Z.of_nat columns));
           ("W", VArray W)]
      else
        add_layer "add_batched_mat_mul"
          [("name", VStr (name node)); ("input_names", names [input_0; weight_name]);
           ("output_name", VStr output_0)]
  | None =>
      add_layer "add_batched_mat_mul"
        [("name", VStr (name node)); ("input_names", names [input_0; weight_name]);
         ("output_name", VStr output_0)]
  end.

(** *** numpy *)

(** [np.expand_dims(a, axis)] for [axis >= 0], as numpy computed it when
    the converter was written:
    [a.reshape(shape[:axis] + (1,) + shape[axis:])]. *)
Definition np_expand_dims (a : ndarray) (axis : nat) : ndarray :=
  NDArray (take axis (shape a) ++ [1%nat] ++ drop axis (shape a)) (data a).

(** [np.squeeze(a)]: every axis of length one is dropped. *)
Definition np_squeeze (a : ndarray) : ndarray :=
  NDArray (filter (fun d => d ≠ 1%nat) (shape a)) (data a).

(** [np.split(ary, sections)] with an integer [sections]: equal parts
    along axis 0, which are runs of consecutive elements.  [ary] may be
    [None], which has no [shape]. *)
Definition np_split (ary : option ndarray) (sections : Z) : M (list ndarray) :=
  match ary with
  | None => raise PyAttributeError
  | Some a =>
      match shape a with
      | [] => raise PyIndexError
      | N :: rest =>
          if sections =? 0 then raise PyZeroDivisionError
          else if (sections <? 0) || negb (Z.of_nat N mod sections =? 0)
          then raise PyValueError
          else
            let each := (N / Z.to_nat sections)%nat in
            let stride := (each * size_of rest)%nat in
            ret ((fun k => NDArray (each :: rest)
                             (take stride (drop (k * stride) (data a))))
                   <$> seq 0 (Z.to_nat sections))
      end
  end.

(** [a + b] for two arrays of one shape (the converter only adds parts of
    one split). *)
Definition ndarray_add (a b : ndarray) : ndarray :=
  NDArray (shape a) (zip_with scalar_add (data a) (data b)).

(** *** LSTM *)

(** The shape of one gate's part of a weight tensor with [cols] columns. *)
Definition gate_shape (hidden_size cols : nat) : list nat :=
  hidden_size :: filter (fun n => n <> 1%nat) [cols].

Definition not_found (tensor_name : string) : string :=
  "Weight tensor: " +:+ tensor_name +:+ " not found in the graph initializer".

(** The helper [get_weights] of [_convert_lstm].  [W] and [R] are parts
    of a split, hence arrays; the two tests [W is None] and [R is None]
    come after [W] and [R] were bound to the expanded arrays. *)
Definition get_weights (node : Node) (W : ndarray) (W_name : string)
    (R : ndarray) (R_name : string) (B : option ndarray)
    : M (list ndarray * list ndarray * option (list ndarray)) :=
  let W := np_expand_dims (np_expand_dims W 3) 3 in
  let R := np_expand_dims (np_expand_dims R 3) 3 in
  (if is_None (VArray W) then missing_initializer node (not_found W_name)
   else ret tt);;
  (if is_None (VArray R) then missing_initializer node (not_found R_name)
   else ret tt);;
  let* Ws := np_split (Some (np_squeeze W)) 4 in
  match Ws with
  | [W_i; W_o; W_f; W_c] =>
      let* Rs := np_split (Some (np_squeeze R)) 4 in
      match Rs with
      | [R_i; R_o; R_f; R_c] =>
          let W_x := [W_i; W_f; W_o; W_c] in
          let W_h := [R_i; R_f; R_o; R_c] in
          let* b :=
            match B with
            | Some B =>
                let* Bs := np_split (Some (np_squeeze B)) 8 in
                match Bs with
                | [b_Wi; b_Wo; b_Wf; b_Wc; b_Ri; b_Ro; b_Rf; b_Rc] =>
                    ret (Some [ndarray_add b_Wi b_Ri; ndarray_add b_Wf b_Rf;
                               ndarray_add b_Wo b_Ro; ndarray_add b_Wc b_Rc])
                | _ => raise PyValueError
                end
            | None => ret None
            end in
          ret (W_x, W_h, b)
      | _ => raise PyValueError
      end
  | _ => raise PyValueError
  end.

(** The helper [expand_dim] of [_convert_lstm]. *)
Definition expand_dim (node_name input_name output_name : string)
    (axes : list Z) : M unit :=
  add_layer "add_expand_dims"
    [("name", VStr node_name); ("input_name", VStr input_name);
     ("output_name", VStr output_name); ("axes", ints axes)].

Definition _convert_lstm (node : Node) : M unit :=
  (* Read attributes *)
  (if bool_decide (is_Some (attrs node !! "activation_alpha"))
      || bool_decide (is_Some (attrs node !! "activation_beta"))
   then unsupported_feature_warning node
          "Activation parameter alpha and beta are currently not used"
   else ret tt);;
  let* activations :=
    match attrs node !! "activations" with
    | Some activations_list =>
        let* n := attr_len activations_list in
        (if n <? 3 then
           unsupported_op_configuration node
             "Error in ONNX model: Less number of activations provided"
         else ret tt);;
        (if n =? 6 then
           unsupported_feature_warning node
             "Forward and backward pass will use same activations."
         else ret tt);;
        let* a_0 := attr_getitem activations_list 0 in
        let* a_1 := attr_getitem activations_list 1 in
        let* a_2 := attr_getitem activations_list 2 in
        ret (a_0, a_1, a_2)
    | None => ret (VStr "SIGMOID", VStr "TANH", VStr "TANH")
    end in
  let '(inner_activation, cell_state_update_activation, output_activation) :=
    activations in
  let clip_threshold := attrs_get node "clip" (VFloat 500000) in
  let* direction :=
    match attrs node !! "direction" with
    | Some d =>
        let* d := decode d in
        ret (if decide (d = "bidirectional") then 2 else 1)
    | None => ret 1
    end in
  let hidden_size := attrs_get node "hidden_size" VNone in
  let input_forget :=
    match attrs node !! "input_forget" with
    | Some (AInt z) => z =? 1
    | Some (AFloat q) => Qeq_bool q 1
    | _ => false
    end in
  (* Read inputs *)
  let* W_name := getitem (inputs node) 1 in
  let* R_name := getitem (inputs node) 2 in
  let* B :=
    if 3 <? len (inputs node) then
      let* B_name := getitem (inputs node) 3 in
      ret (input_tensors node !! B_name)
    else ret None in
  let W := input_tensors node !! W_name in
  let R := input_tensors node !! R_name in
  let* W := np_split W direction in
  let* R := np_split R direction in
  let* B :=
    match B with
    | Some B => fmapM (fmap Some) (np_split (Some B) direction)
    | None => ret [None; None]
    end in
  (* Get weights for forward direction *)
  let* W_0 := getitem W 0 in
  let* R_0 := getitem R 0 in
  let* B_0 := getitem B 0 in
  let* weights := get_weights node W_0 W_name R_0 R_name B_0 in
  let '(W_x, W_h, b) := weights in
  let* W_x_0 := getitem W_x 0 in
  let* input_size := getitem (shape W_x_0) 1 in
  (* Get input and output for hidden and cell *)
  let* input_0 := getitem (inputs node) 0 in
  let* input_h :=
    if 5 <? len (inputs node) then getitem (inputs node) 5
    else ret (input_0 +:+ "_h_input") in
  let* input_c :=
    if 6 <? len (inputs node) then getitem (inputs node) 6
    else ret (input_0 +:+ "_c_input") in
  let* output_h :=
    if 1 <? len (outputs node) then getitem (outputs node) 1
    else fmapM (fun o => o +:+ "_h_output") (getitem (outputs node) 0) in
  let* output_c :=
    if 2 <? len (outputs node) then getitem (outputs node) 2
    else fmapM (fun o => o +:+ "_c_output") (getitem (outputs node) 0) in
  let output_h_5d := output_h +:+ "_5d" in
  let output_c_5d := output_c +:+ "_5d" in
  let* known := in_shape_dict input_0 in
  (if known then ret tt
   else unsupported_op_configuration node
          "Input shape not represented within Graph");;
  (* Input is represented as [Seq Len, Batch Size, Input Size] *)
  let* input_shape := shape_dict_item input_0 in
  let* batch_size := getitem input_shape 1 in
  let* input_c :=
    if len (inputs node) <? 6 then
      add_load_constant_nd (name node +:+ "_load_initial_h_and_c") input_h
        (VFloat 0) (VList [VInt direction; VInt batch_size; hidden_size]);;
      ret input_h
    else ret input_c in
  (* Get tensors for peepholes *)
  let* peepholes :=
    if 7 <? len (inputs node) then fmapM Some (getitem (inputs node) 7)
    else ret None in
  (* Expand dimensions of input to 5-d; [add_nodes] is assigned in this
     branch only. *)
  let* add_nodes :=
    if len input_shape <? 5 then
      let total_dims := len input_shape in
      let add_nodes := 5 - total_dims in
      expand_dim (name node +:+ "_expand_in_0") input_0
        (input_0 +:+ "_expand_out_0") [total_dims];;
      expand_dim (name node +:+ "_expand_in_h_0") input_h
        (input_h +:+ "_expand_out_h_0") [total_dims];;
      expand_dim (name node +:+ "_expand_in_c_0") input_c
        (input_c +:+ "_expand_out_c_0") [total_dims];;
      for_each (range 1 add_nodes) (fun i (_ : unit) =>
        let i_str := str i in
        let i_p_str := str (i - 1) in
        expand_dim (name node +:+ "_expand_in_" +:+ i_str)
          (input_0 +:+ "_expand_out_" +:+ i_p_str)
          (input_0 +:+ "_expand_out_" +:+ i_str) [total_dims + i];;
        expand_dim (name node +:+ "_expand_in_h_" +:+ i_str)
          (input_h +:+ "_expand_out_h_" +:+ i_p_str)
          (input_h +:+ "_expand_out_h_" +:+ i_str) [total_dims + i];;
        expand_dim (name node +:+ "_expand_in_c_" +:+ i_str)
          (input_c +:+ "_expand_out_c_" +:+ i_p_str)
          (input_c +:+ "_expand_out_c_" +:+ i_str) [total_dims + i]) tt;;
      ret (Some add_nodes)
    else ret None in
  (if direction =? 1 then
     let* peepholes :=
       match peepholes with
       | Some peepholes =>
           add_layer "add_reshape_static"
             [("name", VStr (name node +:+ "_peephole_reshape"));
              ("input_name", VStr peepholes);
              ("output_name", VStr (peepholes +:+ "_reshaped"));
              ("output_shape", VList [hidden_size; hidden_size; hidden_size])];;
           ret (Some (peepholes +:+ "_reshaped"))
       | None => ret None
       end in
     let* add_nodes := local add_nodes in
     let* output_0 := getitem (outputs node) 0 in
     add_layer "add_unilstm"
       [("name", VStr (name node));
        ("W_h", arrays W_h);
        ("W_x", arrays W_x);
        ("b", opt_arrays b);
        ("hidden_size", hidden_size);
        ("input_size", VInt (Z.of_nat input_size));
        ("input_names",
         names [input_0 +:+ "_expand_out_" +:+ str (add_nodes - 1);
                input_h +:+ "_expand_out_h_" +:+ str (add_nodes - 1);
                input_c +:+ "_expand_out_c_" +:+ str (add_nodes - 1)]);
        ("output_names",
         names [output_0 +:+ "_5d_out"; output_h_5d; output_c_5d]);
        ("inner_activation", inner_activation);
        ("cell_state_update_activation", cell_state_update_activation);
        ("output_activation", output_activation);
        ("peep", opt_name peepholes);
        ("output_all", VBool true);
        ("forget_bias", VBool true);
        ("coupled_input_forget_gate", VBool input_forget);
        ("cell_clip_threshold", clip_threshold);
        ("reverse_input", VBool false)]
   else if direction =? 2 then
     (if negb (len W =? 2) && negb (len R =? 2) && negb (len B =? 2) then
        unsupported_op_configuration node
          "Bi-Directional LSTM does not have weights for both the directions"
      else ret tt);;
     let* W_1 := getitem W 1 in
     let* R_1 := getitem R 1 in
     let* B_1 := getitem B 1 in
     let* weights_back := get_weights node W_1 W_name R_1 R_name B_1 in
     let '(W_x_back, W_h_back, b_back) := weights_back in
     let peephole_f := VNone in
     let peephole_b := VNone in
     match peepholes with
     | Some peepholes =>
         add_layer "add_reshape_static"
           [("name", VStr (name node +:+ "_peephole_reshape"));
            ("input_name", VStr peepholes);
            ("output_name", VStr (peepholes +:+ "_reshaped"));
            ("output_shape",
             VList [VInt direction; hidden_size; hidden_size; hidden_size])];;
         let peepholes_f := peepholes +:+ "_f" in
         let peepholes_b := peepholes +:+ "_b" in
         add_layer "add_split_nd"
           [("name", VStr (name node +:+ "_peephole_split"));
            ("input_name", VStr (peepholes +:+ "_reshaped"));
            ("output_names", names [peepholes_f; peepholes_b]);
            ("axis", VInt 0)]
     | None => ret tt
     end;;
     (* split input_h and input_c into two parts *)
     let* add_nodes := local add_nodes in
     add_layer "add_split_nd"
       [("name", VStr (name node +:+ "_split_h"));
        ("input_name", VStr (input_h +:+ "_expand_out_h_" +:+ str (add_nodes - 1)));
        ("output_names", names [input_h +:+ "_f"; input_h +:+ "_b"]);
        ("axis", VInt 0)];;
     (if decide (input_h = input_c) then ret tt
      else
        add_layer "add_split_nd"
          [("name", VStr (name node +:+ "_split_c"));
           ("input_name", VStr (input_c +:+ "_expand_out_c_" +:+ str (add_nodes - 1)));
           ("output_names", names [input_c +:+ "_f"; input_c +:+ "_b"]);
           ("axis", VInt 0)]);;
     let* output_0 := getitem (outputs node) 0 in
     add_layer "add_bidirlstm"
       [("name", VStr (name node));
        ("W_h", arrays W_h);
        ("W_x", arrays W_x);
        ("b", opt_arrays b);
        ("W_h_back", arrays W_h_back);
        ("W_x_back", arrays W_x_back);
        ("b_back", opt_arrays b_back);
        ("hidden_size", hidden_size);
        ("input_size", VInt (Z.of_nat input_size));
        ("input_names",
         names [input_0 +:+ "_expand_out_" +:+ str (add_nodes - 1);
                input_h +:+ "_f"; input_c +:+ "_f";
                input_h +:+ "_b"; input_c +:+ "_b"]);
        ("output_names",
         names [output_0 +:+ "_5d_out"; output_h +:+ "_f"; output_c +:+ "_f";
                output_h +:+ "_b"; output_c +:+ "_b"]);
        ("inner_activation", inner_activation);
        ("cell_state_update_activation", cell_state_update_activation);
        ("output_activation", output_activation);
        ("output_all", VBool true);
        ("peep", peephole_f);
        ("peep_back", peephole_b);
        ("forget_bias", VBool true);
        ("coupled_input_forget_gate", VBool input_forget);
        ("cell_clip_threshold", clip_threshold)];;
     (* Combine output_h and output_c *)
     add_layer "add_concat_nd"
       [("name", VStr (name node +:+ "concat_output_h"));
        ("input_names", names [output_h +:+ "_f"; output_h +:+ "_b"]);
        ("output_name", VStr output_h_5d);
        ("axis", VInt 0)];;
     add_layer "add_concat_nd"
       [("name", VStr (name node +:+ "concat_output_c"));
        ("input_names", names [output_c +:+ "_f"; output_c +:+ "_b"]);
        ("output_name", VStr output_c_5d);
        ("axis", VInt 0)]
   else
     unsupported_op_configuration node
       ("Unsupported direction " +:+ str direction +:+ " for LSTM"));;
  (* CoreML output is [Seq Len, Batch Size, Num Dir * Hidden Size, 1, 1];
     return it as [Seq Len, Num Dir, Batch Size, Hidden Size] *)
  let* output_0 := getitem (outputs node) 0 in
  add_layer "add_rank_preserving_reshape"
    [("name", VStr (name node +:+ "_reshape_"));
     ("input_name", VStr (output_0 +:+ "_5d_out"));
     ("output_name", VStr (output_0 +:+ "_5d_reshaped"));
     ("output_shape", ints [0; 0; direction; -1; 0])];;
  add_layer "add_squeeze"
    [("name", VStr (name node +:+ "_squeeze_out"));
     ("input_name", VStr (output_0 +:+ "_5d_reshaped"));
     ("output_name", VStr (output_0 +:+ "_4d"));
     ("axes", ints [-1])];;
  add_layer "add_transpose"
    [("name", VStr (name node +:+ "_transpose"));
     ("axes", ints [0; 2; 1; 3]);
     ("input_name", VStr (output_0 +:+ "_4d"));
     ("output_name", VStr output_0)];;
  (* Squeeze dimensions of output_h and output_c *)
  add_layer "add_squeeze"
    [("name", VStr (name node +:+ "_squeeze_out_h"));
     ("input_name", VStr output_h_5d);
     ("output_name", VStr output_h);
     ("axes", ints [-1; -2])];;
  add_layer "add_squeeze"
    [("name", VStr (name node +:+ "_squeeze_out_c"));
     ("input_name", VStr output_c_5d);
     ("output_name", VStr output_c);
     ("axes", ints [-1; -2])].

(** *** Reshape *)

(** [x == k] for an array element [x] and an integer literal [k]. *)
Definition scalar_eq_int (x : scalar) (k : Z) : bool :=
  match scalar_int x with
  | Some z => z =? k
  | None => false
  end.

(** [len(a)] for an array. *)
Definition ndarray_len (a : ndarray) : M Z :=
  match shape a with
  | [] => raise PyTypeError
  | n :: _ => ret (Z.of_nat n)
  end.

(** The elements [for i in a] and [a[i]] run over.  The shape operand of
    Reshape is a one-dimensional tensor; for an array of another rank the
    comparisons of the converter are between arrays, and the model answers
    [PyValueError]. *)
Definition elements (a : ndarray) : M (list scalar) :=
  match shape a with
  | [_] => ret (data a)
  | _ => raise PyValueError
  end.

(** The two counters of the first loop of the rank-reducing branch. *)
Definition count_zeros_neg_ones (output_shape : list scalar) : Z * Z :=
  foldl (fun '(num_zeros, num_neg_ones) i =>
           if scalar_eq_int i 0 then (num_zeros + 1, num_neg_ones)
           else if scalar_eq_int i (-1) then (num_zeros, num_neg_ones + 1)
           else (num_zeros, num_neg_ones))
        (0, 0) output_shape.

(** [for i in range(len(output_shape))]: the entries from index [i] on are
    appended to [new_shape] up to and including the first [-1]; the result
    carries the value [i] is left with. *)
Fixpoint copy_until_wildcard (output_shape : list scalar) (i : Z)
    (new_shape : list value) : list value * Z :=
  match output_shape with
  | [] => (new_shape, i)
  | x :: rest =>
      let new_shape := new_shape ++ [VScalar x] in
      if scalar_eq_int x (-1) then (new_shape, i)
      else match rest with
           | [] => (new_shape, i)
           | _ => copy_until_wildcard rest (i + 1) new_shape
           end
  end.

(** [while i < bound: new_shape.append(1); i += 1] *)
Definition pad_ones (new_shape : list value) (i bound : Z) : list value :=
  new_shape ++ replicate (Z.to_nat (bound - i)) (VInt 1).

Definition _convert_reshape (node : Node) : M unit :=
  let* shape_node := getitem (inputs node) 1 in
  match input_tensors node !! shape_node with
  | Some output_shape =>
      let* input_0 := getitem (inputs node) 0 in
      let* known := in_shape_dict input_0 in
      (if known then ret tt
       else unsupported_op_configuration node
              "Input shape not represented in graph");;
      let* input_shape := shape_dict_item input_0 in
      let len_of_input_shape := len input_shape in
      let* len_output_shape := ndarray_len output_shape in
      if len_output_shape =? len_of_input_shape then
        let* output_0 := getitem (outputs node) 0 in
        add_layer "add_rank_preserving_reshape"
          [("name", VStr (name node)); ("input_name", VStr input_0);
           ("output_name", VStr output_0); ("output_shape", VArray output_shape)]
      else
        let* add_static_reshape :=
          if len_output_shape <? len_of_input_shape then
            let* entries := elements output_shape in
            let '(num_zeros, num_neg_ones) := count_zeros_neg_ones entries in
            (if 1 <? num_neg_ones then
               unsupported_op_configuration node
                 ("Error in ONNX model: At most one dimension of new shape can be -1, found "
                  +:+ str num_neg_ones)
             else ret tt);;
            if num_neg_ones + num_zeros =? len_output_shape then
              (* Rank of output is less than input:
                 make rank equivalent for reshape and then squeeze *)
              let '(new_shape, i) := copy_until_wildcard entries 0 [] in
              let new_shape := pad_ones new_shape i (len_of_input_shape - 1) in
              let* output_0 := getitem (outputs node) 0 in
              add_layer "add_rank_preserving_reshape"
                [("name", VStr (name node +:+ "_reshape_preserving"));
                 ("input_name", VStr input_0);
                 ("output_name", VStr (output_0 +:+ "_reshape_dim_preserved"));
                 ("output_shape", VList new_shape)];;
              let squeeze_axes :=
                reverse (range (len_output_shape - len_of_input_shape) 0) in
              add_layer "add_squeeze"
                [("name", VStr (name node));
                 ("input_name", VStr (output_0 +:+ "_reshape_dim_preserved"));
                 ("output_name", VStr output_0);
                 ("axes", ints squeeze_axes)];;
              ret false
            else ret true
          else ret true in
        if add_static_reshape then
          let* output_0 := getitem (outputs node) 0 in
          add_layer "add_reshape_static"
            [("name", VStr (name node)); ("input_name", VStr input_0);
             ("output_name", VStr output_0); ("output_shape", VArray output_shape)]
        else ret tt
  | None =>
      let* output_0 := getitem (outputs node) 0 in
      add_layer "add_reshape_dynamic"
        [("name", VStr (name node)); ("input_names", names (inputs node));
         ("output_name", VStr output_0)]
  end.

(** *** Slice *)

(** [a[i]] for an attribute holding integers, or [None].  An attribute of
    another type than ONNX gives to [starts], [ends] and [axes] is answered
    with [PyTypeError]. *)
Definition int_item (a : option attr) (i : Z) : M Z :=
  match a with
  | Some (AInts l) => getitem l i
  | _ => raise PyTypeError
  end.

Definition slice_state : Type := list Z * list Z * list bool * list bool.

(** The body of the loop of [_convert_slice]. *)
Definition slice_step (data_shape : list Z) (ip_starts ip_ends : option attr)
    (axes : attr) (i : Z) (st : slice_state) : M slice_state :=
  let '(starts, ends, begin_masks, end_masks) := st in
  let* current_axes := int_item (Some axes) i in
  let* start_i := int_item ip_starts i in
  let* starts := setitem starts current_axes start_i in
  let* end_i := int_item ip_ends i in
  let* ends := setitem ends current_axes end_i in
  let* end_ := getitem ends current_axes in
  let* unbounded :=
    if negb (end_ =? INT_MAX) then ret true
    else fmapM (fun size => end_ <? size) (getitem data_shape current_axes) in
  let* end_masks :=
    if unbounded then setitem end_masks current_axes false
    else ret end_masks in
  let* start_ := getitem starts current_axes in
  let* begin_masks :=
    if negb (start_ =? 0) then setitem begin_masks current_axes false
    else ret begin_masks in
  ret (starts, ends, begin_masks, end_masks).

Definition _convert_slice (node : Node) : M unit :=
  let* input_0 := getitem (inputs node) 0 in
  let* data_shape := shape_dict_item input_0 in
  let len_of_data := length data_shape in
  let begin_masks := replicate len_of_data true in
  let end_masks := replicate len_of_data true in
  let default_axes := range 0 (len data_shape) in
  let default_steps := replicate len_of_data 1 in
  let ip_starts := attrs node !! "starts" in
  let ip_ends := attrs node !! "ends" in
  let axes := default (AInts default_axes) (attrs node !! "axes") in
  let steps := attrs_get node "steps" (ints default_steps) in
  let starts := replicate len_of_data 0 in
  let ends := replicate len_of_data 0 in
  let* n := attr_len axes in
  let* st := for_each (range 0 n) (slice_step data_shape ip_starts ip_ends axes)
               (starts, ends, begin_masks, end_masks) in
  let '(starts, ends, begin_masks, end_masks) := st in
  let* output_0 := getitem (outputs node) 0 in
  add_layer "add_slice_static"
    [("name", VStr (name node)); ("input_name", VStr input_0);
     ("output_name", VStr output_0);
     ("begin_ids", ints starts); ("end_ids", ints ends); ("strides", steps);
     ("begin_masks", bools begin_masks); ("end_masks", bools end_masks)].

(** *** Split, Squeeze, Shape, Transpose, Unsqueeze *)

Definition _convert_split (node : Node) : M unit :=
  let axis := attrs_get node "axis" (VInt 0) in
  let* input_0 := getitem (inputs node) 0 in
  add_layer "add_split_nd"
    [("name", VStr (name node)); ("input_name", VStr input_0);
     ("output_names", names (outputs node)); ("axis", axis)].

Definition _convert_squeeze (node : Node) : M unit :=
  let axes := attrs_get node "axes" VNone in
  let* input_0 := getitem (inputs node) 0 in
  let* output_0 := getitem (outputs node) 0 in
  add_layer "add_squeeze"
    [("name", VStr (name node)); ("input_name", VStr input_0);
     ("output_name", VStr output_0); ("axes", axes)].

Definition _convert_shape (node : Node) : M unit :=
  let* input_0 := getitem (inputs node) 0 in
  let* output_0 := getitem (outputs node) 0 in
  add_layer "add_get_shape"
    [("name", VStr (name node)); ("input_name", VStr input_0);
     ("output_name", VStr output_0)].

Definition _convert_transpose (node : Node) : M unit :=
  let axes := attrs_get node "perm" (VList []) in
  (* If 'perm' not provided, then reverse the dimensions *)
  let* axes :=
    match axes with
    | VList [] =>
        let* input_0 := getitem (inputs node) 0 in
        let* input_shape := shape_dict_item input_0 in
        let rank := len input_shape in
        ret (ints ((fun k => - k) <$> range 1 (rank + 1)))
    | _ => ret axes
    end in
  let* input_0 := getitem (inputs node) 0 in
  let* output_0 := getitem (outputs node) 0 in
  add_layer "add_transpose"
    [("name", VStr (name node)); ("axes", axes);
     ("input_name", VStr input_0); ("output_name", VStr output_0)].

Definition _convert_unsqueeze (node : Node) : M unit :=
  let axes := attrs_get node "axes" VNone in
  let* input_0 := getitem (inputs node) 0 in
  let* output_0 := getitem (outputs node) 0 in
  add_layer "add_expand_dims"
    [("name", VStr (name node)); ("input_name", VStr input_0);
     ("output_name", VStr output_0); ("axes", axes)].

(** The node without its [direction] attribute. *)
Definition without_direction (node : Node) : Node :=
  {| name := name node; op_type := op_type node; inputs := inputs node;
     outputs := outputs node; attrs := delete "direction" (attrs node);
     input_tensors := input_tensors node |}.

(** ** The masks of a static slice, as a specification *)

(** The position Python's [l[i]] reads in a list of length [n]. *)
Definition norm_index (n : nat) (i : Z) : nat :=
  Z.to_nat (if i <? 0 then i + Z.of_nat n else i).

(** When an end bound given for an axis of size [size] makes the end mask
    false: as the specification words it (below the sentinel and below the
    size), and as the converter tests it. *)
Definition end_bound_claimed (end_ size : Z) : bool :=
  (end_ <? INT_MAX) && (end_ <? size).
Definition end_bound_used (end_ size : Z) : bool :=
  negb (end_ =? INT_MAX) || (end_ <? size).

(** The begin mask of axis [k] is true unless a non-zero start is given
    for that axis. *)
Definition begin_masks_of (n : nat) (axes starts : list Z) : list bool :=
  (fun k => negb (existsb (fun '(a, start) =>
                             (norm_index n a =? k)%nat && negb (start =? 0))
                          (zip axes starts)))
  <$> seq 0 n.

(** The end mask of axis [k] is true unless an end bound is given for that
    axis that [bounded] accepts. *)
Definition end_masks_of (bounded : Z -> Z -> bool) (data_shape : list Z)
    (axes ends : list Z) : list bool :=
  (fun k => negb (existsb (fun '(a, end_) =>
                             (norm_index (length data_shape) a =? k)%nat
                             && bounded end_ (data_shape !!! k))
                          (zip axes ends)))
  <$> seq 0 (length data_shape).

(** What the loop of [_convert_slice] computes, as folds over the axes
    paired with the starts and with the ends. *)
Definition begin_hit (a start : Z) : bool := negb (start =? 0).
Definition end_hit (bounded : Z -> Z -> bool) (data_shape : list Z)
    (a end_ : Z) : bool :=
  bounded end_ (data_shape !!! norm_index (length data_shape) a).
Definition mask_fold (n : nat) (hit : Z -> Z -> bool) (ps : list (Z * Z))
    (m : list bool) : list bool :=
  fold_left (fun m '(a, v) => if hit a v then <[norm_index n a := false]> m else m)
    ps m.
Definition ids_fold (n : nat) (ps : list (Z * Z)) (ids : list Z) : list Z :=
  fold_left (fun ids '(a, v) => <[norm_index n a := v]> ids) ps ids.

(** The axes a Slice node names: the attribute, or all axes in order. *)
Definition slice_axes (node : Node) (data_shape : list Z) : option (list Z) :=
  match attrs node !! "axes" with
  | Some (AInts axes) => Some axes
  | Some _ => None
  | None => Some (range 0 (len data_shape))
  end.

(** A Slice node over a data input of known static shape, with one start
    and one end per named axis and every axis within the rank, emits one
    static-slice layer whose masks are those of the specification, for the
    given reading of "bounded". *)
Definition slice_masks_spec (bounded : Z -> Z -> bool) (node : Node)
    (w : world) : Prop :=
  forall (input_0 output_0 : string) (data_shape starts ends axes : list Z),
    inputs node !! 0%nat = Some input_0 ->
    outputs node !! 0%nat = Some output_0 ->
    shape_dict (graph w) !! input_0 = Some data_shape ->
    attrs node !! "starts" = Some (AInts starts) ->
    attrs node !! "ends" = Some (AInts ends) ->
    slice_axes node data_shape = Some axes ->
    length starts = length axes ->
    length ends = length axes ->
    Forall (fun a => - len data_shape <= a < len data_shape) axes ->
    exists begin_ids end_ids : list Z,
      _convert_slice node w =
        Ok tt
          (World (builder w ++
                    [Layer "add_slice_static"
                       [("name", VStr (name node));
                        ("input_name", VStr input_0);
                        ("output_name", VStr output_0);
                        ("begin_ids", ints begin_ids);
                        ("end_ids", ints end_ids);
                        ("strides",
                         attrs_get node "steps"
                           (ints (replicate (length data_shape) 1)));
                        ("begin_masks",
                         bools (begin_masks_of (length data_shape) axes starts));
                        ("end_masks",
                         bools (end_masks_of bounded data_shape axes ends))]])
                 (graph w)).

(** ** Registry and dispatch *)

(** [_convert_relu] is imported from [._operators]. *)
Variable _convert_relu : Node -> M unit.

Definition _ONNX_NODE_REGISTRY_ND : gmap string (Node -> M unit) :=
  list_to_map
    [("Concat", _convert_concat);
     ("Constant", _convert_constant);
     ("ConstantOfShape", _convert_constant_of_shape);
     ("Gather", _convert_gather);
     ("LSTM", _convert_lstm);
     ("MatMul", _convert_matmul);
     ("Relu", _convert_relu);
     ("Reshape", _convert_reshape);
     ("Slice", _convert_slice);
     ("Split", _convert_split);
     ("Shape", _convert_shape);
     ("Squeeze", _convert_squeeze);
     ("Transpose", _convert_transpose);
     ("Unsqueeze", _convert_unsqueeze)].

Definition _get_node_converter_fn (node : Node) : M (Node -> M unit) :=
  match _ONNX_NODE_REGISTRY_ND !! op_type node with
  | Some converter_fn => ret converter_fn
  | None => unsupported_op node
  end.

Definition _convert_node_nd (node : Node) : M unit :=
  let* converter_fn := _get_node_converter_fn node in
  converter_fn node.

(** The driver calls the dispatcher once per node, in order. *)
Definition convert_nodes (nodes : list Node) : M unit :=
  for_each nodes (fun node (_ : unit) => _convert_node_nd node) tt.

(** ** Reading the builder's log *)

(** The argument passed under keyword [k]. *)
Definition kwarg (l : layer) (k : string) : option value :=
  snd <$> List.find (fun kv => String.eqb (fst kv) k) (kwargs l).

Definition is_method (m : string) (l : layer) : bool := String.eqb (method l) m.

(** [l] is a load-constant layer that writes tensor [x]. *)
Definition loads_constant (x : string) (l : layer) : bool :=
  is_method "add_load_constant_nd" l
  && match kwarg l "output_name" with
     | Some (VStr o) => String.eqb o x
     | _ => false
     end.

Definition count_layers (p : layer -> bool) (b : list layer) : nat :=
  length (List.filter p b).

Definition is_lstm_layer (l : layer) : bool :=
  is_method "add_unilstm" l || is_method "add_bidirlstm" l.

(** The argument under keyword [k] is [None]. *)
Definition is_None_arg (l : layer) (k : string) : bool :=
  match kwarg l k with
  | Some VNone => true
  | _ => false
  end.

(** A bidirectional LSTM layer without peephole weights, or any other
    layer. *)
Definition peephole_free (l : layer) : bool :=
  if is_method "add_bidirlstm" l
  then is_None_arg l "peep" && is_None_arg l "peep_back"
  else true.

(** The two layers the bidirectional branch emits for a peephole input
    [peepholes]: the reshape and the split into the forward and the
    backward half. *)
Definition is_peephole_reshape (peepholes : string) (l : layer) : Prop :=
  method l = "add_reshape_static"
  /\ kwarg l "input_name" = Some (VStr peepholes)
  /\ kwarg l "output_name" = Some (VStr (peepholes +:+ "_reshaped")).

Definition is_peephole_split (peepholes : string) (l : layer) : Prop :=
  method l = "add_split_nd"
  /\ kwarg l "input_name" = Some (VStr (peepholes +:+ "_reshaped"))
  /\ kwarg l "output_names"
      = Some (names [peepholes +:+ "_f"; peepholes +:+ "_b"]).

Definition peephole_layers (peepholes : string) (ls : list layer) : Prop :=
  exists r s, r ∈ ls /\ s ∈ ls
    /\ is_peephole_reshape peepholes r /\ is_peephole_split peepholes s.

(** The tensor names a layer reads: its input, its inputs, and the names
    passed as peephole weights. *)
Definition is_name (x : string) (v : value) : bool :=
  match v with
  | VStr s => String.eqb s x
  | _ => false
  end.

Definition consumes (x : string) (l : layer) : bool :=
  match kwarg l "input_name" with Some v => is_name x v | None => false end
  || match kwarg l "input_names" with
     | Some (VList vs) => existsb (is_name x) vs
     | _ => false
     end
  || match kwarg l "peep" with Some v => is_name x v | None => false end
  || match kwarg l "peep_back" with Some v => is_name x v | None => false end.

(** A bidirectional LSTM layer that does not read [x], or any other
    layer. *)
Definition bidirlstm_reads_not (x : string) (l : layer) : bool :=
  negb (is_method "add_bidirlstm" l) || negb (consumes x l).

(** The names the peephole reshape and the peephole split write. *)
Definition peephole_outputs (peepholes : string) : list string :=
  [peepholes +:+ "_reshaped"; peepholes +:+ "_f"; peepholes +:+ "_b"].

(** The last character of a string. *)
Fixpoint last_ascii (s : string) : option Ascii.ascii :=
  match s with
  | EmptyString => None
  | String c EmptyString => Some c
  | String _ s' => last_ascii s'
  end.

Definition is_missing_initializer (e : exn) : bool :=
  match e with
  | MissingInitializer _ => true
  | _ => false
  end.

(** From [w] to [w'] constants were materialized one time at most: the
    appended layers hold no load-constant layer for a name that was
    recorded in [w], at most one for any other name, and a name is
    recorded in [w'] exactly when it was recorded in [w] or loaded
    since. *)
Definition loaded_once (w w' : world) : Prop :=
  exists ls,
    builder w' = builder w ++ ls
    /\ forall x : string,
         let loads := count_layers (loads_constant x) ls in
         (x ∈ constants_loaded (graph w) -> loads = 0%nat)
         /\ (loads <= 1)%nat
         /\ (x ∈ constants_loaded (graph w')
             <-> x ∈ constants_loaded (graph w) \/ loads = 1%nat).

(** The layers a computation appends when run from [w]. *)
Definition emitted {A} (m : M A) (w : world) : list layer :=
  drop (length (builder w)) (builder (final (m w))).

(** The peephole input is not also the initial hidden state or the
    initial cell state of the node. *)
Definition apart_from_states (node : Node) (peepholes : string) : Prop :=
  inputs node !! 5%nat <> Some peepholes
  /\ inputs node !! 6%nat <> Some peepholes.

(** What a conversion in bidirectional mode does with peephole weights:
    every bidirectional LSTM layer it emits has no peephole weights, and
    when the node has a peephole input [peepholes] and a bidirectional
    layer is emitted, the peephole reshape and split are emitted too, and,
    under the side condition [apart], no bidirectional LSTM layer reads a
    name they write. *)
Definition bidirectional_peepholes_spec (apart : Node -> string -> Prop)
    (node : Node) (w : world) : Prop :=
  let ls := emitted (_convert_lstm node) w in
  Forall (fun l => peephole_free l = true) ls
  /\ forall peepholes : string,
       inputs node !! 7%nat = Some peepholes ->
       Exists (fun l => is_method "add_bidirlstm" l = true) ls ->
       peephole_layers peepholes ls
       /\ (apart node peepholes ->
           forall (l : layer) (x : string),
             l ∈ ls -> is_method "add_bidirlstm" l = true ->
             x ∈ peephole_outputs peepholes -> consumes x l = false).

(** The operator names of the registry. *)
Definition registered_ops : list string :=
  ["Concat"; "Constant"; "ConstantOfShape"; "Gather"; "LSTM"; "MatMul";
   "Relu"; "Reshape"; "Slice"; "Split"; "Shape"; "Squeeze"; "Transpose";
   "Unsqueeze"].

End Conversion.

Arguments ndarray : clear implicits.
Arguments attr : clear implicits.
Arguments value : clear implicits.
Arguments layer : clear implicits.
Arguments Node : clear implicits.
Arguments world : clear implicits.
Arguments outcome : clear implicits.
Arguments M : clear implicits.

Notation "'let*' x ':=' m 'in' k" := (bind m (fun x => k))
  (at level 10, x name, m at level 100, k at level 200).
Notation "m ';;' k" := (bind m (fun _ => k))
  (at level 100, k at level 200, right associativity, only parsing).

(** ** Concrete nodes and graphs *)

(** Integer tensors. *)
#[global] Instance Z_scalar : Scalar Z :=
  {| scalar_add := Z.add; scalar_int := Some |}.

(** An instance of the imported Relu converter, to run the dispatcher. *)
Definition relu_activation (node : Node Z) : M Z unit :=
  let* input_0 := getitem (inputs node) 0 in
  let* output_0 := getitem (outputs node) 0 in
  add_layer "add_activation"
    [("name", VStr (name node)); ("non_linearity", VStr "RELU");
     ("input_name", VStr input_0); ("output_name", VStr output_0)].

Definition empty_graph : Graph := {| shape_dict := ∅; constants_loaded := ∅ |}.

(** A fresh pass over tensors of the given shapes. *)
Definition fresh_world (shapes : list (string * list Z)) : world Z :=
  World [] {| shape_dict := list_to_map shapes; constants_loaded := ∅ |}.

Definition make_node (name op_type : string) (inputs outputs : list string)
    (attrs : list (string * attr Z)) (input_tensors : list (string * ndarray Z))
    : Node Z :=
  {| name := name; op_type := op_type; inputs := inputs; outputs := outputs;
     attrs := list_to_map attrs; input_tensors := list_to_map input_tensors |}.

(** A Concat node and a MatMul node that share the constant ["W"], a
    tensor of rank 3. *)
Definition shared_weight : ndarray Z := NDArray [1; 2; 2]%nat [1; 2; 3; 4].
Definition concat_shared : Node Z :=
  make_node "cat" "Concat" ["x"; "W"] ["y"] [("axis", AInt 0)]
    [("W", shared_weight)].
Definition matmul_shared : Node Z :=
  make_node "mm" "MatMul" ["y"; "W"] ["z"] [] [("W", shared_weight)].

Definition gather_shared : Node Z :=
  make_node "gat" "Gather" ["W"; "idx"] ["g"] [] [("W", shared_weight)].

(** A Constant node holding a scalar. *)
Definition constant_node : Node Z :=
  make_node "c" "Constant" [] ["c_out"] [("value", ATensor (NDArray [] [7]))] [].

(** Reshape of a tensor of rank 3 to [[0, -1]]. *)
Definition reshape_node : Node Z :=
  make_node "r" "Reshape" ["x"; "shp"] ["y"] [] [("shp", NDArray [2%nat] [0; -1])].

(** Slices of a tensor: the example of the specification, and an end bound
    beyond the size of the axis. *)
Definition slice_node (starts ends axes : list Z) : Node Z :=
  make_node "s" "Slice" ["x"] ["y"]
    [("starts", AInts starts); ("ends", AInts ends); ("axes", AInts axes)] [].

(** LSTM nodes with hidden size 1 and input size 2, over [num_directions]
    directions. *)
Definition lstm_tensors (num_directions : nat) : list (string * ndarray Z) :=
  [("W", NDArray [num_directions; 4; 2]%nat (Z.of_nat <$> seq 1 (num_directions * 8)));
   ("R", NDArray [num_directions; 4; 1]%nat (Z.of_nat <$> seq 11 (num_directions * 4)));
   ("B", NDArray [num_directions; 8]%nat (Z.of_nat <$> seq 21 (num_directions * 8)))].
Definition lstm_node (direction : option string) (num_directions : nat)
    (inputs : list string) : Node Z :=
  make_node "lstm" "LSTM" inputs ["Y"; "Y_h"; "Y_c"]
    (("hidden_size", AInt 1)
     :: match direction with
        | Some d => [("direction", ABytes d)]
        | None => []
        end)
    (lstm_tensors num_directions).
Definition lstm_world : world Z := fresh_world [("X", [3; 1; 2])].

(** A bidirectional LSTM node with a peephole input ["P"]. *)
Definition lstm_peepholes : Node Z :=
  lstm_node (Some "bidirectional") 2
    ["X"; "W"; "R"; "B"; "seq_lens"; "h0"; "c0"; "P"].

(** A bidirectional LSTM node whose peephole input ["P"] is also its
    initial hidden state. *)
Definition lstm_peepholes_as_state : Node Z :=
  lstm_node (Some "bidirectional") 2
    ["X"; "W"; "R"; "B"; "seq_lens"; "P"; "c0"; "P"].

(** An LSTM node whose weight tensor ["W"] is not a constant of the
    node. *)
Definition lstm_missing_W : Node Z :=
  make_node "lstm" "LSTM" ["X"; "W"; "R"] ["Y"] [("hidden_size", AInt 1)]
    [("R", NDArray [1; 4; 1]%nat [11; 12; 13; 14])].

(** A MatMul node whose weight is a constant matrix. *)
Definition matmul_matrix : Node Z :=
  make_node "mm2" "MatMul" ["y"; "M"] ["z"] []
    [("M", NDArray [2; 2]%nat [1; 2; 3; 4])].

(** A Transpose node without a permutation. *)
Definition transpose_node : Node Z :=
  make_node "t" "Transpose" ["x"] ["y"] [] [].

(** Reshape to a constant target shape, and to a shape computed at run
    time. *)
Definition reshape_to (target : list Z) : Node Z :=
  make_node "r" "Reshape" ["x"; "shp"] ["y"] []
    [("shp", NDArray [length target] target)].
Definition reshape_dynamic : Node Z :=
  make_node "r" "Reshape" ["x"; "shp"] ["y"] [] [].

(** A Slice node that names no axes, and one without any attribute. *)
Definition slice_all_axes (starts ends : list Z) : Node Z :=
  make_node "s" "Slice" ["x"] ["y"]
    [("starts", AInts starts); ("ends", AInts ends)] [].
Definition slice_bare : Node Z := make_node "s" "Slice" ["x"] ["y"] [] [].

(** A ConstantOfShape node over a constant shape of two entries. *)
Definition constant_of_shape_node : Node Z :=
  make_node "f" "ConstantOfShape" ["shp"] ["y"] []
    [("shp", NDArray [2%nat] [3; 4])].

(** An LSTM node that names one activation only. *)
Definition lstm_one_activation : Node Z :=
  make_node "lstm" "LSTM" ["X"; "W"; "R"] ["Y"]
    [("hidden_size", AInt 1); ("activations", AStrings ["Sigmoid"])]
    (lstm_tensors 1).

(** * Properties *)

Section Properties.

Context `{Scalar scalar}.
Variable _convert_relu : Node scalar -> M scalar unit.

Local Abbreviation REGISTRY := (_ONNX_NODE_REGISTRY_ND _convert_relu).

(** ** Reasoning about computations *)

(** [wp m Q E w]: run from [w], [m] returns a value and a state in [Q],
    or raises an exception and leaves a state in [E]. *)
Definition wp {A} (m : M scalar A) (Q : A -> world scalar -> Prop)
    (E : exn -> world scalar -> Prop) (w : world scalar) : Prop :=
  match m w with
  | Ok a w' => Q a w'
  | Raise e w' => E e w'
  end.

Lemma wp_ret {A} (a : A) Q E w : Q a w -> wp (ret a) Q E w.
Proof. intros HQ. exact HQ. Qed.

Lemma wp_raise {A} (e : exn) (Q : A -> _) E w : E e w -> wp (raise e) Q E w.
Proof. intros HE. exact HE. Qed.

Lemma wp_bind {A B} (m : M scalar A) (f : A -> M scalar B) Q E w :
  wp m (fun a w' => wp (f a) Q E w') E w -> wp (bind m f) Q E w.
Proof. unfold wp, bind. destruct (m w); auto. Qed.

Lemma bind_ret_l {A B} (a : A) (f : A -> M scalar B) : bind (ret a) f = f a.
Proof. reflexivity. Qed.

Lemma wp_mono {A} (m : M scalar A) (Q Q' : A -> _ -> Prop) (E E' : _ -> _ -> Prop) w :
  wp m Q E w ->
  (forall a w', Q a w' -> Q' a w') ->
  (forall e w', E e w' -> E' e w') ->
  wp m Q' E' w.
Proof. unfold wp. destruct (m w); auto. Qed.

(** A computation is determined by what [wp] says of it. *)
Lemma wp_run {A} (m : M scalar A) (w : world scalar) (o : outcome scalar A) :
  wp m (fun a w' => Ok a w' = o) (fun e w' => Raise e w' = o) w -> m w = o.
Proof. unfold wp. destruct (m w); auto. Qed.

Lemma wp_add_layer (m : string) kw (Q : unit -> _ -> Prop) E w :
  Q tt (World (builder w ++ [Layer m kw]) (graph w)) ->
  wp (add_layer m kw) Q E w.
Proof. intros HQ. exact HQ. Qed.

Lemma getitem_nat {A} (l : list A) (n : nat) (w : world scalar) :
  getitem l (Z.of_nat n) w =
    match l !! n with Some x => Ok x w | None => Raise PyIndexError w end.
Proof.
  unfold getitem.
  destruct (Z.ltb_spec (Z.of_nat n) 0) as [Hneg|_]; [lia|].
  destruct (Z.ltb_spec (Z.of_nat n) 0) as [Hneg|_]; [lia|].
  rewrite Nat2Z.id. destruct (l !! n); reflexivity.
Qed.

Lemma wp_getitem {A} (l : list A) (n : nat) (x : A) (Q : A -> _ -> Prop) E w :
  l !! n = Some x -> Q x w -> wp (getitem l (Z.of_nat n)) Q E w.
Proof. intros Hl HQ. unfold wp. rewrite getitem_nat, Hl. exact HQ. Qed.

Lemma wp_shape_dict_item (x : string) (s : list Z) (Q : list Z -> _ -> Prop) E w :
  shape_dict (graph w) !! x = Some s -> Q s w -> wp (shape_dict_item x) Q E w.
Proof. intros Hs HQ. unfold wp, shape_dict_item. rewrite Hs. exact HQ. Qed.

Lemma wp_in_shape_dict (x : string) (Q : bool -> _ -> Prop) E w :
  Q (bool_decide (is_Some (shape_dict (graph w) !! x))) w ->
  wp (in_shape_dict x) Q E w.
Proof. intros HQ. exact HQ. Qed.

Lemma wp_in_constants_loaded (x : string) (Q : bool -> _ -> Prop) E w :
  Q (bool_decide (x ∈ constants_loaded (graph w))) w ->
  wp (in_constants_loaded x) Q E w.
Proof. intros HQ. exact HQ. Qed.

(** *** Invariants of the builder's log *)

(** From [w] to [w'] the shape dictionary was kept and only layers
    satisfying [P] were appended. *)
Definition extends (P : layer scalar -> bool) (w w' : world scalar) : Prop :=
  shape_dict (graph w') = shape_dict (graph w)
  /\ exists ls, builder w' = builder w ++ ls /\ Forall (fun l => P l = true) ls.

Lemma extends_refl P w : extends P w w.
Proof. split; [reflexivity|]. exists []. rewrite app_nil_r. auto. Qed.

Lemma extends_trans P w1 w2 w3 :
  extends P w1 w2 -> extends P w2 w3 -> extends P w1 w3.
Proof.
  intros [Hs1 (ls1 & Hb1 & HP1)] [Hs2 (ls2 & Hb2 & HP2)]. split.
  - congruence.
  - exists (ls1 ++ ls2). rewrite Hb2, Hb1, app_assoc. split; [reflexivity|].
    apply Forall_app; auto.
Qed.

Lemma extends_add_layer P w m kw :
  P (Layer m kw) = true ->
  extends P w (World (builder w ++ [Layer m kw]) (graph w)).
Proof.
  intros HP. split; [reflexivity|]. exists [Layer m kw]. auto.
Qed.

(** [sat P Pe m]: whatever the start, [m] appends only layers satisfying
    [P], keeps the shape dictionary, and raises only exceptions satisfying
    [Pe]. *)
Definition sat {A} (P : layer scalar -> bool) (Pe : exn -> bool)
    (m : M scalar A) : Prop :=
  forall w, wp m (fun _ w' => extends P w w')
                 (fun e w' => extends P w w' /\ Pe e = true) w.

Section Sat.
Variable P : layer scalar -> bool.
Variable Pe : exn -> bool.

Lemma sat_ret {A} (a : A) : sat P Pe (ret a).
Proof. intros w. apply extends_refl. Qed.

Lemma sat_raise {A} (e : exn) : Pe e = true -> sat P Pe (raise (A := A) e).
Proof. intros He w. split; [apply extends_refl | exact He]. Qed.

Lemma sat_bind {A B} (m : M scalar A) (f : A -> M scalar B) :
  sat P Pe m -> (forall a, sat P Pe (f a)) -> sat P Pe (bind m f).
Proof.
  intros Hm Hf w. apply wp_bind.
  eapply wp_mono; [apply Hm | | intros e w' He; exact He].
  intros a w' Hext.
  eapply wp_mono; [apply (Hf a w') | |].
  - intros b w'' Hext'. exact (extends_trans _ _ _ _ Hext Hext').
  - intros e w'' [Hext' He].
    split; [exact (extends_trans _ _ _ _ Hext Hext') | exact He].
Qed.

Lemma sat_for_each {A S} (l : list A) (body : A -> S -> M scalar S) (s : S) :
  (forall x s', sat P Pe (body x s')) -> sat P Pe (for_each l body s).
Proof.
  intros Hbody. revert s.
  induction l as [|x l IH]; intros s; simpl.
  - apply sat_ret.
  - apply sat_bind; [apply Hbody | intros s'; apply IH].
Qed.

Lemma sat_add_layer (m : string) kw :
  P (Layer m kw) = true -> sat P Pe (add_layer m kw).
Proof. intros HP w. apply extends_add_layer, HP. Qed.

Lemma sat_in_constants_loaded (x : string) : sat P Pe (in_constants_loaded x).
Proof. intros w. apply extends_refl. Qed.

Lemma sat_constants_loaded_add (x : string) : sat P Pe (constants_loaded_add x).
Proof. intros w. split; [reflexivity|]. exists []. simpl. rewrite app_nil_r. auto. Qed.

Lemma sat_in_shape_dict (x : string) : sat P Pe (in_shape_dict x).
Proof. intros w. apply extends_refl. Qed.

Lemma sat_shape_dict_item (x : string) :
  Pe PyKeyError = true -> sat P Pe (shape_dict_item x).
Proof.
  intros He w. unfold wp, shape_dict_item.
  destruct (shape_dict (graph w) !! x); [|split; [|exact He]]; apply extends_refl.
Qed.

End Sat.

(** What [sat] says of one run. *)
Lemma sat_final {A} P Pe (m : M scalar A) (w : world scalar) :
  sat P Pe m -> extends P w (final (m w)).
Proof.
  intros Hm. specialize (Hm w). unfold wp in Hm.
  destruct (m w); simpl; tauto.
Qed.

Lemma sat_raised {A} P Pe (m : M scalar A) (w w' : world scalar) (e : exn) :
  sat P Pe m -> m w = Raise e w' -> Pe e = true.
Proof.
  intros Hm Hr. specialize (Hm w). unfold wp in Hm. rewrite Hr in Hm. tauto.
Qed.

(** One step of a proof by [sat]: the control structure is followed, the
    operations built from [ret] and [raise] are opened, and the side
    conditions on layers and exceptions are computed. *)
Ltac sat_step :=
  match goal with
  | |- sat _ _ _ => progress cbn beta iota zeta delta [is_None]
  | |- sat _ _ (bind _ _) => apply sat_bind; [|intros ?]
  | |- sat _ _ (ret _) => apply sat_ret
  | |- sat _ _ (raise _) => apply sat_raise; reflexivity
  | |- sat _ _ (for_each _ _ _) => apply sat_for_each; intros ? ?
  | |- sat _ _ (add_layer _ _) => apply sat_add_layer; reflexivity
  | |- sat _ _ (in_constants_loaded _) => apply sat_in_constants_loaded
  | |- sat _ _ (constants_loaded_add _) => apply sat_constants_loaded_add
  | |- sat _ _ (in_shape_dict _) => apply sat_in_shape_dict
  | |- sat _ _ (shape_dict_item _) => apply sat_shape_dict_item; reflexivity
  | |- sat _ _ (match ?x with _ => _ end) => destruct x
  | |- sat _ _ _ =>
      progress unfold getitem, setitem, fmapM, attrs_item, attr_tensor,
        attr_len, attr_getitem, attr_first, decode, local, np_split,
        get_weights, expand_dim, add_load_constant_nd, ndarray_len, elements,
        int_item, slice_step, constants_loaded_call, unsupported_op,
        unsupported_op_configuration, missing_initializer,
        unsupported_feature_warning
  end.

Ltac sat_auto := repeat sat_step.

Lemma wp_bind_sat {A B} P Pe (m : M scalar A) (f : A -> M scalar B) Q E
    (w0 w : world scalar) :
  sat P Pe m ->
  extends P w0 w ->
  (forall e w', extends P w0 w' -> E e w') ->
  (forall a w', extends P w0 w' -> wp (f a) Q E w') ->
  wp (bind m f) Q E w.
Proof.
  intros Hm Hw HE Hf. apply wp_bind.
  eapply wp_mono; [apply (Hm w) | |].
  - intros a w' Hext. apply Hf. exact (extends_trans _ _ _ _ Hw Hext).
  - intros e w' [Hext _]. apply HE. exact (extends_trans _ _ _ _ Hw Hext).
Qed.

Lemma wp_of_sat {A} P Pe (m : M scalar A) Q E (w0 w : world scalar) :
  sat P Pe m ->
  extends P w0 w ->
  (forall a w', extends P w0 w' -> Q a w') ->
  (forall e w', extends P w0 w' -> E e w') ->
  wp m Q E w.
Proof.
  intros Hm Hw HQ HE. eapply wp_mono; [apply (Hm w) | |].
  - intros a w' Hext. apply HQ. exact (extends_trans _ _ _ _ Hw Hext).
  - intros e w' [Hext _]. apply HE. exact (extends_trans _ _ _ _ Hw Hext).
Qed.

Lemma wp_final {A} (m : M scalar A) (G : world scalar -> Prop) w :
  wp m (fun _ => G) (fun _ => G) w -> G (final (m w)).
Proof. unfold wp. destruct (m w); auto. Qed.

Lemma extends_emitted {A} P (m : M scalar A) (w : world scalar) :
  extends P w (final (m w)) ->
  builder (final (m w)) = builder w ++ emitted m w
  /\ Forall (fun l => P l = true) (emitted m w).
Proof.
  intros [_ (ls & Hb & HP)]. unfold emitted.
  rewrite Hb, drop_app_length. auto.
Qed.

(** A computation that cannot return raises. *)
Lemma wp_raises {A} (m : M scalar A) (E : exn -> world scalar -> Prop) w :
  wp m (fun _ _ => False) E w -> exists e w', m w = Raise e w' /\ E e w'.
Proof. unfold wp. destruct (m w) as [a w'|e w']; [tauto | eauto]. Qed.

(** One step of a run that the hypotheses determine. *)
Ltac wp_step :=
  match goal with
  | |- wp (bind _ _) _ _ _ => apply wp_bind
  | |- wp (ret _) _ _ _ => apply wp_ret
  | |- wp (raise _) _ _ _ => apply wp_raise
  | |- wp (add_layer _ _) _ _ _ => apply wp_add_layer
  | |- wp (add_load_constant_nd _ _ _ _) _ _ _ => apply wp_add_layer
  | |- wp (expand_dim _ _ _ _) _ _ _ => apply wp_add_layer
  | |- wp (getitem ?l ?i) _ _ _ =>
      let n := eval vm_compute in (Z.to_nat i) in
      eapply (wp_getitem l n); [eassumption|]
  | |- wp (shape_dict_item _) _ _ _ =>
      eapply wp_shape_dict_item; [simpl; eassumption|]
  | |- wp (in_shape_dict _) _ _ _ => apply wp_in_shape_dict
  | |- wp (in_constants_loaded _) _ _ _ => apply wp_in_constants_loaded
  end.

(** One step of a run of which only the invariant [Hinv : extends P w0 w]
    is followed, except for the values the hypotheses give. *)
Ltac wp_sat Hinv :=
  match type of Hinv with
  | extends ?P _ _ =>
      eapply (wp_bind_sat P (fun _ => true));
      [ sat_auto | exact Hinv | auto | clear Hinv; intros ? ? Hinv ]
  end.

Ltac wp_track Hinv :=
  match goal with
  | |- wp (bind (getitem ?l ?i) _) _ _ _ =>
      apply wp_bind;
      let n := eval vm_compute in (Z.to_nat i) in
      eapply (wp_getitem l n); [eassumption|]
  | |- wp (bind (shape_dict_item _) _) _ _ _ =>
      apply wp_bind;
      eapply wp_shape_dict_item; [rewrite (proj1 Hinv); eassumption|]
  | |- wp (bind (local None) _) _ _ _ =>
      apply wp_bind; apply wp_raise; exact Hinv
  | |- wp (let '(_, _) := ?p in _) _ _ _ => destruct p
  | |- wp (bind _ _) _ _ _ => wp_sat Hinv
  end.

(** ** Dispatch *)

(** C2. A node whose operator name is in the registry is converted by
    exactly the function registered under that name; a node whose
    operator name is not in the registry takes the fatal
    unsupported-operator path, and the builder and the graph are left as
    they were: no layer is emitted. *)
Theorem convert_node_nd_dispatch (node : Node scalar) (w : world scalar) :
  match REGISTRY !! op_type node with
  | Some converter_fn => _convert_node_nd _convert_relu node w = converter_fn node w
  | None => _convert_node_nd _convert_relu node w = Raise (UnsupportedOp (op_type node)) w
  end.
Proof.
  unfold _convert_node_nd, _get_node_converter_fn, bind.
  destruct (REGISTRY !! op_type node); reflexivity.
Qed.

Lemma registry_lookup_None (op : string) :
  REGISTRY !! op = None <-> op ∉ registered_ops.
Proof.
  change (REGISTRY !! op = None <-> op ∉ registered_ops) with
    (_ONNX_NODE_REGISTRY_ND _convert_relu !! op = None <-> op ∉ registered_ops).
  unfold _ONNX_NODE_REGISTRY_ND. rewrite <- not_elem_of_list_to_map.
  reflexivity.
Qed.

(** Every operator name outside the registry ends in the fatal error with
    nothing emitted. *)
Lemma unregistered_op_is_fatal (node : Node scalar) (w : world scalar) :
  op_type node ∉ registered_ops ->
  _convert_node_nd _convert_relu node w = Raise (UnsupportedOp (op_type node)) w.
Proof.
  intros Hop. apply registry_lookup_None in Hop.
  unfold _convert_node_nd, _get_node_converter_fn, bind.
  rewrite Hop. reflexivity.
Qed.


(** ** Constant *)

(** C8 (the code departs from it).  A Constant node emits its
    load-constant layer, with shape [[1]] for a value of rank 0 and the
    value's shape otherwise; then the call [graph.constants_loaded(...)]
    on the set raises: the name is not recorded and the conversion does
    not complete. *)
Theorem convert_constant_raises (node : Node scalar) (w : world scalar)
    (t : ndarray scalar) (output_0 : string) :
  attrs node !! "value" = Some (ATensor t) ->
  outputs node !! 0%nat = Some output_0 ->
  _convert_constant node w =
    Raise PyTypeError
      (World (builder w ++
                [Layer "add_load_constant_nd"
                   [("name", VStr (name node)); ("output_name", VStr output_0);
                    ("constant_value", VArray t);
                    ("shape", load_constant_shape t)]])
             (graph w)).
Proof.
  intros Hv Ho. apply wp_run. unfold _convert_constant, attrs_item.
  rewrite Hv. unfold attr_tensor, constants_loaded_call.
  repeat wp_step. reflexivity.
Qed.

(** ** Reshape *)

(** C6. A Reshape node whose target shape is the constant [[0, -1]] and
    whose data input has a known shape of rank 3 emits exactly two layers:
    a rank-preserving reshape to [[0, -1, 1]] and a squeeze of axis [-1];
    the first has the three axes of the input and the second removes one
    of them, leaving rank 2. *)
Theorem convert_reshape_rank_reduction (node : Node scalar) (w : world scalar)
    (input_0 shape_node output_0 : string) (zero wildcard : scalar)
    (input_shape : list Z) :
  inputs node !! 0%nat = Some input_0 ->
  inputs node !! 1%nat = Some shape_node ->
  outputs node !! 0%nat = Some output_0 ->
  input_tensors node !! shape_node = Some (NDArray [2%nat] [zero; wildcard]) ->
  scalar_int zero = Some 0 ->
  scalar_int wildcard = Some (-1) ->
  shape_dict (graph w) !! input_0 = Some input_shape ->
  length input_shape = 3%nat ->
  let new_shape := [VScalar zero; VScalar wildcard; VInt 1] in
  let squeeze_axes := [-1] in
  _convert_reshape node w =
    Ok tt
      (World (builder w ++
                [Layer "add_rank_preserving_reshape"
                   [("name", VStr (name node +:+ "_reshape_preserving"));
                    ("input_name", VStr input_0);
                    ("output_name", VStr (output_0 +:+ "_reshape_dim_preserved"));
                    ("output_shape", VList new_shape)];
                 Layer "add_squeeze"
                   [("name", VStr (name node));
                    ("input_name", VStr (output_0 +:+ "_reshape_dim_preserved"));
                    ("output_name", VStr output_0);
                    ("axes", ints squeeze_axes)]])
             (graph w))
  /\ (length new_shape - length squeeze_axes = 2)%nat.
Proof.
  intros Hi0 Hi1 Ho Ht Hz Hw Hs Hlen new_shape squeeze_axes.
  split; [|reflexivity].
  assert (Hcount : count_zeros_neg_ones [zero; wildcard] = (1, 1)).
  { unfold count_zeros_neg_ones, scalar_eq_int. simpl.
    rewrite Hz. simpl. rewrite Hw. reflexivity. }
  assert (Hcopy : copy_until_wildcard [zero; wildcard] 0 [] =
                  ([VScalar zero; VScalar wildcard], 1)).
  { unfold copy_until_wildcard, scalar_eq_int.
    rewrite Hz. simpl. rewrite Hw. reflexivity. }
  apply wp_run. unfold _convert_reshape, ndarray_len, elements, len.
  repeat wp_step. rewrite Ht.
  repeat wp_step. rewrite Hs. simpl bool_decide. cbv iota.
  repeat wp_step. simpl shape. cbv iota.
  repeat wp_step. rewrite Hlen.
  change (Z.of_nat 2 =? Z.of_nat 3) with false.
  change (Z.of_nat 2 <? Z.of_nat 3) with true. cbv iota.
  repeat wp_step. simpl data. rewrite Hcount. cbv iota beta.
  change (1 <? 1) with false. cbv iota.
  repeat wp_step.
  change (1 + 1 =? Z.of_nat 2) with true. cbv iota.
  rewrite Hcopy. cbv iota beta.
  repeat wp_step. simpl. rewrite <- app_assoc. reflexivity.
Qed.

(** ** Slice *)

Lemma getitem_norm {A} (l : list A) (i : Z) (w : world scalar) :
  - len l <= i < len l ->
  getitem l i w =
    match l !! norm_index (length l) i with
    | Some x => Ok x w
    | None => Raise PyIndexError w
    end.
Proof.
  intros Hi. unfold getitem, norm_index, len in *.
  repeat match goal with
         | |- context [?a <? ?b] => destruct (Z.ltb_spec a b)
         end; try lia; destruct (l !! _); reflexivity.
Qed.

Lemma setitem_norm {A} (l : list A) (i : Z) (x : A) (w : world scalar) :
  - len l <= i < len l ->
  setitem l i x w = Ok (<[norm_index (length l) i := x]> l) w.
Proof.
  intros Hi. unfold setitem, norm_index, len in *.
  repeat match goal with
         | |- context [?a <? ?b] => destruct (Z.ltb_spec a b)
         | |- context [?a <=? ?b] => destruct (Z.leb_spec a b)
         end; try lia; reflexivity.
Qed.

Lemma norm_index_lt (n : nat) (i : Z) :
  - Z.of_nat n <= i < Z.of_nat n -> (norm_index n i < n)%nat.
Proof. intros Hi. unfold norm_index. destruct (Z.ltb_spec i 0); lia. Qed.

Lemma mask_fold_length n hit ps m : length (mask_fold n hit ps m) = length m.
Proof.
  unfold mask_fold. revert m.
  induction ps as [|[a v] ps IH]; intros m; [reflexivity|].
  simpl. rewrite IH.
  destruct (hit a v); [apply length_insert | reflexivity].
Qed.

Lemma ids_fold_length n ps ids : length (ids_fold n ps ids) = length ids.
Proof.
  unfold ids_fold. revert ids.
  induction ps as [|[a v] ps IH]; intros ids; [reflexivity|].
  simpl. rewrite IH. apply length_insert.
Qed.

Lemma mask_fold_lookup n (hit : Z -> Z -> bool) (hit' : nat -> Z -> bool) ps m k :
  (forall a v, hit a v = hit' (norm_index n a) v) ->
  mask_fold n hit ps m !! k =
    (fun b => b && negb (existsb (fun '(a, v) => (norm_index n a =? k)%nat && hit' k v) ps))
    <$> (m !! k).
Proof.
  intros Hhit. unfold mask_fold. revert m.
  induction ps as [|[a v] ps IH]; intros m.
  - simpl. destruct (m !! k) as [b|]; simpl; [rewrite andb_true_r|]; reflexivity.
  - simpl. rewrite IH. clear IH.
    rewrite Hhit.
    destruct (Nat.eqb_spec (norm_index n a) k) as [->|Hne]; simpl.
    + destruct (hit' k v); simpl.
      * rewrite list_lookup_insert.
        destruct (decide _) as [[_ Hlt]|Hnot]; simpl.
        -- apply lookup_lt_is_Some in Hlt as [b ->]. simpl.
           rewrite andb_false_r. reflexivity.
        -- destruct (m !! k) as [b|] eqn:Hm; [|reflexivity].
           exfalso. apply Hnot. split; [reflexivity|].
           apply lookup_lt_Some in Hm. exact Hm.
      * reflexivity.
    + destruct (hit' (norm_index n a) v); [|reflexivity].
      rewrite list_lookup_insert_ne by exact Hne. reflexivity.
Qed.

Lemma wp_getitem_norm {A} (l : list A) (i : Z) (x : A) (Q : A -> _ -> Prop) E w :
  - len l <= i < len l ->
  l !! norm_index (length l) i = Some x ->
  Q x w -> wp (getitem l i) Q E w.
Proof.
  intros Hi Hl HQ. unfold wp. rewrite getitem_norm, Hl by exact Hi. exact HQ.
Qed.

Lemma wp_setitem {A} (l : list A) (i : Z) (x : A) (Q : list A -> _ -> Prop) E w :
  - len l <= i < len l ->
  Q (<[norm_index (length l) i := x]> l) w -> wp (setitem l i x) Q E w.
Proof.
  intros Hi HQ. unfold wp. rewrite setitem_norm by exact Hi. exact HQ.
Qed.

Lemma slice_step_run (data_shape ip_starts ip_ends axes : list Z) (i : nat)
    (a start end_ : Z) (starts ends : list Z) (begin_masks end_masks : list bool)
    (w : world scalar) :
  axes !! i = Some a -> ip_starts !! i = Some start -> ip_ends !! i = Some end_ ->
  - len data_shape <= a < len data_shape ->
  length starts = length data_shape -> length ends = length data_shape ->
  length begin_masks = length data_shape -> length end_masks = length data_shape ->
  let k := norm_index (length data_shape) a in
  slice_step data_shape (Some (AInts ip_starts)) (Some (AInts ip_ends))
    (AInts axes) (Z.of_nat i) (starts, ends, begin_masks, end_masks) w
  = Ok (<[k := start]> starts, <[k := end_]> ends,
        (if begin_hit a start then <[k := false]> begin_masks else begin_masks),
        (if end_hit end_bound_used data_shape a end_
         then <[k := false]> end_masks else end_masks)) w.
Proof.
  intros Ha Hs He Hrange Hls Hle Hlb Hlm k.
  assert (Hk : (k < length data_shape)%nat) by (apply norm_index_lt, Hrange).
  destruct (lookup_lt_is_Some_2 data_shape k Hk) as [size Hsize].
  assert (Hr : forall {A} (l : list A), length l = length data_shape ->
                 - len l <= a < len l)
    by (intros A l Hl; unfold len in *; rewrite Hl; exact Hrange).
  apply wp_run. unfold slice_step, int_item, fmapM.
  apply wp_bind. eapply (wp_getitem _ i); [exact Ha|].
  apply wp_bind. eapply (wp_getitem _ i); [exact Hs|].
  apply wp_bind. apply wp_setitem; [apply Hr, Hls|]. rewrite Hls. fold k.
  apply wp_bind. eapply (wp_getitem _ i); [exact He|].
  apply wp_bind. apply wp_setitem; [apply Hr, Hle|]. rewrite Hle. fold k.
  apply wp_bind. eapply wp_getitem_norm;
    [apply Hr; rewrite length_insert; exact Hle
    | rewrite length_insert, Hle; apply list_lookup_insert_eq; rewrite Hle; exact Hk |].
  unfold end_hit, end_bound_used, begin_hit. fold k.
  rewrite (list_lookup_total_correct _ _ _ Hsize).
  apply wp_bind.
  assert (Hstart : wp (getitem (<[k:=start]> starts) a)
                      (fun x w' => x = start /\ w' = w) (fun _ _ => False) w).
  { eapply wp_getitem_norm;
      [apply Hr; rewrite length_insert; exact Hls
      | rewrite length_insert, Hls; apply list_lookup_insert_eq; rewrite Hls; exact Hk
      | auto]. }
  destruct (end_ =? INT_MAX); simpl.
  - apply wp_bind. eapply wp_getitem_norm; [exact Hrange | exact Hsize |].
    apply wp_ret. destruct (end_ <? size).
    + apply wp_bind. apply wp_setitem; [apply Hr, Hlm|]. rewrite Hlm. fold k.
      apply wp_bind. eapply wp_mono; [exact Hstart | | tauto].
      intros x w' [-> ->]. destruct (start =? 0); simpl.
      * apply wp_bind, wp_ret, wp_ret. reflexivity.
      * apply wp_bind. apply wp_setitem; [apply Hr, Hlb|]. rewrite Hlb.
        apply wp_ret. reflexivity.
    + apply wp_bind, wp_ret.
      apply wp_bind. eapply wp_mono; [exact Hstart | | tauto].
      intros x w' [-> ->]. destruct (start =? 0); simpl.
      * apply wp_bind, wp_ret, wp_ret. reflexivity.
      * apply wp_bind. apply wp_setitem; [apply Hr, Hlb|]. rewrite Hlb.
        apply wp_ret. reflexivity.
  - apply wp_ret.
    apply wp_bind. apply wp_setitem; [apply Hr, Hlm|]. rewrite Hlm. fold k.
    apply wp_bind. eapply wp_mono; [exact Hstart | | tauto].
    intros x w' [-> ->]. destruct (start =? 0); simpl.
    + apply wp_bind, wp_ret, wp_ret. reflexivity.
    + apply wp_bind. apply wp_setitem; [apply Hr, Hlb|]. rewrite Hlb.
      apply wp_ret. reflexivity.
Qed.

Lemma slice_loop_run (data_shape ip_starts ip_ends axes : list Z)
    (w : world scalar) (ra rs re : list Z) :
  forall (i : nat) (starts ends : list Z) (begin_masks end_masks : list bool),
    drop i axes = ra -> drop i ip_starts = rs -> drop i ip_ends = re ->
    length rs = length ra -> length re = length ra ->
    Forall (fun a => - len data_shape <= a < len data_shape) ra ->
    length starts = length data_shape -> length ends = length data_shape ->
    length begin_masks = length data_shape ->
    length end_masks = length data_shape ->
    let n := length data_shape in
    for_each (seqZ (Z.of_nat i) (len ra))
      (slice_step data_shape (Some (AInts ip_starts)) (Some (AInts ip_ends))
         (AInts axes))
      (starts, ends, begin_masks, end_masks) w
    = Ok (ids_fold n (zip ra rs) starts, ids_fold n (zip ra re) ends,
          mask_fold n begin_hit (zip ra rs) begin_masks,
          mask_fold n (end_hit end_bound_used data_shape) (zip ra re) end_masks) w.
Proof.
  revert rs re.
  induction ra as [|a ra IH]; intros rs re i starts ends begin_masks end_masks
    Hda Hds Hde Hlrs Hlre Hrange Hls Hle Hlb Hlm n.
  - destruct rs; [|discriminate]. destruct re; [|discriminate]. reflexivity.
  - destruct rs as [|start rs]; [discriminate|].
    destruct re as [|end_ re]; [discriminate|].
    assert (Hlook : forall (l : list Z) x r, drop i l = x :: r ->
                      l !! i = Some x /\ drop (S i) l = r).
    { intros l x r Hd. assert (Hx : l !! i = Some x).
      { rewrite <- (Nat.add_0_r i), <- lookup_drop, Hd. reflexivity. }
      split; [exact Hx|]. rewrite (drop_S _ _ _ Hx) in Hd. congruence. }
    apply Hlook in Hda as [Ha Hda]. apply Hlook in Hds as [Hs Hds].
    apply Hlook in Hde as [He Hde].
    apply Forall_cons in Hrange as [Hra Hrange].
    unfold len. rewrite seqZ_cons by (simpl; lia).
    cbn [for_each]. unfold bind.
    rewrite (slice_step_run _ _ _ _ _ _ _ _ _ _ _ _ _ Ha Hs He Hra Hls Hle Hlb Hlm).
    replace (Z.succ (Z.of_nat i)) with (Z.of_nat (S i)) by lia.
    replace (Z.pred (Z.of_nat (length (a :: ra)))) with (len ra)
      by (unfold len; simpl; lia).
    rewrite (IH rs re (S i)); try assumption; try (simpl in *; lia).
    + reflexivity.
    + rewrite length_insert. exact Hls.
    + rewrite length_insert. exact Hle.
    + destruct (begin_hit a start); [rewrite length_insert|]; exact Hlb.
    + destruct (end_hit _ _ a end_); [rewrite length_insert|]; exact Hlm.
Qed.

(** The folds are the masks of the specification. *)
Lemma mask_fold_spec n (hit : Z -> Z -> bool) (hit' : nat -> Z -> bool)
    (ps : list (Z * Z)) :
  (forall a v, hit a v = hit' (norm_index n a) v) ->
  mask_fold n hit ps (replicate n true)
  = (fun k => negb (existsb (fun '(a, v) => (norm_index n a =? k)%nat && hit' k v) ps))
    <$> seq 0 n.
Proof.
  intros Hhit. apply list_eq. intros k.
  rewrite (mask_fold_lookup n hit hit' ps _ k Hhit), list_lookup_fmap.
  destruct (decide (k < n)%nat) as [Hk|Hk].
  - rewrite lookup_replicate_2, lookup_seq_lt by exact Hk. reflexivity.
  - rewrite lookup_ge_None_2 by (rewrite length_replicate; lia).
    rewrite lookup_seq_ge by lia. reflexivity.
Qed.

(** C5, as the converter has it.  The emitted static-slice layer has, for
    every axis, a begin mask that is true unless a non-zero start is given
    for that axis, and an end mask that is true unless an end bound is
    given for that axis that differs from the sentinel [2^30] or is below
    the axis's known static size. *)
Theorem convert_slice_masks (node : Node scalar) (w : world scalar) :
  slice_masks_spec end_bound_used node w.
Proof.
  intros input_0 output_0 data_shape starts ends axes
    Hi0 Ho0 Hshape Hstarts Hends Haxes Hls Hle Hrange.
  set (n := length data_shape).
  exists (ids_fold n (zip axes starts) (replicate n 0)),
         (ids_fold n (zip axes ends) (replicate n 0)).
  assert (Hattr : exists axes_attr,
             default (AInts (range 0 (len data_shape))) (attrs node !! "axes")
             = AInts axes_attr /\ axes_attr = axes).
  { unfold slice_axes in Haxes. destruct (attrs node !! "axes") as [[]|];
      simplify_eq/=; eauto. }
  destruct Hattr as (axes_attr & Hattr & ->).
  apply wp_run. unfold _convert_slice.
  repeat wp_step. cbv zeta. rewrite Hattr, Hstarts, Hends.
  unfold attr_len. repeat wp_step.
  pose proof (slice_loop_run data_shape starts ends axes w axes starts ends 0%nat
                (replicate n 0) (replicate n 0) (replicate n true) (replicate n true)
                eq_refl eq_refl eq_refl Hls Hle Hrange) as Hloop.
  rewrite !length_replicate in Hloop.
  specialize (Hloop eq_refl eq_refl eq_refl eq_refl).
  cbv zeta in Hloop. fold n in Hloop.
  unfold range. rewrite Z.sub_0_r. fold n.
  unfold wp at 1. change (Z.of_nat 0) with 0 in Hloop. rewrite Hloop.
  cbv beta iota. repeat wp_step.
  rewrite (mask_fold_spec n begin_hit (fun _ start => negb (start =? 0)))
    by reflexivity.
  rewrite (mask_fold_spec n (end_hit end_bound_used data_shape)
             (fun k end_ => end_bound_used end_ (data_shape !!! k)))
    by reflexivity.
  reflexivity.
Qed.

(** ** LSTM weights *)

(** Cutting the concatenation of equally long runs gives the runs back. *)
Lemma take_drop_concat {A} (chunks : list (list A)) (m : nat) :
  Forall (fun c => length c = m) chunks ->
  (fun k => take m (drop (k * m) (concat chunks))) <$> seq 0 (length chunks)
  = chunks.
Proof.
  induction 1 as [|c chunks Hc _ IH]; [reflexivity|].
  cbn [length seq fmap list_fmap concat]. f_equal.
  - rewrite Nat.mul_0_l, drop_0. apply take_app_length'. symmetry. exact Hc.
  - rewrite <- fmap_S_seq, <- list_fmap_compose. rewrite <- IH at 2.
    apply list_fmap_ext. intros _ k _. simpl.
    rewrite drop_app_ge by lia. do 2 f_equal. lia.
Qed.

Lemma np_split_concat (rest : list nat) (each : nat)
    (chunks : list (list scalar)) (w : world scalar) :
  chunks <> [] ->
  Forall (fun c => length c = (each * size_of rest)%nat) chunks ->
  np_split (Some (NDArray ((length chunks * each)%nat :: rest) (concat chunks)))
    (Z.of_nat (length chunks)) w
  = Ok (NDArray (each :: rest) <$> chunks) w.
Proof.
  intros Hne Hlen. unfold np_split. cbn [shape data].
  assert (Hpos : (0 < length chunks)%nat) by (destruct chunks; [done | simpl; lia]).
  destruct (Z.eqb_spec (Z.of_nat (length chunks)) 0) as [|_]; [lia|].
  destruct (Z.ltb_spec (Z.of_nat (length chunks)) 0) as [|_]; [lia|].
  rewrite Nat2Z.inj_mul, Z.mul_comm, Z_mod_mult. cbn [Z.eqb negb orb].
  rewrite Nat2Z.id, Nat.mul_comm, Nat.div_mul by lia.
  unfold ret. f_equal.
  rewrite <- (take_drop_concat chunks _ Hlen) at 2.
  rewrite <- list_fmap_compose. reflexivity.
Qed.

(** The two expansions at axis 3 and the squeeze, on a tensor of rank 3
    or of rank 2. *)
Lemma squeeze_expanded_weight (rows cols : nat) (d : list scalar) :
  rows <> 1%nat ->
  np_squeeze (np_expand_dims (np_expand_dims (NDArray [1%nat; rows; cols] d) 3) 3)
  = NDArray (rows :: filter (fun n => n <> 1%nat) [cols]) d.
Proof.
  intros Hrows. unfold np_squeeze, np_expand_dims. cbn [shape data take drop app].
  f_equal.
  rewrite (filter_cons_False _ 1%nat) by congruence.
  rewrite (filter_cons_True _ rows) by exact Hrows.
  reflexivity.
Qed.

Lemma squeeze_bias (len_B : nat) (d : list scalar) :
  len_B <> 1%nat ->
  np_squeeze (NDArray [1%nat; len_B] d) = NDArray [len_B] d.
Proof.
  intros Hlen. unfold np_squeeze. cbn [shape data]. f_equal.
  rewrite filter_cons_False by congruence.
  rewrite filter_cons_True by exact Hlen. reflexivity.
Qed.

Lemma size_of_squeezed (cols : nat) :
  size_of (filter (fun n => n <> 1%nat) [cols]) = cols.
Proof.
  destruct (decide (cols = 1%nat)) as [->|Hcols]; [reflexivity|].
  rewrite filter_cons_True by exact Hcols. simpl. lia.
Qed.

(** C3. Let [W] hold the four gate parts [W_i], [W_o], [W_f], [W_c] of
    equal size one after the other (the ONNX order: input, output, forget,
    cell), and [R] likewise.  Then [get_weights] returns the parts in the
    order input, forget, output, cell.  When a bias of eight equally long
    parts (four input-side, then four recurrent-side) is given, the bias
    returned for a gate is the elementwise sum of the input-side and the
    recurrent-side part of that gate. *)
Theorem get_weights_repacks (node : Node scalar) (W_name R_name : string)
    (hidden_size input_size : nat)
    (W_i W_o W_f W_c R_i R_o R_f R_c : list scalar) (w : world scalar) :
  Forall (fun c => length c = (hidden_size * input_size)%nat) [W_i; W_o; W_f; W_c] ->
  Forall (fun c => length c = (hidden_size * hidden_size)%nat) [R_i; R_o; R_f; R_c] ->
  let W := NDArray [1; 4 * hidden_size; input_size]%nat (W_i ++ W_o ++ W_f ++ W_c) in
  let R := NDArray [1; 4 * hidden_size; hidden_size]%nat (R_i ++ R_o ++ R_f ++ R_c) in
  let W_x := NDArray (gate_shape hidden_size input_size) <$> [W_i; W_f; W_o; W_c] in
  let W_h := NDArray (gate_shape hidden_size hidden_size) <$> [R_i; R_f; R_o; R_c] in
  get_weights node W W_name R R_name None w = Ok (W_x, W_h, None) w
  /\ forall b_Wi b_Wo b_Wf b_Wc b_Ri b_Ro b_Rf b_Rc : list scalar,
       Forall (fun c => length c = hidden_size)
         [b_Wi; b_Wo; b_Wf; b_Wc; b_Ri; b_Ro; b_Rf; b_Rc] ->
       let B := NDArray [1; 8 * hidden_size]%nat
                  (b_Wi ++ b_Wo ++ b_Wf ++ b_Wc ++ b_Ri ++ b_Ro ++ b_Rf ++ b_Rc) in
       let b := NDArray [hidden_size] <$>
                  [zip_with scalar_add b_Wi b_Ri; zip_with scalar_add b_Wf b_Rf;
                   zip_with scalar_add b_Wo b_Ro; zip_with scalar_add b_Wc b_Rc] in
       get_weights node W W_name R R_name (Some B) w = Ok (W_x, W_h, Some b) w.
Proof.
  intros HW HR W R W_x W_h.
  assert (Hsplit_W : np_split (Some (np_squeeze (np_expand_dims (np_expand_dims W 3) 3))) 4 w
                     = Ok (NDArray (gate_shape hidden_size input_size)
                             <$> [W_i; W_o; W_f; W_c]) w).
  { unfold W, gate_shape. rewrite squeeze_expanded_weight by lia.
    replace (W_i ++ W_o ++ W_f ++ W_c) with (concat [W_i; W_o; W_f; W_c])
      by (simpl; rewrite app_nil_r; reflexivity).
    apply (np_split_concat _ hidden_size [W_i; W_o; W_f; W_c]); [done|].
    rewrite size_of_squeezed. exact HW. }
  assert (Hsplit_R : np_split (Some (np_squeeze (np_expand_dims (np_expand_dims R 3) 3))) 4 w
                     = Ok (NDArray (gate_shape hidden_size hidden_size)
                             <$> [R_i; R_o; R_f; R_c]) w).
  { unfold R, gate_shape. rewrite squeeze_expanded_weight by lia.
    replace (R_i ++ R_o ++ R_f ++ R_c) with (concat [R_i; R_o; R_f; R_c])
      by (simpl; rewrite app_nil_r; reflexivity).
    apply (np_split_concat _ hidden_size [R_i; R_o; R_f; R_c]); [done|].
    rewrite size_of_squeezed. exact HR. }
  split.
  - unfold get_weights, bind. cbn [is_None]. unfold ret at 1 2.
    rewrite Hsplit_W. cbn [fmap list_fmap]. rewrite Hsplit_R. reflexivity.
  - intros b_Wi b_Wo b_Wf b_Wc b_Ri b_Ro b_Rf b_Rc HB B b.
    assert (Hsplit_B : np_split (Some (np_squeeze B)) 8 w
                       = Ok (NDArray [hidden_size]
                               <$> [b_Wi; b_Wo; b_Wf; b_Wc; b_Ri; b_Ro; b_Rf; b_Rc]) w).
    { unfold B. rewrite squeeze_bias by lia.
      replace (b_Wi ++ b_Wo ++ b_Wf ++ b_Wc ++ b_Ri ++ b_Ro ++ b_Rf ++ b_Rc)
        with (concat [b_Wi; b_Wo; b_Wf; b_Wc; b_Ri; b_Ro; b_Rf; b_Rc])
        by (simpl; rewrite app_nil_r; reflexivity).
      apply (np_split_concat [] hidden_size
               [b_Wi; b_Wo; b_Wf; b_Wc; b_Ri; b_Ro; b_Rf; b_Rc]); [done|].
      simpl size_of. rewrite Nat.mul_1_r. exact HB. }
    unfold get_weights, bind. cbn [is_None]. unfold ret at 1 2.
    rewrite Hsplit_W. cbn [fmap list_fmap]. rewrite Hsplit_R.
    cbn [fmap list_fmap]. rewrite Hsplit_B. reflexivity.
Qed.

(** ** LSTM *)

Lemma convert_lstm_no_missing_initializer (node : Node scalar) :
  sat (fun _ => true) (fun e => negb (is_missing_initializer e))
    (_convert_lstm node).
Proof. unfold _convert_lstm. sat_auto. Qed.

(** X21. The converter never reports a missing initializer: the two tests of
    [get_weights] are made on arrays. *)
Lemma convert_lstm_never_missing_initializer (node : Node scalar)
    (w w' : world scalar) (e : exn) (msg : string) :
  _convert_lstm node w = Raise e w' -> e <> MissingInitializer msg.
Proof.
  intros Hrun ->.
  pose proof (sat_raised _ _ _ _ _ _ (convert_lstm_no_missing_initializer node) Hrun).
  discriminate.
Qed.

Lemma convert_lstm_peephole_free (node : Node scalar) :
  sat peephole_free (fun _ => true) (_convert_lstm node).
Proof. unfold _convert_lstm. sat_auto. Qed.

(** C9. When the primary input of an LSTM node has a known shape of rank
    5 or more, the conversion fails: [add_nodes] is assigned only in the
    branch taken for a rank below 5, and both directions read it before
    they add their LSTM layer.  No unidirectional or bidirectional LSTM
    layer is emitted. *)
Theorem convert_lstm_rank_5_fails (node : Node scalar) (w : world scalar)
    (input_0 : string) (input_shape : list Z) :
  inputs node !! 0%nat = Some input_0 ->
  shape_dict (graph w) !! input_0 = Some input_shape ->
  (5 <= length input_shape)%nat ->
  exists e w',
    _convert_lstm node w = Raise e w'
    /\ extends (fun l => negb (is_lstm_layer l)) w w'.
Proof.
  intros Hi0 Hs Hrank. apply wp_raises.
  pose proof (extends_refl (fun l => negb (is_lstm_layer l)) w) as Hinv.
  revert Hinv. generalize w at 2 4. intros w1 Hinv.
  unfold _convert_lstm.
  repeat match goal with
         | |- wp (bind (if len input_shape <? 5 then _ else _) _) _ _ _ => fail 1
         | _ => wp_track Hinv
         end.
  assert (Hlen : (len input_shape <? 5) = false)
    by (unfold len; apply Z.ltb_ge; lia).
  rewrite Hlen. apply wp_bind, wp_ret. apply wp_bind.
  repeat match goal with
         | |- wp (if ?c then _ else _) _ _ _ => destruct c
         end.
  - repeat wp_track Hinv.
  - repeat wp_track Hinv.
  - apply wp_raise. exact Hinv.
Qed.

(** When the node has a peephole input and a bidirectional LSTM layer is
    emitted, the reshape of that input and its split into the names
    [<peepholes>_f] and [<peepholes>_b] are among the emitted layers. *)
Lemma convert_lstm_peephole_layers (node : Node scalar) (w : world scalar)
    (peepholes : string) :
  inputs node !! 7%nat = Some peepholes ->
  Exists (fun l => is_method "add_bidirlstm" l = true)
    (emitted (_convert_lstm node) w) ->
  peephole_layers peepholes (emitted (_convert_lstm node) w).
Proof.
  intros Hi7 Hex.
  set (no_bidir := fun l : layer scalar => negb (is_method "add_bidirlstm" l)).
  set (G := fun w' : world scalar =>
              forall ls', builder w' = builder w ++ ls' ->
                Exists (fun l => is_method "add_bidirlstm" l = true) ls' ->
                peephole_layers peepholes ls').
  assert (HG1 : forall (e : exn) w', extends no_bidir w w' -> G w').
  { intros _ w' [_ (ls1 & Hb & Hall)] ls' Hls' Hex'.
    rewrite Hb in Hls'. apply app_inv_head in Hls'. subst ls'.
    apply Exists_exists in Hex' as (l & Hl & Hm).
    rewrite Forall_forall in Hall. specialize (Hall l Hl).
    unfold no_bidir in Hall. rewrite Hm in Hall. discriminate. }
  assert (HG2 : forall w1 r s,
             extends no_bidir w w1 ->
             is_peephole_reshape peepholes r -> is_peephole_split peepholes s ->
             forall w', extends (fun _ => true)
                          (World ((builder w1 ++ [r]) ++ [s]) (graph w1)) w' ->
                        G w').
  { intros w1 r s [_ (ls1 & Hb1 & _)] Hr Hs w' [_ (ls2 & Hb2 & _)] ls' Hls' _.
    simpl in Hb2. rewrite Hb2, Hb1, <- !app_assoc in Hls'.
    apply app_inv_head in Hls'. subst ls'.
    exists r, s. repeat split; try apply Hr; try apply Hs;
      rewrite !elem_of_app, !list_elem_of_singleton; auto. }
  assert (HG : G (final (_convert_lstm node w))).
  2:{ apply HG; [|exact Hex].
      apply (extends_emitted (fun _ => true)).
      apply (sat_final _ (fun _ => true)). unfold _convert_lstm. sat_auto. }
  apply wp_final.
  pose proof (extends_refl no_bidir w) as Hinv.
  revert Hinv. generalize w at 2 3. intros w1 Hinv.
  unfold _convert_lstm.
  repeat match goal with
         | |- wp (bind (if 7 <? len (inputs node) then _ else _) _) _ _ _ => fail 1
         | _ => wp_track Hinv
         end.
  assert (H7 : (7 <? len (inputs node)) = true).
  { apply Z.ltb_lt. apply lookup_lt_Some in Hi7. unfold len. lia. }
  rewrite H7. unfold fmapM at 1.
  apply wp_bind, wp_bind. eapply (wp_getitem _ 7%nat); [exact Hi7|].
  apply wp_ret.
  repeat match goal with
         | |- wp (bind (if _ =? 1 then _ else _) _) _ _ _ => fail 1
         | _ => wp_track Hinv
         end.
  match goal with
  | |- wp (bind (if ?c then _ else _) _) _ _ _ => destruct c
  end.
  { eapply (wp_of_sat no_bidir (fun _ => true));
      [sat_auto | exact Hinv | intros _; apply (HG1 PyTypeError) | exact HG1]. }
  match goal with
  | |- wp (bind (if ?c then _ else _) _) _ _ _ => destruct c
  end.
  2:{ eapply (wp_of_sat no_bidir (fun _ => true));
        [sat_auto | exact Hinv | intros _; apply (HG1 PyTypeError) | exact HG1]. }
  apply wp_bind.
  repeat match goal with
         | |- wp (bind (bind (add_layer "add_reshape_static" _) _) _) _ _ _ => fail 1
         | _ => wp_track Hinv
         end.
  apply wp_bind, wp_bind, wp_add_layer, wp_add_layer. cbn [builder graph].
  match goal with
  | |- wp _ _ _ (World ((builder ?w1 ++ [?r]) ++ [?s]) _) =>
      assert (HG3 : forall w', extends (fun _ => true)
                                 (World ((builder w1 ++ [r]) ++ [s]) (graph w1)) w' ->
                               G w')
        by (apply HG2; [exact Hinv | repeat split | repeat split])
  end.
  eapply (wp_of_sat (fun _ => true) (fun _ => true));
    [sat_auto | apply extends_refl | | intros _; exact HG3].
  intros _ w2 Hext.
  eapply (wp_of_sat (fun _ => true) (fun _ => true));
    [sat_auto | exact Hext | intros _; exact HG3 | intros _; exact HG3].
Qed.

(** *** Names that differ *)

Lemma last_ascii_app (a t : string) :
  t <> "" -> last_ascii (a +:+ t) = last_ascii t.
Proof.
  intros Ht. induction a as [|c a IH]; [reflexivity|].
  change (String c a +:+ t) with (String c (a +:+ t)).
  assert (Hne : a +:+ t <> "")
    by (destruct a; [exact Ht | discriminate]).
  cbn [last_ascii]. rewrite IH.
  destruct (a +:+ t); [contradiction | reflexivity].
Qed.

Lemma length_append (a t : string) :
  String.length (a +:+ t) = (String.length a + String.length t)%nat.
Proof. induction a as [|c a IH]; simpl; [reflexivity | rewrite IH; reflexivity]. Qed.

Lemma append_inj_r (a b t : string) : a +:+ t = b +:+ t -> a = b.
Proof.
  revert b. induction a as [|c a IH]; intros b Heq.
  - destruct b as [|c' b]; [reflexivity|].
    apply (f_equal String.length) in Heq.
    rewrite !length_append in Heq. simpl in Heq. lia.
  - destruct b as [|c' b].
    + apply (f_equal String.length) in Heq.
      rewrite !length_append in Heq. simpl in Heq. lia.
    + injection Heq as -> Heq. f_equal. apply IH, Heq.
Qed.

(** [str] writes a number in decimal: the text ends in a digit. *)
Lemma pretty_N_go_suffix (x : N) (s : string) :
  exists pre, pretty_N_go x s = pre +:+ s.
Proof.
  revert s. induction (N.lt_wf_0 x) as [x _ IH]; intros s.
  destruct (decide (0 < x)%N) as [Hx|Hx].
  - rewrite pretty_N_go_step by exact Hx.
    destruct (IH (x `div` 10)%N (N.div_lt x 10 Hx eq_refl)
                (String (pretty_N_char (x `mod` 10)) s)) as [pre Hpre].
    exists (pre +:+ String (pretty_N_char (x `mod` 10)) "").
    rewrite Hpre. clear. induction pre as [|c pre IH]; [reflexivity|].
    change (String c (pre +:+ String (pretty_N_char (x `mod` 10)) s)
            = String c ((pre +:+ String (pretty_N_char (x `mod` 10)) "") +:+ s)).
    f_equal. exact IH.
  - replace x with 0%N by lia. exists "". reflexivity.
Qed.

Lemma last_ascii_str (z : Z) :
  exists n : N, last_ascii (str z) = Some (pretty_N_char n).
Proof.
  assert (Hpos : forall p : positive,
             exists n : N, last_ascii (pretty (Npos p)) = Some (pretty_N_char n)).
  { intros p. unfold pretty, pretty_N.
    destruct (decide (N.pos p = 0%N)) as [Hp|_]; [discriminate|].
    rewrite pretty_N_go_step by lia.
    destruct (pretty_N_go_suffix (N.pos p `div` 10)
                (String (pretty_N_char (N.pos p `mod` 10)) "")) as [pre ->].
    exists (N.pos p `mod` 10)%N. rewrite last_ascii_app by discriminate.
    reflexivity. }
  unfold str, pretty, pretty_Z. destruct z as [|p|p].
  - exists 0%N. reflexivity.
  - apply Hpos.
  - destruct (Hpos p) as [n Hn]. exists n.
    rewrite last_ascii_app; [exact Hn|].
    intros Hempty. unfold pretty, pretty_positive in Hempty.
    rewrite Hempty in Hn. discriminate.
Qed.

Lemma digit_not_letter (n : N) (t : string) :
  t ∈ ["_reshaped"; "_f"; "_b"] -> last_ascii t <> Some (pretty_N_char n).
Proof.
  intros Ht Heq.
  repeat (apply elem_of_cons in Ht as [->|Ht];
          [unfold pretty_N_char in Heq; simpl in Heq;
           repeat case_match; discriminate|]).
  apply elem_of_nil in Ht. exact Ht.
Qed.

Lemma last_ascii_expand_out (s : string) (z : Z) :
  exists n : N,
    last_ascii (s +:+ "_expand_out_" +:+ str z) = Some (pretty_N_char n).
Proof.
  destruct (last_ascii_str z) as [n Hn]. exists n.
  rewrite last_ascii_app by discriminate.
  rewrite last_ascii_app; [exact Hn|].
  intros Hempty. rewrite Hempty in Hn. discriminate.
Qed.

(** A name the peephole reshape or split writes is no name the
    bidirectional layer reads, when the peephole input is neither the
    initial hidden state [h] nor the initial cell state [c]. *)
Lemma peephole_output_apart (peepholes h c x : string) :
  h <> peepholes -> c <> peepholes ->
  x ∈ peephole_outputs peepholes ->
  x <> h +:+ "_f" /\ x <> c +:+ "_f" /\ x <> h +:+ "_b" /\ x <> c +:+ "_b"
  /\ forall (s : string) (z : Z), x <> s +:+ "_expand_out_" +:+ str z.
Proof.
  intros Hh Hc Hx.
  assert (Hlast : exists t, t ∈ ["_reshaped"; "_f"; "_b"]
                            /\ x = peepholes +:+ t).
  { unfold peephole_outputs in Hx.
    repeat (apply elem_of_cons in Hx as [->|Hx];
            [eexists; split; [|reflexivity]; repeat constructor|]).
    apply elem_of_nil in Hx. contradiction. }
  destruct Hlast as (t & Ht & ->).
  assert (Hne : t <> "").
  { intros ->. repeat (apply elem_of_cons in Ht as [Ht|Ht]; [discriminate|]).
    apply elem_of_nil in Ht. exact Ht. }
  assert (Hother : forall (a u : string),
             u <> "" -> a <> peepholes ->
             (t = u \/ last_ascii t <> last_ascii u) ->
             peepholes +:+ t <> a +:+ u).
  { intros a u Hu Ha [->|Hlast] Heq.
    - apply append_inj_r in Heq. congruence.
    - apply (f_equal last_ascii) in Heq.
      rewrite !last_ascii_app in Heq by assumption. contradiction. }
  assert (Hcases : forall u, u ∈ ["_f"; "_b"] ->
                     t = u \/ last_ascii t <> last_ascii u).
  { intros u Hu.
    repeat (apply elem_of_cons in Hu as [->|Hu];
            [repeat (apply elem_of_cons in Ht as [->|Ht];
                     [first [left; reflexivity | right; discriminate]|]);
             apply elem_of_nil in Ht; contradiction|]).
    apply elem_of_nil in Hu. contradiction. }
  repeat split.
  1-4: apply Hother; [discriminate | assumption | apply Hcases; repeat constructor].
  intros s z Heq. apply (f_equal last_ascii) in Heq.
  destruct (last_ascii_expand_out s z) as [n Hn].
  rewrite Hn, last_ascii_app in Heq by exact Hne.
  exact (digit_not_letter n t Ht Heq).
Qed.

(** The inputs of the bidirectional layer are the expanded primary input
    and the halves of the initial states: a name that is none of them is
    not read by any bidirectional LSTM layer the conversion emits. *)
Lemma convert_lstm_bidirlstm_reads_not (node : Node scalar) (w : world scalar)
    (h c x : string) :
  inputs node !! 5%nat = Some h ->
  inputs node !! 6%nat = Some c ->
  x <> h +:+ "_f" -> x <> c +:+ "_f" -> x <> h +:+ "_b" -> x <> c +:+ "_b" ->
  (forall (s : string) (z : Z), x <> s +:+ "_expand_out_" +:+ str z) ->
  extends (bidirlstm_reads_not x) w (final (_convert_lstm node w)).
Proof.
  intros Hi5 Hi6 Hhf Hcf Hhb Hcb Hexp.
  assert (Hlen : (7 <= length (inputs node))%nat)
    by (apply lookup_lt_Some in Hi6; lia).
  assert (H5 : (5 <? len (inputs node)) = true)
    by (apply Z.ltb_lt; unfold len; lia).
  assert (H6 : (6 <? len (inputs node)) = true)
    by (apply Z.ltb_lt; unfold len; lia).
  assert (H6' : (len (inputs node) <? 6) = false)
    by (apply Z.ltb_ge; unfold len; lia).
  enough (Hwp : wp (_convert_lstm node)
                  (fun _ w' => extends (bidirlstm_reads_not x) w w')
                  (fun _ w' => extends (bidirlstm_reads_not x) w w') w).
  { unfold wp in Hwp. destruct (_convert_lstm node w); exact Hwp. }
  pose proof (extends_refl (bidirlstm_reads_not x) w) as Hinv.
  revert Hinv. generalize w at 2 5. intros w1 Hinv.
  unfold _convert_lstm. rewrite H5, H6, H6'. cbv iota.
  repeat match goal with
         | |- wp (bind (if _ =? 1 then _ else _) _) _ _ _ => fail 1
         | |- wp (bind (ret _) _) _ _ _ => rewrite bind_ret_l
         | _ => wp_track Hinv
         end.
  match goal with
  | |- wp (bind (if ?d then _ else _) _) _ _ _ => destruct d
  end.
  { eapply (wp_of_sat (bidirlstm_reads_not x) (fun _ => true));
      [sat_auto | exact Hinv | auto | auto]. }
  match goal with
  | |- wp (bind (if ?d then _ else _) _) _ _ _ => destruct d
  end.
  2:{ eapply (wp_of_sat (bidirlstm_reads_not x) (fun _ => true));
        [sat_auto | exact Hinv | auto | auto]. }
  apply wp_bind.
  repeat match goal with
         | |- wp (bind (add_layer "add_bidirlstm" _) _) _ _ _ => fail 1
         | |- wp (bind (ret _) _) _ _ _ => rewrite bind_ret_l
         | _ => wp_track Hinv
         end.
  apply wp_bind, wp_add_layer.
  match goal with
  | |- wp _ _ _ (World (builder ?w2 ++ [Layer ?m ?kw]) _) =>
      assert (HP : bidirlstm_reads_not x (Layer m kw) = true)
  end.
  { unfold bidirlstm_reads_not, consumes, kwarg. simpl.
    rewrite !(proj2 (String.eqb_neq _ _));
      [reflexivity | | | | |]; intros Heq; symmetry in Heq;
      first [ exact (Hhf Heq) | exact (Hcf Heq) | exact (Hhb Heq)
            | exact (Hcb Heq) | exact (Hexp _ _ Heq) ]. }
  pose proof (extends_trans _ _ _ _ Hinv (extends_add_layer _ _ _ _ HP))
    as Hinv2.
  eapply (wp_of_sat (bidirlstm_reads_not x) (fun _ => true));
    [sat_auto | exact Hinv2 | | auto].
  intros _ w3 Hext.
  eapply (wp_of_sat (bidirlstm_reads_not x) (fun _ => true));
    [sat_auto | exact Hext | auto | auto].
Qed.

(** C10, amended.  A bidirectional LSTM layer never receives peephole
    weights: in every layer [add_bidirlstm] the converter emits, [peep] and
    [peep_back] are [None].  This is so even when the node has a peephole
    input: then the reshape of that input and its split into the names
    [<peepholes>_f] and [<peepholes>_b] are among the emitted layers; and
    when the peephole input is not also the initial hidden state or the
    initial cell state of the node (inputs 5 and 6), the layer reads none of
    the names the reshape and the split write. *)
Theorem convert_lstm_bidirectional_drops_peepholes (node : Node scalar)
    (w : world scalar) :
  bidirectional_peepholes_spec apart_from_states node w.
Proof.
  unfold bidirectional_peepholes_spec. cbv zeta. split.
  { apply (extends_emitted _ _ _ (sat_final _ _ _ w (convert_lstm_peephole_free node))). }
  intros peepholes Hi7 Hex. split.
  { apply convert_lstm_peephole_layers; assumption. }
  intros [Hne5 Hne6] l x Hl Hm Hx.
  assert (Hlen : (7 < length (inputs node))%nat)
    by (apply lookup_lt_Some in Hi7; exact Hi7).
  destruct (lookup_lt_is_Some_2 (inputs node) 5) as [h Hi5]; [lia|].
  destruct (lookup_lt_is_Some_2 (inputs node) 6) as [c Hi6]; [lia|].
  destruct (peephole_output_apart peepholes h c x)
    as (Hhf & Hcf & Hhb & Hcb & Hexp); [congruence | congruence | exact Hx |].
  pose proof (convert_lstm_bidirlstm_reads_not node w h c x
                Hi5 Hi6 Hhf Hcf Hhb Hcb Hexp) as Hext.
  apply extends_emitted in Hext as [_ Hall].
  rewrite Forall_forall in Hall. specialize (Hall l Hl).
  unfold bidirlstm_reads_not in Hall. rewrite Hm in Hall.
  simpl in Hall. apply negb_true_iff in Hall. exact Hall.
Qed.


(** * Further properties of the converters *)

(** ** Converters that emit one layer or nothing *)

(** [pure m]: [m] never changes the builder or the graph, whether it
    returns or raises. *)
Definition pure {A} (m : M scalar A) : Prop := forall w, final (m w) = w.

Lemma pure_ret {A} (a : A) : pure (ret a).
Proof. intros w. reflexivity. Qed.

Lemma pure_raise {A} (e : exn) : pure (raise (A := A) e).
Proof. intros w. reflexivity. Qed.

Lemma pure_bind {A B} (m : M scalar A) (f : A -> M scalar B) :
  pure m -> (forall a, pure (f a)) -> pure (bind m f).
Proof.
  intros Hm Hf w. unfold bind. specialize (Hm w).
  destruct (m w) as [a w'|e w']; simpl in Hm; subst w'; [apply Hf | reflexivity].
Qed.

Lemma pure_for_each {A S} (l : list A) (body : A -> S -> M scalar S) (s : S) :
  (forall x s', pure (body x s')) -> pure (for_each l body s).
Proof.
  intros Hbody. revert s. induction l as [|x l IH]; intros s; simpl.
  - apply pure_ret.
  - apply pure_bind; [apply Hbody | intros s'; apply IH].
Qed.

Lemma pure_in_constants_loaded (x : string) : pure (in_constants_loaded x).
Proof. intros w. reflexivity. Qed.

Lemma pure_in_shape_dict (x : string) : pure (in_shape_dict x).
Proof. intros w. reflexivity. Qed.

Lemma pure_shape_dict_item (x : string) : pure (shape_dict_item x).
Proof.
  intros w. unfold shape_dict_item.
  destruct (shape_dict (graph w) !! x); reflexivity.
Qed.

Ltac pure_step :=
  match goal with
  | |- pure _ => progress cbn beta iota zeta delta [is_None]
  | |- pure (bind _ _) => apply pure_bind; [|intros ?]
  | |- pure (ret _) => apply pure_ret
  | |- pure (raise _) => apply pure_raise
  | |- pure (for_each _ _ _) => apply pure_for_each; intros ? ?
  | |- pure (in_constants_loaded _) => apply pure_in_constants_loaded
  | |- pure (in_shape_dict _) => apply pure_in_shape_dict
  | |- pure (shape_dict_item _) => apply pure_shape_dict_item
  | |- pure (match ?x with _ => _ end) => destruct x
  | |- pure _ =>
      progress unfold getitem, setitem, fmapM, attrs_item, attr_tensor,
        attr_len, attr_getitem, attr_first, decode, local, np_split,
        get_weights, ndarray_len, elements, int_item, slice_step,
        constants_loaded_call, unsupported_op, unsupported_op_configuration,
        missing_initializer, unsupported_feature_warning
  end.

Ltac pure_auto := repeat pure_step.

(** [one_layer ks m]: [m] either returns having appended exactly one layer,
    made by one of the builder methods [ks], and nothing else changed, or
    raises and leaves builder and graph as they were. *)
Definition one_layer (ks : list string) (m : M scalar unit) : Prop :=
  forall w,
    match m w with
    | Ok _ w' =>
        exists k kw, k ∈ ks /\ w' = World (builder w ++ [Layer k kw]) (graph w)
    | Raise _ w' => w' = w
    end.

Lemma one_layer_add_layer (ks : list string) (k : string) kw :
  k ∈ ks -> one_layer ks (add_layer k kw).
Proof. intros Hk w. simpl. eauto. Qed.

Lemma one_layer_raise (ks : list string) (e : exn) : one_layer ks (raise e).
Proof. intros w. reflexivity. Qed.

Lemma one_layer_bind {A} (ks : list string) (m : M scalar A)
    (f : A -> M scalar unit) :
  pure m -> (forall a, one_layer ks (f a)) -> one_layer ks (bind m f).
Proof.
  intros Hm Hf w. unfold bind. specialize (Hm w).
  destruct (m w) as [a w'|e w']; simpl in Hm; subst w'; [apply Hf | reflexivity].
Qed.

Ltac one_layer_step :=
  match goal with
  | |- one_layer _ _ => progress cbn beta iota zeta
  | |- one_layer _ (bind _ _) => apply one_layer_bind; [pure_auto | intros ?]
  | |- one_layer _ (add_layer _ _) => apply one_layer_add_layer; repeat constructor
  | |- one_layer _ (raise _) => apply one_layer_raise
  | |- one_layer _ (match ?x with _ => _ end) => destruct x
  end.

(** X1. Split, Squeeze, Shape, Transpose and Unsqueeze: on success exactly one
    layer of the operator's kind is appended; on any failure (no input, no
    output, no known shape for the default permutation) nothing is
    emitted.  The graph is never changed. *)
Theorem simple_converters_emit_one_layer (node : Node scalar) :
  one_layer ["add_split_nd"] (_convert_split node)
  /\ one_layer ["add_squeeze"] (_convert_squeeze node)
  /\ one_layer ["add_get_shape"] (_convert_shape node)
  /\ one_layer ["add_transpose"] (_convert_transpose node)
  /\ one_layer ["add_expand_dims"] (_convert_unsqueeze node).
Proof.
  unfold _convert_split, _convert_squeeze, _convert_shape, _convert_transpose,
    _convert_unsqueeze.
  repeat split; repeat one_layer_step.
Qed.

(** X2. Slice: whatever the attributes, one static-slice layer on success and
    nothing on failure (unknown shape of the input, a missing start or
    end, an axis outside the rank, no output). *)
Theorem convert_slice_emits_one_layer (node : Node scalar) :
  one_layer ["add_slice_static"] (_convert_slice node).
Proof. unfold _convert_slice. repeat one_layer_step. Qed.

(** X3. ConstantOfShape: one fill layer on success, static or dynamic, and
    nothing on failure; the constants-loaded set is not touched. *)
Theorem convert_constant_of_shape_emits_one_layer (node : Node scalar) :
  one_layer ["add_fill_static"; "add_fill_dynamic"]
    (_convert_constant_of_shape node).
Proof. unfold _convert_constant_of_shape. repeat one_layer_step. Qed.

(** ** Constants are materialized once by Concat and Gather *)

(** [keeps R m]: the state [m] ends in, returning or raising, is related
    by [R] to the state it started from. *)
Definition keeps {A} (R : world scalar -> world scalar -> Prop)
    (m : M scalar A) : Prop :=
  forall w, R w (final (m w)).

Section Keeps.
Variable R : world scalar -> world scalar -> Prop.
Hypothesis R_refl : forall w, R w w.
Hypothesis R_trans : forall w1 w2 w3, R w1 w2 -> R w2 w3 -> R w1 w3.

Lemma keeps_pure {A} (m : M scalar A) : pure m -> keeps R m.
Proof. intros Hm w. rewrite (Hm w). apply R_refl. Qed.

Lemma keeps_bind {A B} (m : M scalar A) (f : A -> M scalar B) :
  keeps R m -> (forall a, keeps R (f a)) -> keeps R (bind m f).
Proof.
  intros Hm Hf w. unfold bind. specialize (Hm w).
  destruct (m w) as [a w'|e w']; simpl in Hm; [|exact Hm].
  exact (R_trans _ _ _ Hm (Hf a w')).
Qed.

Lemma keeps_for_each {A S} (l : list A) (body : A -> S -> M scalar S) (s : S) :
  (forall x s', keeps R (body x s')) -> keeps R (for_each l body s).
Proof.
  intros Hbody. revert s. induction l as [|x l IH]; intros s; simpl.
  - intros w. apply R_refl.
  - apply keeps_bind; [apply Hbody | intros s'; apply IH].
Qed.

End Keeps.

Lemma count_layers_app (p : layer scalar -> bool) (l1 l2 : list (layer scalar)) :
  count_layers p (l1 ++ l2) = (count_layers p l1 + count_layers p l2)%nat.
Proof. unfold count_layers. rewrite List.filter_app, length_app. reflexivity. Qed.

Lemma loaded_once_refl (w : world scalar) : loaded_once w w.
Proof.
  exists []. rewrite app_nil_r. split; [reflexivity|].
  intros x. simpl. repeat split; auto. intros [Hx|Hx]; [exact Hx | discriminate].
Qed.

Lemma loaded_once_trans (w1 w2 w3 : world scalar) :
  loaded_once w1 w2 -> loaded_once w2 w3 -> loaded_once w1 w3.
Proof.
  intros (ls1 & Hb1 & H1) (ls2 & Hb2 & H2).
  exists (ls1 ++ ls2). rewrite Hb2, Hb1, app_assoc. split; [reflexivity|].
  intros x. cbv zeta. rewrite count_layers_app.
  destruct (H1 x) as (H1a & H1b & H1c). destruct (H2 x) as (H2a & H2b & H2c).
  cbv zeta in *.
  assert (Hex : count_layers (loads_constant x) ls1 = 1%nat ->
                count_layers (loads_constant x) ls2 = 0%nat)
    by (intros Hc; apply H2a, H1c; auto).
  repeat split.
  - intros Hx. rewrite (H1a Hx), H2a; [reflexivity|]. apply H1c. auto.
  - destruct (count_layers (loads_constant x) ls1) as [|[|c]]; [lia| |lia].
    rewrite Hex by reflexivity. lia.
  - intros Hx. apply H2c in Hx as [Hx|Hx].
    + apply H1c in Hx as [Hx|Hx]; [auto|].
      right. rewrite Hx, Hex by exact Hx. reflexivity.
    + destruct (decide (x ∈ constants_loaded (graph w1))) as [Hin|Hnin]; [auto|].
      right. destruct (count_layers (loads_constant x) ls1) as [|[|c]] eqn:Hc1;
        [lia | | lia].
      rewrite Hex in Hx by reflexivity. discriminate.
  - intros [Hx|Hx].
    + apply H2c. left. apply H1c. auto.
    + destruct (count_layers (loads_constant x) ls1) as [|[|c]] eqn:Hc1.
      * apply H2c. right. lia.
      * apply H2c. left. apply H1c. auto.
      * lia.
Qed.

(** A layer other than a load-constant layer. *)
Lemma loaded_once_add_layer (k : string) kw (w : world scalar) :
  k <> "add_load_constant_nd" ->
  loaded_once w (World (builder w ++ [Layer k kw]) (graph w)).
Proof.
  intros Hk. exists [Layer k kw]. split; [reflexivity|].
  intros x. cbv zeta.
  assert (Hc : count_layers (loads_constant x) [Layer k kw] = 0%nat).
  { unfold count_layers, loads_constant, is_method. simpl.
    apply String.eqb_neq in Hk. rewrite Hk. reflexivity. }
  rewrite Hc. simpl. repeat split; auto. intros [Hx|Hx]; [exact Hx | discriminate].
Qed.

(** The guarded load that Concat and Gather share: test the set, load,
    record. *)
Lemma loaded_once_guarded_load (x load_name : string)
    (tensor : option (ndarray scalar)) :
  keeps loaded_once
    (let* loaded := in_constants_loaded x in
     match tensor with
     | Some val =>
         if loaded then ret tt
         else
           add_load_constant_nd load_name x (VArray val) (load_constant_shape val);;
           constants_loaded_add x
     | None => ret tt
     end).
Proof.
  intros w. unfold bind, in_constants_loaded.
  destruct tensor as [val|]; [|apply loaded_once_refl].
  case_bool_decide as Hx; [apply loaded_once_refl|].
  simpl. eexists. split; [reflexivity|].
  intros y. cbv zeta. unfold count_layers, loads_constant, is_method, kwarg. simpl.
  rewrite elem_of_union, elem_of_singleton.
  destruct (String.eqb_spec x y) as [->|Hne]; simpl.
  - repeat split; auto; tauto.
  - repeat split; auto.
    + intros [Hy|Hy]; [congruence | auto].
    + intros [Hy|Hy]; [auto | discriminate].
Qed.

(** The same, followed by the rest of the converter. *)
Lemma loaded_once_guarded_load_then {B} (x load_name : string)
    (tensor : option (ndarray scalar)) (rest : unit -> M scalar B) :
  (forall a, keeps loaded_once (rest a)) ->
  keeps loaded_once
    (let* loaded := in_constants_loaded x in
     bind
       match tensor with
       | Some val =>
           if loaded then ret tt
           else
             add_load_constant_nd load_name x (VArray val) (load_constant_shape val);;
             constants_loaded_add x
       | None => ret tt
       end
       rest).
Proof.
  intros Hrest w.
  exact (keeps_bind _ loaded_once_trans _ rest
           (loaded_once_guarded_load x load_name tensor) Hrest w).
Qed.

Ltac keeps_loaded_once_step :=
  match goal with
  | |- keeps loaded_once (bind (in_constants_loaded _) _) =>
      first [ apply loaded_once_guarded_load
            | apply loaded_once_guarded_load_then; intros ? ]
  | |- keeps loaded_once (bind _ _) =>
      apply (keeps_bind _ loaded_once_trans); [|intros ?]
  | |- keeps loaded_once (for_each _ _ _) =>
      apply (keeps_for_each _ loaded_once_refl loaded_once_trans); intros ? ?
  | |- keeps loaded_once (add_layer _ _) =>
      intros ?; apply loaded_once_add_layer; discriminate
  | |- keeps loaded_once _ =>
      apply (keeps_pure _ loaded_once_refl); solve [pure_auto]
  end.

(** Concat and Gather materialize each constant at most once: they emit
    no load-constant layer for a name already recorded in
    [graph.constants_loaded], at most one for any other name, and record
    exactly the names they load. *)
Lemma convert_concat_loaded_once (node : Node scalar) :
  keeps loaded_once (_convert_concat node).
Proof. unfold _convert_concat. repeat keeps_loaded_once_step. Qed.

Lemma convert_gather_loaded_once (node : Node scalar) :
  keeps loaded_once (_convert_gather node).
Proof. unfold _convert_gather. repeat keeps_loaded_once_step. Qed.

Lemma loaded_once_emitted {A} (m : M scalar A) (w : world scalar) (x : string) :
  loaded_once w (final (m w)) ->
  let loads := count_layers (loads_constant x) (emitted m w) in
  (x ∈ constants_loaded (graph w) -> loads = 0%nat)
  /\ (loads <= 1)%nat
  /\ (x ∈ constants_loaded (graph (final (m w)))
      <-> x ∈ constants_loaded (graph w) \/ loads = 1%nat).
Proof.
  intros (ls & Hb & Hx). unfold emitted. rewrite Hb, drop_app_length. apply Hx.
Qed.

Lemma registry_concat_gather :
  REGISTRY !! "Concat" = Some _convert_concat
  /\ REGISTRY !! "Gather" = Some _convert_gather.
Proof. split; reflexivity. Qed.

(** X4. A pass over Concat and Gather nodes, in any number and order, emits at
    most one load-constant layer for any tensor name, and none for a name
    that was recorded as loaded before the pass. *)
Theorem concat_gather_pass_loads_once (nodes : list (Node scalar))
    (w : world scalar) (x : string) :
  Forall (fun node => op_type node = "Concat" \/ op_type node = "Gather") nodes ->
  let loads :=
    count_layers (loads_constant x) (emitted (convert_nodes _convert_relu nodes) w) in
  (loads <= 1)%nat /\ (x ∈ constants_loaded (graph w) -> loads = 0%nat).
Proof.
  intros Hops.
  assert (Hpass : keeps loaded_once (convert_nodes _convert_relu nodes)).
  { unfold convert_nodes. generalize tt.
    induction Hops as [|node nodes Hop _ IH]; intros u; simpl.
    - intros w'. apply loaded_once_refl.
    - apply (keeps_bind _ loaded_once_trans); [|intros u'; apply IH].
      unfold _convert_node_nd, _get_node_converter_fn.
      destruct registry_concat_gather as [Hc Hg].
      pose proof (convert_concat_loaded_once node) as Hkc.
      pose proof (convert_gather_loaded_once node) as Hkg.
      destruct Hop as [Hop|Hop]; rewrite Hop; [rewrite Hc | rewrite Hg];
        rewrite bind_ret_l; assumption. }
  destruct (loaded_once_emitted _ w x (Hpass w)) as (H0 & H1 & _).
  split; assumption.
Qed.

Lemma range_0_len {A} (l : list A) : range 0 (len l) = Z.of_nat <$> seq 0 (length l).
Proof.
  unfold range, len, seqZ. rewrite Z.sub_0_r, Nat2Z.id.
  apply list_fmap_ext. intros _ i _. lia.
Qed.

(** The loop of [_convert_concat]: when it completes, every input it went
    over that is a constant of the node is recorded as loaded. *)
Lemma concat_loop_records (node : Node scalar) (idxs : list nat) :
  forall w : world scalar,
    match
      for_each (Z.of_nat <$> idxs) (fun i (_ : unit) =>
        let* input_i := getitem (inputs node) i in
        let* loaded := in_constants_loaded input_i in
        match input_tensors node !! input_i with
        | Some val =>
            if loaded then ret tt
            else
              add_load_constant_nd (name node +:+ "_load_constant_" +:+ str i)
                input_i (VArray val) (load_constant_shape val);;
              constants_loaded_add input_i
        | None => ret tt
        end) tt w
    with
    | Ok _ w' =>
        constants_loaded (graph w) ⊆ constants_loaded (graph w')
        /\ forall (n : nat) (x : string),
             n ∈ idxs -> inputs node !! n = Some x ->
             is_Some (input_tensors node !! x) ->
             x ∈ constants_loaded (graph w')
    | Raise _ _ => True
    end.
Proof.
  induction idxs as [|n idxs IH]; intros w.
  - simpl. split; [reflexivity|]. intros n x Hn. inversion Hn.
  - cbn [fmap list_fmap for_each]. unfold bind at 1 2. rewrite getitem_nat.
    destruct (inputs node !! n) as [x|] eqn:Hx; [|exact I].
    unfold bind at 1. unfold in_constants_loaded at 1.
    assert (Hstep : exists w1,
               (match input_tensors node !! x with
                | Some val =>
                    if bool_decide (x ∈ constants_loaded (graph w)) then ret tt
                    else
                      add_load_constant_nd
                        (name node +:+ "_load_constant_" +:+ str (Z.of_nat n))
                        x (VArray val) (load_constant_shape val);;
                      constants_loaded_add x
                | None => ret tt
                end) w = Ok tt w1
               /\ constants_loaded (graph w) ⊆ constants_loaded (graph w1)
               /\ (is_Some (input_tensors node !! x) ->
                   x ∈ constants_loaded (graph w1))).
    { destruct (input_tensors node !! x) as [val|].
      - case_bool_decide as Hin.
        + exists w. repeat split; auto.
        + eexists. split; [reflexivity|]. simpl. split.
          * apply union_subseteq_r.
          * intros _. apply elem_of_union_l, elem_of_singleton. reflexivity.
      - exists w. repeat split; auto. intros [? Hnone]. discriminate. }
    destruct Hstep as (w1 & Hrun & Hsub & Hrec). rewrite Hrun.
    specialize (IH w1).
    destruct (for_each _ _ tt w1) as [u w'|e w']; [|exact I].
    destruct IH as [Hsub' Hrec']. split.
    + etrans; eassumption.
    + intros m y Hm Hy Hconst. apply elem_of_cons in Hm as [->|Hm].
      * rewrite Hx in Hy. injection Hy as <-. apply Hsub', Hrec, Hconst.
      * eapply Hrec'; eassumption.
Qed.

(** X5. When Concat succeeds, every input that is a constant of the node is
    recorded in [graph.constants_loaded]; one that was not recorded before
    was loaded by exactly one load-constant layer. *)
Theorem concat_records_constants (node : Node scalar) (w w' : world scalar)
    (x : string) :
  _convert_concat node w = Ok tt w' ->
  x ∈ inputs node ->
  is_Some (input_tensors node !! x) ->
  x ∈ constants_loaded (graph w')
  /\ (x ∉ constants_loaded (graph w) ->
      count_layers (loads_constant x) (emitted (_convert_concat node) w) = 1%nat).
Proof.
  intros Hrun Hx Hconst.
  assert (Hrec : x ∈ constants_loaded (graph w')).
  { unfold _convert_concat in Hrun. rewrite range_0_len in Hrun.
    unfold bind at 1 in Hrun.
    pose proof (concat_loop_records node (seq 0 (length (inputs node))) w) as Hloop.
    destruct (for_each _ _ tt w) as [u w1|e w1]; [|discriminate].
    destruct Hloop as [_ Hloop].
    apply list_elem_of_lookup in Hx as [n Hn].
    assert (Hw1 : x ∈ constants_loaded (graph w1)).
    { apply (Hloop n x); [|exact Hn|exact Hconst].
      apply elem_of_seq. apply lookup_lt_Some in Hn. lia. }
    unfold bind in Hrun.
    destruct (getitem (outputs node) 0 w1) as [o w2|e w2] eqn:Hout; [|discriminate].
    assert (w2 = w1) as ->.
    { pose proof (pure_ret o) as _.
      assert (Hp : pure (getitem (A := string) (outputs node) 0)) by pure_auto.
      specialize (Hp w1). rewrite Hout in Hp. exact Hp. }
    injection Hrun as <-. exact Hw1. }
  split; [exact Hrec|]. intros Hfresh.
  pose proof (convert_concat_loaded_once node) as Hkeep.
  destruct (loaded_once_emitted _ w x (Hkeep w)) as (_ & _ & Hiff).
  rewrite Hrun in Hiff. simpl in Hiff.
  apply Hiff in Hrec as [Hin|Hone]; [contradiction | exact Hone].
Qed.

(** [wp_step], reading also the lists that are written out. *)
Ltac wp_run_step :=
  first
    [ wp_step
    | match goal with
      | |- wp (getitem ?l ?i) _ _ _ =>
          let n := eval vm_compute in (Z.to_nat i) in
          eapply (wp_getitem l n); [reflexivity|]
      end ].

(** ** MatMul *)

(** MatMul never touches the graph: whatever the node, the set of loaded
    constants and the shape dictionary are after the conversion what they
    were before, also when a load-constant layer was emitted. *)
Theorem convert_matmul_keeps_graph (node : Node scalar) (w : world scalar) :
  graph (final (_convert_matmul node w)) = graph w.
Proof.
  assert (Hkeep : keeps (fun w w' : world scalar => graph w' = graph w)
                    (_convert_matmul node)).
  { assert (Hrefl : forall w0 : world scalar, graph w0 = graph w0) by reflexivity.
    assert (Htrans : forall w1 w2 w3 : world scalar,
               graph w2 = graph w1 -> graph w3 = graph w2 -> graph w3 = graph w1)
      by (intros; congruence).
    unfold _convert_matmul, add_load_constant_nd.
    repeat match goal with
           | |- keeps _ (bind _ _) => apply (keeps_bind _ Htrans); [|intros ?]
           | |- keeps _ (add_layer _ _) => intros ?; reflexivity
           | |- keeps _ (match ?x with _ => _ end) => destruct x
           | |- keeps _ _ => apply (keeps_pure _ Hrefl); solve [pure_auto]
           end. }
  apply Hkeep.
Qed.

(** X6. A constant second operand of rank 2 is passed to the layer by value:
    the only layer emitted is the batched matrix multiplication, with the
    first input as its single input, the weight as parameter and the
    weight's two dimensions as row and column counts. *)
Theorem convert_matmul_weight_by_value (node : Node scalar) (w : world scalar)
    (input_0 weight_name output_0 : string) (rows columns : nat)
    (W_data : list scalar) :
  inputs node !! 0%nat = Some input_0 ->
  inputs node !! 1%nat = Some weight_name ->
  outputs node !! 0%nat = Some output_0 ->
  input_tensors node !! weight_name = Some (NDArray [rows; columns] W_data) ->
  _convert_matmul node w =
    Ok tt
      (World (builder w ++
                [Layer "add_batched_mat_mul"
                   [("name", VStr (name node)); ("input_names", names [input_0]);
                    ("output_name", VStr output_0);
                    ("weight_matrix_rows", VInt (Z.of_nat rows));
                    ("weight_matrix_columns", VInt (Z.of_nat columns));
                    ("W", VArray (NDArray [rows; columns] W_data))]])
             (graph w)).
Proof.
  intros Hi0 Hi1 Ho HW. apply wp_run. unfold _convert_matmul.
  repeat wp_step. rewrite HW. cbn [shape].
  change (len [rows; columns] =? 2) with true. cbv iota.
  repeat wp_run_step. reflexivity.
Qed.

(** X7. Any other second operand is referred to by name: the last layer is the
    batched matrix multiplication over both input names, preceded by a
    load-constant layer for the weight exactly when the weight is a
    constant (of a rank other than 2). *)
Theorem convert_matmul_weight_by_name (node : Node scalar) (w : world scalar)
    (input_0 weight_name output_0 : string) :
  inputs node !! 0%nat = Some input_0 ->
  inputs node !! 1%nat = Some weight_name ->
  outputs node !! 0%nat = Some output_0 ->
  match input_tensors node !! weight_name with
  | Some W => length (shape W) <> 2%nat
  | None => True
  end ->
  let mat_mul :=
    Layer "add_batched_mat_mul"
      [("name", VStr (name node)); ("input_names", names [input_0; weight_name]);
       ("output_name", VStr output_0)] in
  let load :=
    match input_tensors node !! weight_name with
    | Some W =>
        [Layer "add_load_constant_nd"
           [("name", VStr (name node +:+ "_const_weight_input"));
            ("output_name", VStr weight_name);
            ("constant_value", VArray W); ("shape", shape_value W)]]
    | None => []
    end in
  _convert_matmul node w = Ok tt (World (builder w ++ load ++ [mat_mul]) (graph w)).
Proof.
  intros Hi0 Hi1 Ho HW mat_mul load. apply wp_run. unfold _convert_matmul.
  repeat wp_step. subst load.
  destruct (input_tensors node !! weight_name) as [W|].
  - assert (Hrank : (len (shape W) =? 2) = false)
      by (apply Z.eqb_neq; unfold len; lia).
    rewrite Hrank. unfold add_load_constant_nd.
    repeat wp_step. cbn [builder graph]. rewrite <- app_assoc. reflexivity.
  - repeat wp_step. reflexivity.
Qed.

(** ** Transpose *)

Lemma negated_range_reverses (rank : nat) :
  norm_index rank <$> ((fun k => - k) <$> range 1 (Z.of_nat rank + 1))
  = reverse (seq 0 rank).
Proof.
  apply list_eq. intros i.
  unfold range, seqZ. replace (Z.of_nat rank + 1 - 1) with (Z.of_nat rank) by lia.
  rewrite Nat2Z.id, <- !list_fmap_compose, list_lookup_fmap.
  destruct (decide (i < rank)%nat) as [Hi|Hi].
  - rewrite lookup_seq_lt by exact Hi. simpl.
    rewrite reverse_lookup by (rewrite length_seq; exact Hi).
    rewrite length_seq, lookup_seq_lt by lia. f_equal.
    unfold norm_index.
    destruct (Z.ltb_spec (- (Z.of_nat i + 1)) 0); lia.
  - rewrite lookup_seq_ge by lia. simpl. symmetry.
    apply lookup_ge_None_2. rewrite length_reverse, length_seq. lia.
Qed.

(** X9. Without a [perm] attribute (or with an empty one) Transpose takes the
    rank of the data input from the shape dictionary and emits the
    permutation [-1, -2, ..., -rank], which reads the axes in reverse
    order. *)
Theorem convert_transpose_default_reverses (node : Node scalar)
    (w : world scalar) (input_0 output_0 : string) (input_shape : list Z) :
  attrs_get node "perm" (VList []) = VList [] ->
  inputs node !! 0%nat = Some input_0 ->
  outputs node !! 0%nat = Some output_0 ->
  shape_dict (graph w) !! input_0 = Some input_shape ->
  let rank := length input_shape in
  let axes := (fun k => - k) <$> range 1 (Z.of_nat rank + 1) in
  _convert_transpose node w =
    Ok tt
      (World (builder w ++
                [Layer "add_transpose"
                   [("name", VStr (name node)); ("axes", ints axes);
                    ("input_name", VStr input_0);
                    ("output_name", VStr output_0)]])
             (graph w))
  /\ norm_index rank <$> axes = reverse (seq 0 rank).
Proof.
  intros Hperm Hi0 Ho Hs rank axes. split; [|apply negated_range_reverses].
  apply wp_run. unfold _convert_transpose. rewrite Hperm.
  repeat wp_step. reflexivity.
Qed.

(** ** Gather *)

Lemma bind_getitem {A B} (l : list A) (i : Z) (n : nat) (x : A)
    (k : A -> M scalar B) (w : world scalar) :
  i = Z.of_nat n -> l !! n = Some x -> bind (getitem l i) k w = k x w.
Proof.
  intros -> Hx. unfold bind at 1. rewrite getitem_nat, Hx. reflexivity.
Qed.

(** The block that loads the constant input [x] unless it was loaded
    before: it appends at most one layer, a load-constant layer, and goes
    on. *)
Lemma guarded_load_run (node : Node scalar) (x load_name : string)
    (w : world scalar) :
  exists (ls : list (layer scalar)) (g : Graph),
    (length ls <= 1)%nat
    /\ Forall (fun l => is_method "add_load_constant_nd" l = true) ls
    /\ forall (B : Type) (rest : unit -> M scalar B),
         bind (in_constants_loaded x)
           (fun loaded =>
              bind match input_tensors node !! x with
                   | Some val =>
                       if loaded then ret tt
                       else
                         add_load_constant_nd load_name x (VArray val)
                           (load_constant_shape val);;
                         constants_loaded_add x
                   | None => ret tt
                   end rest) w
         = rest tt (World (builder w ++ ls) g).
Proof.
  unfold bind, in_constants_loaded.
  destruct (input_tensors node !! x) as [val|];
    [destruct (bool_decide (x ∈ constants_loaded (graph w)))|].
  1, 3: exists [], (graph w); rewrite app_nil_r; destruct w;
        repeat split; auto.
  eexists [_], _. split; [simpl; lia|]. split; [|intros B rest; reflexivity].
  repeat constructor.
Qed.

(** X10. Gather takes exactly two inputs.  With any other number it fails with
    the unsupported-configuration error before anything is emitted or
    recorded.  With two inputs and an output it succeeds: it emits at most
    two load-constant layers and then one gather layer over the two input
    names, along the [axis] attribute or axis 0. *)
Theorem convert_gather_arity (node : Node scalar) (w : world scalar) :
  (length (inputs node) <> 2%nat ->
   _convert_gather node w
   = Raise (UnsupportedOpConfiguration
              "Error in ONNX model: Gather expects two inputs") w)
  /\ (forall input_0 input_1 output_0 : string,
        inputs node = [input_0; input_1] ->
        outputs node !! 0%nat = Some output_0 ->
        exists (loads : list (layer scalar)) (g : Graph),
          _convert_gather node w =
            Ok tt
              (World (builder w ++ loads ++
                        [Layer "add_gather"
                           [("name", VStr (name node));
                            ("input_names", names [input_0; input_1]);
                            ("output_name", VStr output_0);
                            ("axis", attrs_get node "axis" (VInt 0))]])
                     g)
          /\ (length loads <= 2)%nat
          /\ Forall (fun l => is_method "add_load_constant_nd" l = true) loads).
Proof.
  split.
  - intros Hlen. unfold _convert_gather, bind at 1.
    assert (Hne : (len (inputs node) =? 2) = false)
      by (apply Z.eqb_neq; unfold len; lia).
    rewrite Hne. reflexivity.
  - intros input_0 input_1 output_0 Hin Ho.
    assert (Hi0 : inputs node !! 0%nat = Some input_0)
      by (rewrite Hin; reflexivity).
    assert (Hi1 : inputs node !! 1%nat = Some input_1)
      by (rewrite Hin; reflexivity).
    assert (Htwo : (len (inputs node) =? 2) = true)
      by (rewrite Hin; reflexivity).
    destruct (guarded_load_run node input_0 (name node +:+ "_load_data") w)
      as (ls0 & g0 & Hlen0 & Hall0 & Hrun0).
    destruct (guarded_load_run node input_1 (name node +:+ "_load_indices")
                (World (builder w ++ ls0) g0))
      as (ls1 & g1 & Hlen1 & Hall1 & Hrun1).
    exists (ls0 ++ ls1), g1. split; [|split].
    + unfold _convert_gather. rewrite Htwo, bind_ret_l.
      rewrite (bind_getitem _ 0 0%nat input_0) by (reflexivity || assumption).
      rewrite Hrun0.
      rewrite (bind_getitem _ 1 1%nat input_1) by (reflexivity || assumption).
      rewrite Hrun1.
      rewrite (bind_getitem _ 0 0%nat output_0) by (reflexivity || assumption).
      unfold add_layer. cbn [builder graph]. rewrite <- !app_assoc.
      reflexivity.
    + rewrite length_app. lia.
    + apply Forall_app. auto.
Qed.

(** ** Reshape: the shape operand and the reduction of the rank *)

Lemma scalar_eq_int_zero_not_wildcard (x : scalar) :
  scalar_eq_int x 0 = true -> scalar_eq_int x (-1) = false.
Proof.
  unfold scalar_eq_int. destruct (scalar_int x) as [v|]; [|discriminate].
  intros Hv%Z.eqb_eq. subst v. reflexivity.
Qed.

Lemma count_zeros_neg_ones_from (entries : list scalar) (z n : Z) :
  foldl (fun '(num_zeros, num_neg_ones) i =>
           if scalar_eq_int i 0 then (num_zeros + 1, num_neg_ones)
           else if scalar_eq_int i (-1) then (num_zeros, num_neg_ones + 1)
           else (num_zeros, num_neg_ones))
        (z, n) entries
  = (z + Z.of_nat (length (List.filter (fun x => scalar_eq_int x 0) entries)),
     n + Z.of_nat (length (List.filter (fun x => scalar_eq_int x (-1)) entries))).
Proof.
  revert z n. induction entries as [|x entries IH]; intros z n.
  - simpl. f_equal; lia.
  - cbn [foldl List.filter].
    destruct (scalar_eq_int x 0) eqn:Hz.
    + rewrite (scalar_eq_int_zero_not_wildcard x Hz). cbn [length].
      rewrite IH. f_equal; lia.
    + destruct (scalar_eq_int x (-1)) eqn:Hw; cbn [length];
        rewrite IH; f_equal; lia.
Qed.

Lemma count_zeros_neg_ones_eq (entries : list scalar) :
  count_zeros_neg_ones entries
  = (Z.of_nat (length (List.filter (fun x => scalar_eq_int x 0) entries)),
     Z.of_nat (length (List.filter (fun x => scalar_eq_int x (-1)) entries))).
Proof. unfold count_zeros_neg_ones. rewrite count_zeros_neg_ones_from. reflexivity. Qed.

Lemma zeros_and_wildcards_count (entries : list scalar) :
  Forall (fun x => scalar_eq_int x 0 = true \/ scalar_eq_int x (-1) = true)
         entries ->
  (length (List.filter (fun x => scalar_eq_int x (-1)) entries)
   + length (List.filter (fun x => scalar_eq_int x 0) entries)
   = length entries)%nat.
Proof.
  induction 1 as [|x entries Hx _ IH]; [reflexivity|].
  cbn [List.filter].
  destruct (scalar_eq_int x 0) eqn:Hz.
  - rewrite (scalar_eq_int_zero_not_wildcard x Hz). cbn [length]. lia.
  - destruct Hx as [Hx|Hx]; [discriminate|]. rewrite Hx. cbn [length]. lia.
Qed.

(** The copying loop keeps the target shape up to and including its first
    [-1], or all of it when it has none, and leaves [i] at the index of the
    last entry copied. *)
Lemma copy_until_wildcard_spec (entries : list scalar) (i : Z)
    (acc : list (value scalar)) :
  entries <> [] ->
  exists k : nat,
    (k < length entries)%nat
    /\ Forall (fun x => scalar_eq_int x (-1) = false) (take k entries)
    /\ (S k = length entries
        \/ exists x, entries !! k = Some x /\ scalar_eq_int x (-1) = true)
    /\ copy_until_wildcard entries i acc
       = (acc ++ (VScalar <$> take (S k) entries), i + Z.of_nat k).
Proof.
  revert i acc. induction entries as [|x rest IH]; intros i acc Hne;
    [congruence|].
  cbn [copy_until_wildcard].
  destruct (scalar_eq_int x (-1)) eqn:Hw.
  - exists 0%nat. cbn [length take]. split; [lia|]. split; [constructor|].
    split; [right; exists x; auto|]. rewrite take_0. simpl. f_equal. lia.
  - destruct rest as [|y rest'].
    + exists 0%nat. cbn [length take]. split; [lia|]. split; [constructor|].
      split; [left; reflexivity|]. simpl. f_equal. lia.
    + destruct (IH (i + 1) (acc ++ [VScalar x])) as (k & Hk & Hall & Hend & Hrun);
        [congruence|].
      exists (S k). split; [cbn [length] in *; lia|].
      split; [cbn [take]; constructor; assumption|].
      split.
      * destruct Hend as [Hend|Hend]; [left; cbn [length] in *; lia|].
        right. exact Hend.
      * rewrite Hrun, <- app_assoc. f_equal. lia.
Qed.

(** X11. The shape operand decides the kind of reshape.  When it is not a
    constant, a dynamic reshape over all the node's inputs is emitted,
    whether or not the shape of the data input is known.  When it is a
    constant and the shape of the data input is not in the shape
    dictionary, the conversion fails with the unsupported-configuration
    error and nothing is emitted. *)
Theorem convert_reshape_shape_operand (node : Node scalar) (w : world scalar)
    (shape_node : string) :
  inputs node !! 1%nat = Some shape_node ->
  (forall output_0 : string,
     input_tensors node !! shape_node = None ->
     outputs node !! 0%nat = Some output_0 ->
     _convert_reshape node w =
       Ok tt
         (World (builder w ++
                   [Layer "add_reshape_dynamic"
                      [("name", VStr (name node));
                       ("input_names", names (inputs node));
                       ("output_name", VStr output_0)]])
                (graph w)))
  /\ (forall input_0 : string,
        is_Some (input_tensors node !! shape_node) ->
        inputs node !! 0%nat = Some input_0 ->
        shape_dict (graph w) !! input_0 = None ->
        _convert_reshape node w =
          Raise (UnsupportedOpConfiguration
                   "Input shape not represented in graph") w).
Proof.
  intros Hi1. split.
  - intros output_0 Ht Ho. apply wp_run. unfold _convert_reshape.
    repeat wp_step. rewrite Ht. repeat wp_step. reflexivity.
  - intros input_0 [t Ht] Hi0 Hs. apply wp_run. unfold _convert_reshape.
    repeat wp_step. rewrite Ht. repeat wp_step. rewrite Hs.
    rewrite bool_decide_false by (intros [? ?]; discriminate).
    unfold unsupported_op_configuration. repeat wp_step. reflexivity.
Qed.

(** X12. A constant target shape shorter than the rank [r] of the data input,
    made only of [0] and [-1] with at most one [-1], is converted by two
    layers.  The first is a rank-preserving reshape whose shape keeps the
    target up to and including its first [-1] (all of it when there is
    none) and is filled up with ones; it has exactly [r] entries.  The
    second squeezes the last [r - m] axes, [m] being the length of the
    target, so that the output has rank [m]. *)
Theorem convert_reshape_reduces_rank (node : Node scalar) (w : world scalar)
    (input_0 shape_node output_0 : string) (entries : list scalar)
    (input_shape : list Z) :
  inputs node !! 0%nat = Some input_0 ->
  inputs node !! 1%nat = Some shape_node ->
  outputs node !! 0%nat = Some output_0 ->
  input_tensors node !! shape_node = Some (NDArray [length entries] entries) ->
  shape_dict (graph w) !! input_0 = Some input_shape ->
  (0 < length entries < length input_shape)%nat ->
  Forall (fun x => scalar_eq_int x 0 = true \/ scalar_eq_int x (-1) = true)
         entries ->
  (length (List.filter (fun x => scalar_eq_int x (-1)) entries) <= 1)%nat ->
  exists k : nat,
    (k < length entries)%nat
    /\ Forall (fun x => scalar_eq_int x (-1) = false) (take k entries)
    /\ (S k = length entries
        \/ exists x, entries !! k = Some x /\ scalar_eq_int x (-1) = true)
    /\ let new_shape :=
         (VScalar <$> take (S k) entries)
         ++ replicate (length input_shape - S k) (VInt 1) in
       let squeeze_axes :=
         reverse (range (len entries - len input_shape) 0) in
       _convert_reshape node w =
         Ok tt
           (World (builder w ++
                     [Layer "add_rank_preserving_reshape"
                        [("name", VStr (name node +:+ "_reshape_preserving"));
                         ("input_name", VStr input_0);
                         ("output_name",
                          VStr (output_0 +:+ "_reshape_dim_preserved"));
                         ("output_shape", VList new_shape)];
                      Layer "add_squeeze"
                        [("name", VStr (name node));
                         ("input_name",
                          VStr (output_0 +:+ "_reshape_dim_preserved"));
                         ("output_name", VStr output_0);
                         ("axes", ints squeeze_axes)]])
                  (graph w))
       /\ length new_shape = length input_shape
       /\ squeeze_axes
          = (fun j => - Z.of_nat j)
            <$> seq 1 (length input_shape - length entries).
Proof.
  intros Hi0 Hi1 Ho Ht Hs Hlen Hall Hone.
  destruct (copy_until_wildcard_spec entries 0 [])
    as (k & Hk & Hbefore & Hend & Hcopy);
    [intros ->; simpl in Hlen; lia|].
  exists k. split; [exact Hk|]. split; [exact Hbefore|]. split; [exact Hend|].
  intros new_shape squeeze_axes. split; [|split].
  - apply wp_run. unfold _convert_reshape, ndarray_len, elements.
    repeat wp_step. rewrite Ht.
    repeat wp_step. rewrite Hs.
    rewrite bool_decide_true by (eexists; reflexivity).
    repeat wp_step. cbn [shape data].
    repeat wp_step.
    assert (Hne : (Z.of_nat (length entries) =? len input_shape) = false)
      by (apply Z.eqb_neq; unfold len; lia).
    assert (Hlt : (Z.of_nat (length entries) <? len input_shape) = true)
      by (apply Z.ltb_lt; unfold len; lia).
    rewrite Hne, Hlt.
    repeat wp_step.
    rewrite count_zeros_neg_ones_eq.
    assert (Hfew : (1 <? Z.of_nat (length (List.filter
                      (fun x => scalar_eq_int x (-1)) entries))) = false)
      by (apply Z.ltb_ge; lia).
    rewrite Hfew. repeat wp_step.
    assert (Hsum : (Z.of_nat (length (List.filter
                      (fun x => scalar_eq_int x (-1)) entries))
                    + Z.of_nat (length (List.filter
                      (fun x => scalar_eq_int x 0) entries))
                    =? Z.of_nat (length entries)) = true).
    { apply Z.eqb_eq. pose proof (zeros_and_wildcards_count entries Hall). lia. }
    rewrite Hsum, Hcopy.
    repeat wp_step. cbn [builder graph]. rewrite <- app_assoc.
    unfold pad_ones. cbn [app].
    replace (Z.to_nat (len input_shape - 1 - (0 + Z.of_nat k)))
      with (length input_shape - S k)%nat by (unfold len; lia).
    reflexivity.
  - subst new_shape.
    rewrite length_app, length_fmap, length_take, length_replicate. lia.
  - subst squeeze_axes. unfold range, seqZ, len.
    replace (Z.to_nat (0 - (Z.of_nat (length entries)
                            - Z.of_nat (length input_shape))))
      with (length input_shape - length entries)%nat by lia.
    remember (length input_shape - length entries)%nat as d eqn:Hd.
    replace (Z.of_nat (length entries) - Z.of_nat (length input_shape))
      with (- Z.of_nat d) by lia.
    clear. apply list_eq. intros i.
    destruct (decide (i < d)%nat) as [Hi|Hi].
    + rewrite reverse_lookup by (rewrite length_fmap, length_seq; exact Hi).
      rewrite length_fmap, length_seq, !list_lookup_fmap.
      rewrite !lookup_seq_lt by lia. simpl. f_equal. lia.
    + rewrite lookup_ge_None_2
        by (rewrite length_reverse, length_fmap, length_seq; lia).
      rewrite lookup_ge_None_2 by (rewrite length_fmap, length_seq; lia).
      reflexivity.
Qed.

(** X13. A constant target shape shorter than the rank of the data input and
    holding more than one [-1] is refused with the unsupported-configuration
    error, which reports how many were found; nothing is emitted. *)
Theorem convert_reshape_many_wildcards (node : Node scalar) (w : world scalar)
    (input_0 shape_node : string) (entries : list scalar)
    (input_shape : list Z) :
  inputs node !! 0%nat = Some input_0 ->
  inputs node !! 1%nat = Some shape_node ->
  input_tensors node !! shape_node = Some (NDArray [length entries] entries) ->
  shape_dict (graph w) !! input_0 = Some input_shape ->
  (length entries < length input_shape)%nat ->
  let found := length (List.filter (fun x => scalar_eq_int x (-1)) entries) in
  (1 < found)%nat ->
  _convert_reshape node w =
    Raise (UnsupportedOpConfiguration
             ("Error in ONNX model: At most one dimension of new shape can be -1, found "
              +:+ str (Z.of_nat found))) w.
Proof.
  intros Hi0 Hi1 Ht Hs Hlen found Hmany.
  apply wp_run. unfold _convert_reshape, ndarray_len, elements.
  repeat wp_step. rewrite Ht.
  repeat wp_step. rewrite Hs.
  rewrite bool_decide_true by (eexists; reflexivity).
  repeat wp_step. cbn [shape data].
  repeat wp_step.
  assert (Hne : (Z.of_nat (length entries) =? len input_shape) = false)
    by (apply Z.eqb_neq; unfold len; lia).
  assert (Hlt : (Z.of_nat (length entries) <? len input_shape) = true)
    by (apply Z.ltb_lt; unfold len; lia).
  rewrite Hne, Hlt.
  repeat wp_step.
  rewrite count_zeros_neg_ones_eq.
  assert (Hfew : (1 <? Z.of_nat found) = true) by (apply Z.ltb_lt; lia).
  fold found. rewrite Hfew.
  unfold unsupported_op_configuration. repeat wp_step. reflexivity.
Qed.

(** X14. A constant target shape at least as long as the rank of the data input
    is passed on unchanged: to a rank-preserving reshape when the lengths
    agree, to a static reshape when the target is longer. *)
Theorem convert_reshape_same_or_higher_rank (node : Node scalar)
    (w : world scalar) (input_0 shape_node output_0 : string)
    (output_shape : ndarray scalar) (m : nat) (dims : list nat)
    (input_shape : list Z) :
  inputs node !! 0%nat = Some input_0 ->
  inputs node !! 1%nat = Some shape_node ->
  outputs node !! 0%nat = Some output_0 ->
  input_tensors node !! shape_node = Some output_shape ->
  shape output_shape = m :: dims ->
  shape_dict (graph w) !! input_0 = Some input_shape ->
  (length input_shape <= m)%nat ->
  _convert_reshape node w =
    Ok tt
      (World (builder w ++
                [Layer (if (m =? length input_shape)%nat
                        then "add_rank_preserving_reshape"
                        else "add_reshape_static")
                   [("name", VStr (name node)); ("input_name", VStr input_0);
                    ("output_name", VStr output_0);
                    ("output_shape", VArray output_shape)]])
             (graph w)).
Proof.
  intros Hi0 Hi1 Ho Ht Hshape Hs Hlen.
  apply wp_run. unfold _convert_reshape, ndarray_len.
  repeat wp_step. rewrite Ht.
  repeat wp_step. rewrite Hs.
  rewrite bool_decide_true by (eexists; reflexivity).
  repeat wp_step. rewrite Hshape. repeat wp_step.
  destruct (Nat.eqb_spec m (length input_shape)) as [Heq|Hneq].
  - assert (Hsame : (Z.of_nat m =? len input_shape) = true)
      by (apply Z.eqb_eq; unfold len; lia).
    rewrite Hsame. repeat wp_step. reflexivity.
  - assert (Hne : (Z.of_nat m =? len input_shape) = false)
      by (apply Z.eqb_neq; unfold len; lia).
    assert (Hge : (Z.of_nat m <? len input_shape) = false)
      by (apply Z.ltb_ge; unfold len; lia).
    rewrite Hne, Hge. repeat wp_step. reflexivity.
Qed.

(** ** Slice: the begin and end indices *)

(** The run of [_convert_slice] on a well-formed node, with the four lists
    as the loop leaves them. *)
Lemma convert_slice_run (node : Node scalar) (w : world scalar)
    (input_0 output_0 : string) (data_shape starts ends axes : list Z) :
  inputs node !! 0%nat = Some input_0 ->
  outputs node !! 0%nat = Some output_0 ->
  shape_dict (graph w) !! input_0 = Some data_shape ->
  attrs node !! "starts" = Some (AInts starts) ->
  attrs node !! "ends" = Some (AInts ends) ->
  slice_axes node data_shape = Some axes ->
  length starts = length axes ->
  length ends = length axes ->
  Forall (fun a => - len data_shape <= a < len data_shape) axes ->
  let n := length data_shape in
  _convert_slice node w =
    Ok tt
      (World (builder w ++
                [Layer "add_slice_static"
                   [("name", VStr (name node));
                    ("input_name", VStr input_0);
                    ("output_name", VStr output_0);
                    ("begin_ids",
                     ints (ids_fold n (zip axes starts) (replicate n 0)));
                    ("end_ids",
                     ints (ids_fold n (zip axes ends) (replicate n 0)));
                    ("strides",
                     attrs_get node "steps" (ints (replicate n 1)));
                    ("begin_masks",
                     bools (mask_fold n begin_hit (zip axes starts)
                              (replicate n true)));
                    ("end_masks",
                     bools (mask_fold n (end_hit end_bound_used data_shape)
                              (zip axes ends) (replicate n true)))]])
             (graph w)).
Proof.
  intros Hi0 Ho0 Hshape Hstarts Hends Haxes Hls Hle Hrange n.
  assert (Hattr : exists axes_attr,
             default (AInts (range 0 (len data_shape))) (attrs node !! "axes")
             = AInts axes_attr /\ axes_attr = axes).
  { unfold slice_axes in Haxes. destruct (attrs node !! "axes") as [[]|];
      simplify_eq/=; eauto. }
  destruct Hattr as (axes_attr & Hattr & ->).
  apply wp_run. unfold _convert_slice.
  repeat wp_step. cbv zeta. rewrite Hattr, Hstarts, Hends.
  unfold attr_len. repeat wp_step.
  pose proof (slice_loop_run data_shape starts ends axes w axes starts ends 0%nat
                (replicate n 0) (replicate n 0) (replicate n true) (replicate n true)
                eq_refl eq_refl eq_refl Hls Hle Hrange) as Hloop.
  rewrite !length_replicate in Hloop.
  specialize (Hloop eq_refl eq_refl eq_refl eq_refl).
  cbv zeta in Hloop. fold n in Hloop.
  unfold range. rewrite Z.sub_0_r. fold n.
  unfold wp at 1. change (Z.of_nat 0) with 0 in Hloop. rewrite Hloop.
  cbv beta iota. repeat wp_step. reflexivity.
Qed.

(** An axis no pair names keeps its entry. *)
Lemma ids_fold_lookup_unlisted (n : nat) (ps : list (Z * Z)) (ids : list Z)
    (k : nat) :
  k ∉ (norm_index n ∘ fst) <$> ps ->
  ids_fold n ps ids !! k = ids !! k.
Proof.
  unfold ids_fold. revert ids.
  induction ps as [|[a v] ps IH]; intros ids Hk; [reflexivity|].
  cbn [fold_left]. rewrite fmap_cons, not_elem_of_cons in Hk.
  destruct Hk as [Hne Hk]. rewrite IH by exact Hk.
  apply list_lookup_insert_ne. intros Heq. apply Hne. symmetry. exact Heq.
Qed.

(** When no axis is named twice, the entry of a named axis is the value
    paired with it. *)
Lemma ids_fold_lookup_listed (n : nat) (ps : list (Z * Z)) (ids : list Z)
    (i : nat) (a v : Z) :
  NoDup ((norm_index n ∘ fst) <$> ps) ->
  ps !! i = Some (a, v) ->
  (norm_index n a < length ids)%nat ->
  ids_fold n ps ids !! norm_index n a = Some v.
Proof.
  revert i ids.
  induction ps as [|[a' v'] ps IH]; intros i ids Hnd Hi Hlt; [discriminate|].
  rewrite fmap_cons, NoDup_cons in Hnd. destruct Hnd as [Hfresh Hnd].
  change (ids_fold n ((a', v') :: ps) ids)
    with (ids_fold n ps (<[norm_index n a' := v']> ids)).
  destruct i as [|i].
  - injection Hi as -> ->.
    rewrite ids_fold_lookup_unlisted by exact Hfresh.
    apply list_lookup_insert_eq. exact Hlt.
  - apply (IH i); [exact Hnd | exact Hi | rewrite length_insert; exact Hlt].
Qed.

Lemma zip_fst_fmap {A B C} (f : A -> C) (l : list A) (k : list B) :
  length k = length l -> (f ∘ fst) <$> zip l k = f <$> l.
Proof.
  revert k. induction l as [|x l IH]; intros [|y k] Hlen;
    try discriminate; [reflexivity|].
  simpl. f_equal. apply IH. simpl in Hlen. lia.
Qed.

(** X15. A Slice node that names no axis twice emits a static-slice layer whose
    begin and end indices have one entry per axis of the data: at a named
    axis (negative axes counted from the end) the start and the end given
    for it, at every other axis 0. *)
Theorem convert_slice_ids (node : Node scalar) (w : world scalar)
    (input_0 output_0 : string) (data_shape starts ends axes : list Z) :
  inputs node !! 0%nat = Some input_0 ->
  outputs node !! 0%nat = Some output_0 ->
  shape_dict (graph w) !! input_0 = Some data_shape ->
  attrs node !! "starts" = Some (AInts starts) ->
  attrs node !! "ends" = Some (AInts ends) ->
  slice_axes node data_shape = Some axes ->
  length starts = length axes ->
  length ends = length axes ->
  Forall (fun a => - len data_shape <= a < len data_shape) axes ->
  let n := length data_shape in
  NoDup (norm_index n <$> axes) ->
  exists (begin_ids end_ids : list Z) (strides begin_masks end_masks : value scalar),
    _convert_slice node w =
      Ok tt
        (World (builder w ++
                  [Layer "add_slice_static"
                     [("name", VStr (name node));
                      ("input_name", VStr input_0);
                      ("output_name", VStr output_0);
                      ("begin_ids", ints begin_ids);
                      ("end_ids", ints end_ids);
                      ("strides", strides);
                      ("begin_masks", begin_masks);
                      ("end_masks", end_masks)]])
               (graph w))
    /\ length begin_ids = n /\ length end_ids = n
    /\ (forall (i : nat) (a start end_ : Z),
          axes !! i = Some a -> starts !! i = Some start ->
          ends !! i = Some end_ ->
          begin_ids !! norm_index n a = Some start
          /\ end_ids !! norm_index n a = Some end_)
    /\ (forall k : nat,
          (k < n)%nat -> k ∉ norm_index n <$> axes ->
          begin_ids !! k = Some 0 /\ end_ids !! k = Some 0).
Proof.
  intros Hi0 Ho0 Hshape Hstarts Hends Haxes Hls Hle Hrange n Hnd.
  eexists _, _, _, _, _. split.
  { apply (convert_slice_run node w input_0 output_0 data_shape starts ends axes);
      assumption. }
  fold n. rewrite !ids_fold_length, length_replicate.
  split; [reflexivity|]. split; [reflexivity|]. split.
  - intros i a start end_ Ha Hs He.
    assert (Hlt : (norm_index n a < n)%nat).
    { apply norm_index_lt. eapply Forall_lookup_1 in Hrange; [|exact Ha].
      exact Hrange. }
    split.
    + apply (ids_fold_lookup_listed n _ _ i).
      * rewrite zip_fst_fmap by exact Hls. exact Hnd.
      * rewrite lookup_zip_with, Ha. simpl. rewrite Hs. reflexivity.
      * rewrite length_replicate. exact Hlt.
    + apply (ids_fold_lookup_listed n _ _ i).
      * rewrite zip_fst_fmap by exact Hle. exact Hnd.
      * rewrite lookup_zip_with, Ha. simpl. rewrite He. reflexivity.
      * rewrite length_replicate. exact Hlt.
  - intros k Hk Hnot.
    rewrite !ids_fold_lookup_unlisted
      by (rewrite zip_fst_fmap by assumption; exact Hnot).
    rewrite lookup_replicate_2 by exact Hk. auto.
Qed.

(** X16. Without an [axes] attribute the starts and the ends are taken for the
    axes in order: given one start and one end per axis of the data, the
    begin indices of the emitted layer are the starts and its end indices
    the ends. *)
Theorem convert_slice_default_axes (node : Node scalar) (w : world scalar)
    (input_0 output_0 : string) (data_shape starts ends : list Z) :
  inputs node !! 0%nat = Some input_0 ->
  outputs node !! 0%nat = Some output_0 ->
  shape_dict (graph w) !! input_0 = Some data_shape ->
  attrs node !! "starts" = Some (AInts starts) ->
  attrs node !! "ends" = Some (AInts ends) ->
  attrs node !! "axes" = None ->
  length starts = length data_shape ->
  length ends = length data_shape ->
  exists strides begin_masks end_masks : value scalar,
    _convert_slice node w =
      Ok tt
        (World (builder w ++
                  [Layer "add_slice_static"
                     [("name", VStr (name node));
                      ("input_name", VStr input_0);
                      ("output_name", VStr output_0);
                      ("begin_ids", ints starts);
                      ("end_ids", ints ends);
                      ("strides", strides);
                      ("begin_masks", begin_masks);
                      ("end_masks", end_masks)]])
               (graph w)).
Proof.
  intros Hi0 Ho0 Hshape Hstarts Hends Haxes Hls Hle.
  set (n := length data_shape).
  set (axes := range 0 (len data_shape)).
  assert (Hlen : length axes = n).
  { subst axes. unfold range, len. rewrite length_seqZ. lia. }
  assert (Hax : forall k : nat, (k < n)%nat -> axes !! k = Some (Z.of_nat k)).
  { intros k Hk. subst axes. unfold range, len.
    rewrite lookup_seqZ. split; [reflexivity|]. fold n. lia. }
  assert (Hnorm : norm_index n <$> axes = seq 0 n).
  { apply list_eq. intros k. rewrite list_lookup_fmap.
    destruct (decide (k < n)%nat) as [Hk|Hk].
    - rewrite (Hax k Hk), lookup_seq_lt by exact Hk. simpl. f_equal.
      unfold norm_index. destruct (Z.ltb_spec (Z.of_nat k) 0); lia.
    - rewrite lookup_ge_None_2 by lia. rewrite lookup_seq_ge by lia.
      reflexivity. }
  assert (Hfold : forall vs : list Z,
             length vs = n ->
             ids_fold n (zip axes vs) (replicate n 0) = vs).
  { intros vs Hvs. apply list_eq. intros k.
    destruct (decide (k < n)%nat) as [Hk|Hk].
    - destruct (lookup_lt_is_Some_2 vs k) as [v Hv]; [lia|].
      rewrite Hv.
      replace k with (norm_index n (Z.of_nat k)) at 1
        by (unfold norm_index; destruct (Z.ltb_spec (Z.of_nat k) 0); lia).
      apply (ids_fold_lookup_listed n _ _ k).
      + rewrite zip_fst_fmap by lia. rewrite Hnorm. apply NoDup_seq.
      + rewrite lookup_zip_with, (Hax k Hk). simpl. rewrite Hv. reflexivity.
      + rewrite length_replicate.
        unfold norm_index; destruct (Z.ltb_spec (Z.of_nat k) 0); lia.
    - rewrite !lookup_ge_None_2;
        [reflexivity | lia | rewrite ids_fold_length, length_replicate; lia]. }
  eexists _, _, _.
  rewrite (convert_slice_run node w input_0 output_0 data_shape starts ends axes);
    try assumption.
  - cbv zeta. fold n. rewrite !Hfold by assumption. reflexivity.
  - unfold slice_axes. rewrite Haxes. reflexivity.
  - lia.
  - lia.
  - subst axes. unfold range. apply Forall_forall. intros a Ha.
    apply elem_of_seqZ in Ha. unfold len in *. lia.
Qed.

(** X17. What Slice needs.  When the shape of the data input is not in the
    shape dictionary the conversion stops with a key error.  When the
    shape is known with at least one axis and the node has neither an
    [axes] nor a [starts] attribute, reading the first start fails with a
    type error.  In both cases nothing is emitted. *)
Theorem convert_slice_requirements (node : Node scalar) (w : world scalar)
    (input_0 : string) :
  inputs node !! 0%nat = Some input_0 ->
  (shape_dict (graph w) !! input_0 = None ->
   _convert_slice node w = Raise PyKeyError w)
  /\ (forall data_shape : list Z,
        shape_dict (graph w) !! input_0 = Some data_shape ->
        data_shape <> [] ->
        attrs node !! "axes" = None ->
        attrs node !! "starts" = None ->
        _convert_slice node w = Raise PyTypeError w).
Proof.
  intros Hi0. split.
  - intros Hs. unfold _convert_slice.
    rewrite (bind_getitem _ 0 0%nat input_0) by (reflexivity || assumption).
    unfold bind at 1, shape_dict_item. rewrite Hs. reflexivity.
  - intros data_shape Hs Hne Haxes Hstarts. apply wp_run.
    unfold _convert_slice. repeat wp_step. cbv zeta.
    rewrite Haxes, Hstarts. cbn [default attr_len]. repeat wp_step.
    destruct data_shape as [|d data_shape]; [congruence|].
    unfold range, len. rewrite !Z.sub_0_r. cbn [length].
    rewrite length_seqZ, Z2Nat.id by lia.
    rewrite (seqZ_cons 0) by lia.
    cbn [for_each]. repeat wp_step.
    unfold slice_step, int_item. repeat wp_step.
    eapply (wp_getitem _ 0%nat); [reflexivity|].
    repeat wp_step. reflexivity.
Qed.

(** ** ConstantOfShape *)

(** X18. With a constant shape operand the fill is static and its shape never
    has rank 1: a one-dimensional shape tensor of [n] entries is passed as
    an [n] by 1 array with the same entries, any other as it is.  Without a
    constant shape operand the fill is dynamic and reads the shape from the
    input.  The fill value defaults to 0.0. *)
Theorem convert_constant_of_shape_fill (node : Node scalar) (w : world scalar)
    (input_0 output_0 : string) :
  inputs node !! 0%nat = Some input_0 ->
  outputs node !! 0%nat = Some output_0 ->
  attrs node !! "value" = None ->
  (forall t : ndarray scalar,
     input_tensors node !! input_0 = Some t ->
     exists a : ndarray scalar,
       _convert_constant_of_shape node w =
         Ok tt
           (World (builder w ++
                     [Layer "add_fill_static"
                        [("name", VStr (name node));
                         ("output_name", VStr output_0);
                         ("output_shape", VArray a); ("value", VFloat 0)]])
                  (graph w))
       /\ data a = data t
       /\ length (shape a) <> 1%nat
       /\ (forall n : nat, shape t = [n] -> shape a = [n; 1%nat])
       /\ (length (shape t) <> 1%nat -> a = t))
  /\ (input_tensors node !! input_0 = None ->
      _convert_constant_of_shape node w =
        Ok tt
          (World (builder w ++
                    [Layer "add_fill_dynamic"
                       [("name", VStr (name node));
                        ("input_name", VStr input_0);
                        ("output_name", VStr output_0);
                        ("value", VFloat 0)]])
                 (graph w))).
Proof.
  intros Hi0 Ho Hv. split.
  - intros t Ht.
    exists (match shape t with
            | [n] => NDArray [n; 1%nat] (data t)
            | _ => t
            end).
    split; [|split; [|split; [|split]]].
    + apply wp_run. unfold _convert_constant_of_shape, attr_first.
      repeat wp_step. rewrite Ht, Hv. repeat wp_step. reflexivity.
    + destruct (shape t) as [|n [|]]; reflexivity.
    + destruct (shape t) as [|n [|]] eqn:Hshape; cbn [shape length];
        rewrite ?Hshape; cbn [length]; lia.
    + intros n ->. reflexivity.
    + intros Hrank. destruct (shape t) as [|n [|]]; try reflexivity.
      simpl in Hrank. lia.
  - intros Ht. apply wp_run. unfold _convert_constant_of_shape, attr_first.
    repeat wp_step. rewrite Ht, Hv. repeat wp_step. reflexivity.
Qed.

(** ** LSTM: what is refused before anything is emitted *)

(** A run that raises and leaves the state as it found it. *)
Lemma wp_bind_pure {A B} (m : M scalar A) (k : A -> M scalar B)
    (w : world scalar) :
  pure m ->
  (forall a, wp (k a) (fun _ _ => False) (fun _ w' => w' = w) w) ->
  wp (bind m k) (fun _ _ => False) (fun _ w' => w' = w) w.
Proof.
  intros Hm Hk. unfold wp, bind. specialize (Hm w).
  destruct (m w) as [a w1|e w1]; simpl in Hm; subst w1; [apply Hk | reflexivity].
Qed.

(** X19. An [activations] attribute with fewer than three names is refused with
    the unsupported-configuration error; nothing is emitted. *)
Theorem convert_lstm_few_activations (node : Node scalar) (w : world scalar)
    (activations_list : list string) :
  attrs node !! "activations" = Some (AStrings activations_list) ->
  (length activations_list < 3)%nat ->
  _convert_lstm node w =
    Raise (UnsupportedOpConfiguration
             "Error in ONNX model: Less number of activations provided") w.
Proof.
  intros Hact Hlen. apply wp_run. unfold _convert_lstm.
  unfold unsupported_feature_warning at 1.
  apply wp_bind.
  destruct (bool_decide (is_Some (attrs node !! "activation_alpha"))
            || bool_decide (is_Some (attrs node !! "activation_beta")));
    apply wp_ret; rewrite Hact; cbn [attr_len].
  all: repeat wp_step.
  all: assert (Hfew : (len activations_list <? 3) = true)
         by (apply Z.ltb_lt; unfold len; lia).
  all: rewrite Hfew; unfold unsupported_op_configuration.
  all: repeat wp_step; reflexivity.
Qed.

(** X20. When the shape of the primary input is not in the shape dictionary the
    conversion fails, and it has emitted nothing and recorded nothing when
    it does: reading the attributes and repacking the weights touch neither
    the builder nor the graph. *)
Theorem convert_lstm_unknown_input_shape (node : Node scalar)
    (w : world scalar) (input_0 : string) :
  inputs node !! 0%nat = Some input_0 ->
  shape_dict (graph w) !! input_0 = None ->
  exists e : exn, _convert_lstm node w = Raise e w.
Proof.
  intros Hi0 Hs.
  enough (Hwp : wp (_convert_lstm node) (fun _ _ => False)
                  (fun _ w' => w' = w) w).
  { apply wp_raises in Hwp as (e & w' & Hrun & ->). exists e. exact Hrun. }
  unfold _convert_lstm.
  repeat match goal with
         | |- wp (bind (in_shape_dict _) _) _ _ _ => fail 1
         | |- wp (bind (getitem (inputs node) 0) _) _ _ _ =>
             apply wp_bind; eapply (wp_getitem _ 0%nat); [exact Hi0|]
         | |- wp (let '(_, _) := ?p in _) _ _ _ => destruct p
         | |- wp (bind _ _) _ _ _ => apply wp_bind_pure; [pure_auto | intros ?]
         end.
  apply wp_bind, wp_in_shape_dict.
  rewrite bool_decide_false by (rewrite Hs; intros [? ?]; discriminate).
  apply wp_bind. unfold unsupported_op_configuration. apply wp_raise.
  reflexivity.
Qed.

(** ** The graph is changed by Concat and Gather only *)

(** The graph after is the graph before. *)
Definition graph_kept (w w' : world scalar) : Prop := graph w' = graph w.

Lemma graph_kept_refl (w : world scalar) : graph_kept w w.
Proof. reflexivity. Qed.

Lemma graph_kept_trans (w1 w2 w3 : world scalar) :
  graph_kept w1 w2 -> graph_kept w2 w3 -> graph_kept w1 w3.
Proof. unfold graph_kept. congruence. Qed.

Ltac keeps_graph_step :=
  match goal with
  | |- keeps graph_kept (bind _ _) =>
      apply (keeps_bind _ graph_kept_trans); [|intros ?]
  | |- keeps graph_kept (for_each _ _ _) =>
      apply (keeps_for_each _ graph_kept_refl graph_kept_trans); intros ? ?
  | |- keeps graph_kept (add_layer _ _) => intros ?; reflexivity
  | |- keeps graph_kept (add_load_constant_nd _ _ _ _) => intros ?; reflexivity
  | |- keeps graph_kept (expand_dim _ _ _ _) => intros ?; reflexivity
  | |- keeps graph_kept (match ?x with _ => _ end) => destruct x
  | |- keeps graph_kept _ =>
      apply (keeps_pure _ graph_kept_refl); solve [pure_auto]
  end.

Lemma convert_lstm_keeps_graph (node : Node scalar) :
  keeps graph_kept (_convert_lstm node).
Proof. unfold _convert_lstm. repeat keeps_graph_step. Qed.

Lemma convert_reshape_keeps_graph (node : Node scalar) :
  keeps graph_kept (_convert_reshape node).
Proof. unfold _convert_reshape. repeat keeps_graph_step. Qed.

Lemma other_converters_keep_graph (node : Node scalar) :
  keeps graph_kept (_convert_constant node)
  /\ keeps graph_kept (_convert_constant_of_shape node)
  /\ keeps graph_kept (_convert_matmul node)
  /\ keeps graph_kept (_convert_slice node)
  /\ keeps graph_kept (_convert_split node)
  /\ keeps graph_kept (_convert_shape node)
  /\ keeps graph_kept (_convert_squeeze node)
  /\ keeps graph_kept (_convert_transpose node)
  /\ keeps graph_kept (_convert_unsqueeze node).
Proof.
  unfold _convert_constant, _convert_constant_of_shape, _convert_matmul,
    _convert_slice, _convert_split, _convert_shape, _convert_squeeze,
    _convert_transpose, _convert_unsqueeze.
  repeat split; repeat keeps_graph_step.
Qed.

(** The registry holds the converter listed for a name. *)
Lemma registry_lookup_converter (op : string)
    (converter_fn : Node scalar -> M scalar unit) :
  (op, converter_fn)
    ∈ [("Constant", _convert_constant);
       ("ConstantOfShape", _convert_constant_of_shape);
       ("LSTM", _convert_lstm); ("MatMul", _convert_matmul);
       ("Reshape", _convert_reshape); ("Slice", _convert_slice);
       ("Split", _convert_split); ("Shape", _convert_shape);
       ("Squeeze", _convert_squeeze); ("Transpose", _convert_transpose);
       ("Unsqueeze", _convert_unsqueeze)] ->
  REGISTRY !! op = Some converter_fn.
Proof.
  intros Hin.
  repeat (apply elem_of_cons in Hin as [Hin|Hin];
          [injection Hin as -> ->; reflexivity|]).
  apply elem_of_nil in Hin. contradiction.
Qed.

(** X8. Whatever the node and however the conversion ends, the dispatcher
    leaves the graph (the shape dictionary and the set of loaded
    constants) as it was, unless the operator is Concat or Gather (or Relu,
    whose converter is imported).  So no other converter ever records a
    constant as loaded. *)
Theorem only_concat_and_gather_change_graph (node : Node scalar)
    (w : world scalar) :
  op_type node <> "Concat" -> op_type node <> "Gather" ->
  op_type node <> "Relu" ->
  graph (final (_convert_node_nd _convert_relu node w)) = graph w.
Proof.
  intros Hconcat Hgather Hrelu.
  destruct (decide (op_type node ∈ registered_ops)) as [Hin|Hout].
  - pose proof (convert_lstm_keeps_graph node) as Hlstm.
    pose proof (convert_reshape_keeps_graph node) as Hreshape.
    destruct (other_converters_keep_graph node)
      as (Hc & Hcs & Hmm & Hsl & Hsp & Hsh & Hsq & Htr & Hun).
    unfold _convert_node_nd, _get_node_converter_fn.
    unfold registered_ops in Hin.
    repeat (apply elem_of_cons in Hin as [Hin|Hin]; [try congruence|]);
      [..|apply elem_of_nil in Hin; contradiction].
    all: rewrite Hin.
    all: match goal with
         | |- context [_ONNX_NODE_REGISTRY_ND _ !! ?op] =>
             erewrite (registry_lookup_converter op) by (repeat constructor)
         end.
    all: rewrite bind_ret_l.
    all: match goal with
         | Hkeeps : keeps graph_kept ?m |- graph (final (?m _)) = _ =>
             apply Hkeeps
         end.
  - rewrite (unregistered_op_is_fatal node w Hout). reflexivity.
Qed.

End Properties.

(** * Runs on concrete nodes *)

(** C1 (the code departs from it).  A Concat node and a MatMul node
    converted in sequence share the constant ["W"]: the Concat converter
    loads it and records the name, and the MatMul converter, which
    neither consults nor updates the set, loads it once more. *)
Theorem matmul_reloads_shared_constant :
  exists w',
    convert_nodes relu_activation [concat_shared; matmul_shared] (fresh_world [])
      = Ok tt w'
    /\ "W" ∈ constants_loaded (graph w')
    /\ count_layers (loads_constant "W") (builder w') = 2%nat.
Proof.
  eexists. split; [vm_compute; reflexivity|].
  split; [|vm_compute; reflexivity].
  apply (bool_decide_unpack _). vm_compute. exact I.
Qed.

(** A registered operator goes to its converter, an unregistered one to
    the fatal error with nothing emitted. *)
Example dispatch_slice :
  _convert_node_nd relu_activation (slice_node [1] [2] [0])
    (fresh_world [("x", [4; 4])])
  = _convert_slice (slice_node [1] [2] [0]) (fresh_world [("x", [4; 4])]).
Proof. vm_compute. reflexivity. Qed.

Example dispatch_unregistered :
  _convert_node_nd relu_activation
    (make_node "n" "Softmax" ["x"] ["y"] [] []) (fresh_world [])
  = Raise (UnsupportedOp "Softmax") (fresh_world []).
Proof. vm_compute. reflexivity. Qed.

(** The example of the specification: [starts=[1], ends=[2], axes=[0]] on
    a tensor of static shape [[4, 4]]. *)
Example slice_example :
  _convert_slice (slice_node [1] [2] [0]) (fresh_world [("x", [4; 4])])
  = Ok tt
      (World [Layer "add_slice_static"
                [("name", VStr "s"); ("input_name", VStr "x");
                 ("output_name", VStr "y");
                 ("begin_ids", ints [1; 0]); ("end_ids", ints [2; 0]);
                 ("strides", ints [1; 1]);
                 ("begin_masks", bools [false; true]);
                 ("end_masks", bools [false; true])]]
             (graph (fresh_world [("x", [4; 4])]))).
Proof. vm_compute. reflexivity. Qed.

(** C5, as stated, fails: with [starts=[0], ends=[10], axes=[0]] on a
    tensor of shape [[4]] the end bound 10 is below the sentinel but not
    below the size 4, so the stated rule keeps the end mask true; the
    converter clears it, because 10 differs from the sentinel. *)
Lemma slice_end_mask_not_as_claimed :
  ~ slice_masks_spec end_bound_claimed (slice_node [0] [10] [0])
      (fresh_world [("x", [4])]).
Proof.
  intros Hclaim.
  destruct (Hclaim "x" "y" [4] [0] [10] [0]) as (begin_ids & end_ids & Hrun);
    try (vm_compute; reflexivity).
  { repeat constructor; vm_compute; discriminate. }
  vm_compute in Hrun. discriminate Hrun.
Qed.

Lemma convert_slice_masks_witness :
  exists begin_ids end_ids : list Z,
    _convert_slice (slice_node [0] [10] [0]) (fresh_world [("x", [4])])
    = Ok tt
        (World [Layer "add_slice_static"
                  [("name", VStr "s"); ("input_name", VStr "x");
                   ("output_name", VStr "y");
                   ("begin_ids", ints begin_ids); ("end_ids", ints end_ids);
                   ("strides", ints [1]);
                   ("begin_masks", bools [true]);
                   ("end_masks", bools [false])]]
               (graph (fresh_world [("x", [4])]))).
Proof.
  apply (convert_slice_masks (slice_node [0] [10] [0])
           (fresh_world [("x", [4])]) "x" "y" [4] [0] [10] [0]);
    try (vm_compute; reflexivity).
  repeat constructor; vm_compute; discriminate.
Defined.

(** C8 at a concrete Constant node. *)
Lemma convert_constant_raises_witness :
  _convert_constant constant_node (fresh_world [])
  = Raise PyTypeError
      (World [Layer "add_load_constant_nd"
                [("name", VStr "c"); ("output_name", VStr "c_out");
                 ("constant_value", VArray (NDArray [] [7]));
                 ("shape", ints [1])]]
             empty_graph).
Proof.
  apply (convert_constant_raises constant_node (fresh_world [])
           (NDArray [] [7]) "c_out"); vm_compute; reflexivity.
Defined.

(** C6 at a concrete Reshape node. *)
Lemma convert_reshape_rank_reduction_witness :
  _convert_reshape reshape_node (fresh_world [("x", [2; 3; 4])])
  = Ok tt
      (World [Layer "add_rank_preserving_reshape"
                [("name", VStr "r_reshape_preserving");
                 ("input_name", VStr "x");
                 ("output_name", VStr "y_reshape_dim_preserved");
                 ("output_shape", VList [VScalar 0; VScalar (-1); VInt 1])];
              Layer "add_squeeze"
                [("name", VStr "r");
                 ("input_name", VStr "y_reshape_dim_preserved");
                 ("output_name", VStr "y");
                 ("axes", ints [-1])]]
             (graph (fresh_world [("x", [2; 3; 4])]))).
Proof.
  apply (convert_reshape_rank_reduction reshape_node
           (fresh_world [("x", [2; 3; 4])]) "x" "shp" "y" 0 (-1) [2; 3; 4]);
    vm_compute; reflexivity.
Defined.

(** C3 at concrete weights: hidden size 1, input size 2. *)
Lemma get_weights_repacks_witness :
  get_weights (lstm_node None 1 ["X"; "W"; "R"; "B"])
    (NDArray [1; 4; 2]%nat [1; 2; 3; 4; 5; 6; 7; 8]) "W"
    (NDArray [1; 4; 1]%nat [11; 12; 13; 14]) "R"
    (Some (NDArray [1; 8]%nat [21; 22; 23; 24; 25; 26; 27; 28])) lstm_world
  = Ok ([NDArray [1; 2]%nat [1; 2]; NDArray [1; 2]%nat [5; 6];
         NDArray [1; 2]%nat [3; 4]; NDArray [1; 2]%nat [7; 8]],
        [NDArray [1%nat] [11]; NDArray [1%nat] [13];
         NDArray [1%nat] [12]; NDArray [1%nat] [14]],
        Some [NDArray [1%nat] [21 + 25]; NDArray [1%nat] [23 + 27];
              NDArray [1%nat] [22 + 26]; NDArray [1%nat] [24 + 28]])
       lstm_world.
Proof.
  assert (HW : Forall (fun c : list Z => length c = (1 * 2)%nat)
                 [[1; 2]; [3; 4]; [5; 6]; [7; 8]]) by (repeat constructor).
  assert (HR : Forall (fun c : list Z => length c = (1 * 1)%nat)
                 [[11]; [12]; [13]; [14]]) by (repeat constructor).
  assert (HB : Forall (fun c : list Z => length c = 1%nat)
                 [[21]; [22]; [23]; [24]; [25]; [26]; [27]; [28]])
    by (repeat constructor).
  pose proof (proj2 (get_weights_repacks (lstm_node None 1 ["X"; "W"; "R"; "B"])
                       "W" "R" 1 2 [1; 2] [3; 4] [5; 6] [7; 8]
                       [11] [12] [13] [14] lstm_world HW HR)
                [21] [22] [23] [24] [25] [26] [27] [28] HB) as Hrun.
  cbv zeta in Hrun. cbn [fmap list_fmap gate_shape zip_with] in Hrun.
  exact Hrun.
Defined.

(** C4 (the code departs from it).  The direction ["reverse"] is neither
    ["forward"] nor ["bidirectional"]; the converter does not reject it:
    the conversion completes and emits one unidirectional LSTM layer among
    its layers, as it does when the attribute is absent. *)
Theorem convert_lstm_reverse_not_rejected :
  _convert_lstm (lstm_node (Some "reverse") 1 ["X"; "W"; "R"; "B"]) lstm_world
  = _convert_lstm (lstm_node None 1 ["X"; "W"; "R"; "B"]) lstm_world
  /\ exists w',
       _convert_lstm (lstm_node (Some "reverse") 1 ["X"; "W"; "R"; "B"]) lstm_world
       = Ok tt w'
       /\ count_layers (is_method "add_unilstm") (builder w') = 1%nat
       /\ length (builder w') = 13%nat.
Proof.
  split; [vm_compute; reflexivity|].
  eexists. split; [vm_compute; reflexivity|].
  split; vm_compute; reflexivity.
Qed.

(** The two directions the converter knows. *)
Example convert_lstm_forward :
  exists w',
    _convert_lstm (lstm_node (Some "forward") 1 ["X"; "W"; "R"; "B"]) lstm_world
    = Ok tt w'
    /\ count_layers (is_method "add_unilstm") (builder w') = 1%nat
    /\ count_layers (is_method "add_bidirlstm") (builder w') = 0%nat.
Proof.
  eexists. split; [vm_compute; reflexivity|]. split; vm_compute; reflexivity.
Qed.

Example convert_lstm_bidirectional :
  exists w',
    _convert_lstm (lstm_node (Some "bidirectional") 2 ["X"; "W"; "R"; "B"]) lstm_world
    = Ok tt w'
    /\ count_layers (is_method "add_bidirlstm") (builder w') = 1%nat
    /\ count_layers (is_method "add_concat_nd") (builder w') = 2%nat
    /\ count_layers (is_method "add_unilstm") (builder w') = 0%nat.
Proof.
  eexists. split; [vm_compute; reflexivity|]. repeat split; vm_compute; reflexivity.
Qed.

(** C7 (the code departs from it).  With the weight tensor ["W"] absent
    from the node's constants, the converter fails in [np.split], which
    reads the shape of [None]; the test that would report the missing
    initializer comes later and is never reached.  Nothing is emitted. *)
Theorem convert_lstm_missing_W_raises_attribute_error :
  _convert_lstm lstm_missing_W lstm_world = Raise PyAttributeError lstm_world.
Proof. vm_compute. reflexivity. Qed.

(** C9 at a concrete node whose input has rank 5. *)
Lemma convert_lstm_rank_5_fails_witness :
  exists e w',
    _convert_lstm (lstm_node None 1 ["X"; "W"; "R"; "B"])
      (fresh_world [("X", [3; 1; 2; 1; 1])])
    = Raise e w'
    /\ extends (fun l => negb (is_lstm_layer l))
         (fresh_world [("X", [3; 1; 2; 1; 1])]) w'.
Proof.
  apply (convert_lstm_rank_5_fails (lstm_node None 1 ["X"; "W"; "R"; "B"])
           (fresh_world [("X", [3; 1; 2; 1; 1])]) "X" [3; 1; 2; 1; 1]).
  - vm_compute. reflexivity.
  - vm_compute. reflexivity.
  - simpl. lia.
Defined.

Example convert_lstm_rank_5_unbound :
  _convert_lstm (lstm_node None 1 ["X"; "W"; "R"; "B"])
    (fresh_world [("X", [3; 1; 2; 1; 1])])
  = Raise PyUnboundLocalError
      (World [Layer "add_load_constant_nd"
                [("name", VStr "lstm_load_initial_h_and_c");
                 ("output_name", VStr "X_h_input");
                 ("constant_value", VFloat 0);
                 ("shape", VList [VInt 1; VInt 1; VInt 1])]]
             (graph (fresh_world [("X", [3; 1; 2; 1; 1])]))).
Proof. vm_compute. reflexivity. Qed.

(** C10, as stated, fails: when the peephole input ["P"] is also the
    initial hidden state (inputs 5 and 7), the bidirectional layer reads the
    names ["P_f"] and ["P_b"], which the peephole split writes. *)
Lemma bidirlstm_reads_peephole_split_names :
  ~ bidirectional_peepholes_spec (fun _ _ => True) lstm_peepholes_as_state
      lstm_world.
Proof.
  intros [_ Hclaim].
  destruct (Hclaim "P" eq_refl) as [_ Hreads].
  { apply (bool_decide_unpack _). vm_compute. exact I. }
  destruct (List.find (fun l => is_method "add_bidirlstm" l && consumes "P_f" l)
              (emitted (_convert_lstm lstm_peepholes_as_state) lstm_world))
    as [l|] eqn:Hfind; [|vm_compute in Hfind; discriminate Hfind].
  apply List.find_some in Hfind as [Hin Hl].
  apply andb_prop in Hl as [Hm Hc].
  rewrite (Hreads I l "P_f") in Hc.
  - discriminate Hc.
  - apply list_elem_of_In. exact Hin.
  - exact Hm.
  - unfold peephole_outputs. repeat constructor.
Qed.

(** C10, amended, at a concrete bidirectional node whose peephole input
    ["P"] is apart from the initial states ["h0"] and ["c0"]. *)
Lemma convert_lstm_bidirectional_drops_peepholes_witness :
  Forall (fun l => peephole_free l = true)
    (emitted (_convert_lstm lstm_peepholes) lstm_world)
  /\ peephole_layers "P" (emitted (_convert_lstm lstm_peepholes) lstm_world)
  /\ forall (l : layer Z) (x : string),
       l ∈ emitted (_convert_lstm lstm_peepholes) lstm_world ->
       is_method "add_bidirlstm" l = true ->
       x ∈ peephole_outputs "P" -> consumes x l = false.
Proof.
  pose proof (convert_lstm_bidirectional_drops_peepholes lstm_peepholes lstm_world)
    as [Hfree Hrest].
  split; [exact Hfree|].
  destruct (Hrest "P" eq_refl) as [Hlayers Hreads].
  { apply (bool_decide_unpack _). vm_compute. exact I. }
  split; [exact Hlayers|].
  apply Hreads. split; vm_compute; discriminate.
Defined.

(** A Concat node and a Gather node that share the constant ["W"]. *)
Lemma concat_gather_pass_loads_once_witness :
  Forall (fun node : Node Z => op_type node = "Concat" \/ op_type node = "Gather")
    [concat_shared; gather_shared]
  /\ (count_layers (loads_constant "W")
        (emitted (convert_nodes relu_activation [concat_shared; gather_shared])
           (fresh_world [])) <= 1)%nat.
Proof.
  assert (Hops : Forall (fun node : Node Z =>
                           op_type node = "Concat" \/ op_type node = "Gather")
                   [concat_shared; gather_shared])
    by (apply Forall_cons_2; [left; reflexivity|];
        apply Forall_cons_2; [right; reflexivity|]; apply Forall_nil_2).
  split; [exact Hops|].
  exact (proj1 (concat_gather_pass_loads_once relu_activation
                  [concat_shared; gather_shared] (fresh_world []) "W" Hops)).
Defined.

(** ** The further properties on concrete nodes *)

Lemma concat_records_constants_witness :
  "W" ∈ constants_loaded
          (graph (final (_convert_concat concat_shared (fresh_world []))))
  /\ ("W" ∉ constants_loaded (graph (fresh_world [])) ->
      count_layers (loads_constant "W")
        (emitted (_convert_concat concat_shared) (fresh_world [])) = 1%nat).
Proof.
  apply (concat_records_constants concat_shared (fresh_world [])
           (final (_convert_concat concat_shared (fresh_world []))) "W").
  - vm_compute. reflexivity.
  - simpl. repeat constructor.
  - exists shared_weight. vm_compute. reflexivity.
Defined.

Lemma convert_matmul_weight_by_value_witness :
  _convert_matmul matmul_matrix (fresh_world [])
  = Ok tt
      (World ([] ++
                [Layer "add_batched_mat_mul"
                   [("name", VStr "mm2"); ("input_names", names ["y"]);
                    ("output_name", VStr "z");
                    ("weight_matrix_rows", VInt 2);
                    ("weight_matrix_columns", VInt 2);
                    ("W", VArray (NDArray [2; 2]%nat [1; 2; 3; 4]))]])
             empty_graph).
Proof.
  apply (convert_matmul_weight_by_value matmul_matrix (fresh_world [])
           "y" "M" "z" 2 2 [1; 2; 3; 4]); vm_compute; reflexivity.
Defined.

Lemma convert_matmul_weight_by_name_witness :
  _convert_matmul matmul_shared (fresh_world [])
  = Ok tt
      (World ([] ++
                [Layer "add_load_constant_nd"
                   [("name", VStr "mm_const_weight_input");
                    ("output_name", VStr "W");
                    ("constant_value", VArray shared_weight);
                    ("shape", shape_value shared_weight)]]
                ++ [Layer "add_batched_mat_mul"
                      [("name", VStr "mm"); ("input_names", names ["y"; "W"]);
                       ("output_name", VStr "z")]])
             empty_graph).
Proof.
  apply (convert_matmul_weight_by_name matmul_shared (fresh_world [])
           "y" "W" "z"); vm_compute; try reflexivity.
  intros Hrank. discriminate Hrank.
Defined.

Lemma convert_transpose_default_reverses_witness :
  _convert_transpose transpose_node (fresh_world [("x", [2; 3; 4])])
  = Ok tt
      (World ([] ++
                [Layer "add_transpose"
                   [("name", VStr "t"); ("axes", ints [-1; -2; -3]);
                    ("input_name", VStr "x"); ("output_name", VStr "y")]])
             (graph (fresh_world [("x", [2; 3; 4])])))
  /\ norm_index 3 <$> [-1; -2; -3] = reverse (seq 0 3).
Proof.
  apply (convert_transpose_default_reverses transpose_node
           (fresh_world [("x", [2; 3; 4])]) "x" "y" [2; 3; 4]);
    vm_compute; reflexivity.
Defined.

Lemma convert_gather_arity_witness :
  exists (loads : list (layer Z)) (g : Graph),
    _convert_gather gather_shared (fresh_world []) =
      Ok tt
        (World ([] ++ loads ++
                  [Layer "add_gather"
                     [("name", VStr "gat"); ("input_names", names ["W"; "idx"]);
                      ("output_name", VStr "g"); ("axis", VInt 0)]])
               g)
    /\ (length loads <= 2)%nat
    /\ Forall (fun l => is_method "add_load_constant_nd" l = true) loads.
Proof.
  apply (proj2 (convert_gather_arity gather_shared (fresh_world []))
           "W" "idx" "g"); vm_compute; reflexivity.
Defined.

Lemma convert_reshape_shape_operand_witness :
  _convert_reshape reshape_dynamic (fresh_world [])
  = Ok tt
      (World ([] ++
                [Layer "add_reshape_dynamic"
                   [("name", VStr "r"); ("input_names", names ["x"; "shp"]);
                    ("output_name", VStr "y")]])
             empty_graph)
  /\ _convert_reshape (reshape_to [0; -1]) (fresh_world [])
     = Raise (UnsupportedOpConfiguration "Input shape not represented in graph")
         (fresh_world []).
Proof.
  split.
  - apply (proj1 (convert_reshape_shape_operand reshape_dynamic (fresh_world [])
                    "shp" eq_refl) "y"); vm_compute; reflexivity.
  - apply (proj2 (convert_reshape_shape_operand (reshape_to [0; -1])
                    (fresh_world []) "shp" eq_refl) "x").
    + eexists. vm_compute. reflexivity.
    + vm_compute. reflexivity.
    + vm_compute. reflexivity.
Defined.

Lemma convert_reshape_reduces_rank_witness :
  exists k : nat,
    (k < 2)%nat
    /\ Forall (fun x => scalar_eq_int x (-1) = false) (take k [-1; 0])
    /\ (S k = 2%nat
        \/ exists x, [-1; 0] !! k = Some x /\ scalar_eq_int x (-1) = true)
    /\ let new_shape :=
         (VScalar <$> take (S k) [-1; 0]) ++ replicate (3 - S k) (VInt 1) in
       let squeeze_axes := reverse (range (2 - 3) 0) in
       _convert_reshape (reshape_to [-1; 0]) (fresh_world [("x", [2; 3; 4])]) =
         Ok tt
           (World ([] ++
                     [Layer "add_rank_preserving_reshape"
                        [("name", VStr "r_reshape_preserving");
                         ("input_name", VStr "x");
                         ("output_name", VStr "y_reshape_dim_preserved");
                         ("output_shape", VList new_shape)];
                      Layer "add_squeeze"
                        [("name", VStr "r");
                         ("input_name", VStr "y_reshape_dim_preserved");
                         ("output_name", VStr "y");
                         ("axes", ints squeeze_axes)]])
                  (graph (fresh_world [("x", [2; 3; 4])])))
       /\ length new_shape = 3%nat
       /\ squeeze_axes = (fun j => - Z.of_nat j) <$> seq 1 (3 - 2).
Proof.
  apply (convert_reshape_reduces_rank (reshape_to [-1; 0])
           (fresh_world [("x", [2; 3; 4])]) "x" "shp" "y" [-1; 0] [2; 3; 4]).
  - vm_compute. reflexivity.
  - vm_compute. reflexivity.
  - vm_compute. reflexivity.
  - vm_compute. reflexivity.
  - vm_compute. reflexivity.
  - simpl. lia.
  - apply Forall_cons_2; [right; reflexivity|].
    apply Forall_cons_2; [left; reflexivity|]. apply Forall_nil_2.
  - simpl. lia.
Defined.

Lemma convert_reshape_many_wildcards_witness :
  _convert_reshape (reshape_to [-1; -1]) (fresh_world [("x", [2; 3; 4])])
  = Raise (UnsupportedOpConfiguration
             ("Error in ONNX model: At most one dimension of new shape can be -1, found "
              +:+ str 2))
      (fresh_world [("x", [2; 3; 4])]).
Proof.
  refine (convert_reshape_many_wildcards (reshape_to [-1; -1])
            (fresh_world [("x", [2; 3; 4])]) "x" "shp" [-1; -1] [2; 3; 4]
            _ _ _ _ _ _).
  - vm_compute. reflexivity.
  - vm_compute. reflexivity.
  - vm_compute. reflexivity.
  - vm_compute. reflexivity.
  - simpl. lia.
  - simpl. lia.
Defined.

Lemma convert_reshape_same_or_higher_rank_witness :
  _convert_reshape (reshape_to [6; 2; 2; 1]) (fresh_world [("x", [2; 3; 4])])
  = Ok tt
      (World ([] ++
                [Layer "add_reshape_static"
                   [("name", VStr "r"); ("input_name", VStr "x");
                    ("output_name", VStr "y");
                    ("output_shape",
                     VArray (NDArray [4%nat] [6; 2; 2; 1]))]])
             (graph (fresh_world [("x", [2; 3; 4])]))).
Proof.
  apply (convert_reshape_same_or_higher_rank (reshape_to [6; 2; 2; 1])
           (fresh_world [("x", [2; 3; 4])]) "x" "shp" "y"
           (NDArray [4%nat] [6; 2; 2; 1]) 4 [] [2; 3; 4]).
  - vm_compute. reflexivity.
  - vm_compute. reflexivity.
  - vm_compute. reflexivity.
  - vm_compute. reflexivity.
  - reflexivity.
  - vm_compute. reflexivity.
  - simpl. lia.
Defined.

Lemma convert_slice_ids_witness :
  exists (begin_ids end_ids : list Z) (strides begin_masks end_masks : value Z),
    _convert_slice (slice_node [1] [3] [-1]) (fresh_world [("x", [5; 6])]) =
      Ok tt
        (World ([] ++
                  [Layer "add_slice_static"
                     [("name", VStr "s"); ("input_name", VStr "x");
                      ("output_name", VStr "y");
                      ("begin_ids", ints begin_ids);
                      ("end_ids", ints end_ids);
                      ("strides", strides);
                      ("begin_masks", begin_masks);
                      ("end_masks", end_masks)]])
               (graph (fresh_world [("x", [5; 6])])))
    /\ length begin_ids = 2%nat /\ length end_ids = 2%nat
    /\ (forall (i : nat) (a start end_ : Z),
          [-1] !! i = Some a -> [1] !! i = Some start ->
          [3] !! i = Some end_ ->
          begin_ids !! norm_index 2 a = Some start
          /\ end_ids !! norm_index 2 a = Some end_)
    /\ (forall k : nat,
          (k < 2)%nat -> k ∉ norm_index 2 <$> [-1] ->
          begin_ids !! k = Some 0 /\ end_ids !! k = Some 0).
Proof.
  apply (convert_slice_ids (slice_node [1] [3] [-1])
           (fresh_world [("x", [5; 6])]) "x" "y" [5; 6] [1] [3] [-1]).
  - vm_compute. reflexivity.
  - vm_compute. reflexivity.
  - vm_compute. reflexivity.
  - vm_compute. reflexivity.
  - vm_compute. reflexivity.
  - vm_compute. reflexivity.
  - reflexivity.
  - reflexivity.
  - repeat constructor; vm_compute; discriminate.
  - vm_compute. repeat constructor. intros Hin. inversion Hin.
Defined.

Lemma convert_slice_default_axes_witness :
  exists strides begin_masks end_masks : value Z,
    _convert_slice (slice_all_axes [1; 0] [3; 6]) (fresh_world [("x", [5; 6])]) =
      Ok tt
        (World ([] ++
                  [Layer "add_slice_static"
                     [("name", VStr "s"); ("input_name", VStr "x");
                      ("output_name", VStr "y");
                      ("begin_ids", ints [1; 0]);
                      ("end_ids", ints [3; 6]);
                      ("strides", strides);
                      ("begin_masks", begin_masks);
                      ("end_masks", end_masks)]])
               (graph (fresh_world [("x", [5; 6])]))).
Proof.
  apply (convert_slice_default_axes (slice_all_axes [1; 0] [3; 6])
           (fresh_world [("x", [5; 6])]) "x" "y" [5; 6] [1; 0] [3; 6]);
    vm_compute; reflexivity.
Defined.

Lemma convert_slice_requirements_witness :
  _convert_slice slice_bare (fresh_world []) = Raise PyKeyError (fresh_world [])
  /\ _convert_slice slice_bare (fresh_world [("x", [5; 6])])
     = Raise PyTypeError (fresh_world [("x", [5; 6])]).
Proof.
  split.
  - apply (proj1 (convert_slice_requirements slice_bare (fresh_world [])
                    "x" eq_refl)).
    vm_compute. reflexivity.
  - apply (proj2 (convert_slice_requirements slice_bare
                    (fresh_world [("x", [5; 6])]) "x" eq_refl) [5; 6]).
    + vm_compute. reflexivity.
    + discriminate.
    + vm_compute. reflexivity.
    + vm_compute. reflexivity.
Defined.

Lemma convert_constant_of_shape_fill_witness :
  exists a : ndarray Z,
    _convert_constant_of_shape constant_of_shape_node (fresh_world []) =
      Ok tt
        (World ([] ++
                  [Layer "add_fill_static"
                     [("name", VStr "f"); ("output_name", VStr "y");
                      ("output_shape", VArray a); ("value", VFloat 0)]])
               empty_graph)
    /\ data a = [3; 4]
    /\ length (shape a) <> 1%nat
    /\ (forall n : nat, [2%nat] = [n] -> shape a = [n; 1%nat])
    /\ (1%nat <> 1%nat -> a = NDArray [2%nat] [3; 4]).
Proof.
  apply (proj1 (convert_constant_of_shape_fill constant_of_shape_node
                  (fresh_world []) "shp" "y" eq_refl eq_refl eq_refl)
           (NDArray [2%nat] [3; 4])).
  vm_compute. reflexivity.
Defined.

Lemma convert_lstm_few_activations_witness :
  _convert_lstm lstm_one_activation lstm_world
  = Raise (UnsupportedOpConfiguration
             "Error in ONNX model: Less number of activations provided")
      lstm_world.
Proof.
  apply (convert_lstm_few_activations lstm_one_activation lstm_world
           ["Sigmoid"]).
  - vm_compute. reflexivity.
  - simpl. lia.
Defined.

Lemma convert_lstm_unknown_input_shape_witness :
  exists e : exn,
    _convert_lstm (lstm_node None 1 ["X"; "W"; "R"; "B"]) (fresh_world [])
    = Raise e (fresh_world []).
Proof.
  apply (convert_lstm_unknown_input_shape
           (lstm_node None 1 ["X"; "W"; "R"; "B"]) (fresh_world []) "X");
    vm_compute; reflexivity.
Defined.

Lemma convert_lstm_never_missing_initializer_witness :
  PyAttributeError <> MissingInitializer (not_found "W").
Proof.
  apply (convert_lstm_never_missing_initializer lstm_missing_W lstm_world
           lstm_world PyAttributeError (not_found "W")).
  vm_compute. reflexivity.
Defined.

Lemma only_concat_and_gather_change_graph_witness :
  graph (final (_convert_node_nd relu_activation matmul_shared (fresh_world [])))
  = graph (fresh_world []).
Proof.
  apply (only_concat_and_gather_change_graph relu_activation matmul_shared
           (fresh_world [])); vm_compute; discriminate.
Defined.
